(** * The stall detector of [consumers/csv_consumer_davidrm.py]

    A shallow embedding of the temperature consumer: the builtins it calls
    ([int], [float], [str.replace], [max], [min], [collections.deque]), the
    logger as a trace of structured records, exceptions as a result type,
    and the functions [get_rolling_window_size], [get_stall_threshold],
    [detect_stall], [process_message] and [main].

    Python floats are IEEE-754 binary64 values: they are modelled by Rocq's
    primitive floats, whose operations are the same binary64 operations. *)

From Stdlib Require Import ZArith Lia List Ascii String Bool.
From Stdlib Require Import Floats.
From stdpp Require Import base option list strings gmap.

Local Open Scope Z_scope.

(** ** Exceptions *)

(** The exceptions the consumer can meet.  [ValueError] carries what raised
    it, because the handlers log the exception. *)
Inductive value_error :=
  | InvalidIntLiteral (s : string)      (* int("abc") *)
  | IntMaxStrDigits (digits : Z)        (* int("9" * 5000) *)
  | InvalidFloatLiteral (s : string)    (* float("abc") *)
  | EmptySequence (f : string)          (* max([]) / min([]) *)
  | NegativeMaxlen.                     (* deque(maxlen=-1) *)

Inductive exn :=
  | JSONDecodeError
  | ValueError (what : value_error)
  | OverflowError                       (* deque(maxlen=2**63) *)
  | TypeError
  | AttributeError
  | KeyError.

Inductive result (A : Type) :=
  | Ok (a : A)
  | Raise (e : exn).
Arguments Ok {A} a.
Arguments Raise {A} e.

(** ** Builtins on strings *)

Module Py.

(** A [str] is held as its UTF-8 text, one byte per character of the Rocq
    string (a lone surrogate, which a [str] may hold, in the three-byte
    form).  [replace], [in] and the equality of keys work on the bytes and
    give what they give on the characters, since the bytes of an ASCII
    character occur in no other character; [float] and [int] decode the
    text. *)
Definition code (c : ascii) : Z := Z.of_nat (nat_of_ascii c).

(** [Py_ISSPACE], the whitespace [float()] and [int()] strip from the ASCII
    text they parse: tab, newline, vertical tab, form feed, carriage return
    and the space.  (The separators 0x1c-0x1f, which [str.isspace] accepts,
    are not stripped.) *)
Definition isspace (c : ascii) : bool :=
  let n := nat_of_ascii c in
  ((9 <=? n) && (n <=? 13))%nat || (n =? 32)%nat.

Definition isdigit (c : ascii) : bool :=
  let n := nat_of_ascii c in
  ((48 <=? n) && (n <=? 57))%nat.

Definition digit_value (c : ascii) : Z := code c - 48.

(** ASCII lower-casing, for the case-insensitive words of [float()]. *)
Definition lower (c : ascii) : ascii :=
  let n := nat_of_ascii c in
  if ((65 <=? n) && (n <=? 90))%nat then ascii_of_nat (n + 32) else c.

(** *** Characters outside ASCII *)

(** The code points of a UTF-8 text, read byte by byte: [need] continuation
    bytes are still expected for a code point whose leading bits are [acc]
    and which must be at least [low] (the shortest form).  A text that is
    not the UTF-8 of a [str] has no code points. *)
Fixpoint decode_utf8 (need : nat) (acc low : Z) (l : list ascii)
  : option (list Z) :=
  match l with
  | [] => match need with O => Some [] | S _ => None end
  | b :: l' =>
      let n := code b in
      match need with
      | O =>
          if n <? 0x80 then option_map (cons n) (decode_utf8 0 0 0 l')
          else if n <? 0xC0 then None
          else if n <? 0xE0 then decode_utf8 1 (n - 0xC0) 0x80 l'
          else if n <? 0xF0 then decode_utf8 2 (n - 0xE0) 0x800 l'
          else if n <? 0xF8 then decode_utf8 3 (n - 0xF0) 0x10000 l'
          else None
      | S k =>
          if (0x80 <=? n) && (n <? 0xC0)
          then
            let acc' := acc * 64 + (n - 0x80) in
            match k with
            | O =>
                if (low <=? acc') && (acc' <=? 0x10FFFF)
                then option_map (cons acc') (decode_utf8 0 0 0 l')
                else None
            | S _ => decode_utf8 k acc' low l'
            end
          else None
      end
  end.

(** [Py_UNICODE_ISSPACE]: the whitespace of [str.isspace]. *)
Definition unicode_isspace (ch : Z) : bool :=
  ((0x9 <=? ch) && (ch <=? 0xD)) || ((0x1C <=? ch) && (ch <=? 0x20))
  || (ch =? 0x85) || (ch =? 0xA0) || (ch =? 0x1680)
  || ((0x2000 <=? ch) && (ch <=? 0x200A))
  || (ch =? 0x2028) || (ch =? 0x2029) || (ch =? 0x202F) || (ch =? 0x205F)
  || (ch =? 0x3000).

(** The digits zero of the decimal digits of Unicode 14.0, the version of
    Python 3.11: each is followed by its digits one to nine. *)
Definition decimal_zeros : list Z :=
  [0x30; 0x660; 0x6F0; 0x7C0; 0x966; 0x9E6; 0xA66; 0xAE6; 0xB66; 0xBE6;
   0xC66; 0xCE6; 0xD66; 0xDE6; 0xE50; 0xED0; 0xF20; 0x1040; 0x1090; 0x17E0;
   0x1810; 0x1946; 0x19D0; 0x1A80; 0x1A90; 0x1B50; 0x1BB0; 0x1C40; 0x1C50;
   0xA620; 0xA8D0; 0xA900; 0xA9D0; 0xA9F0; 0xAA50; 0xABF0; 0xFF10; 0x104A0;
   0x10D30; 0x11066; 0x110F0; 0x11136; 0x111D0; 0x112F0; 0x11450; 0x114D0;
   0x11650; 0x116C0; 0x11730; 0x118E0; 0x11950; 0x11C50; 0x11D50; 0x11DA0;
   0x16A60; 0x16AC0; 0x16B50; 0x1D7CE; 0x1D7D8; 0x1D7E2; 0x1D7EC; 0x1D7F6;
   0x1E140; 0x1E2F0; 0x1E950; 0x1FBF0].

(** [Py_UNICODE_TODECIMAL]: the value of a decimal digit. *)
Definition to_decimal (ch : Z) : option Z :=
  match find (fun z => (z <=? ch) && (ch <=? z + 9)) decimal_zeros with
  | Some z => Some (ch - z)
  | None => None
  end.

(** What [float()] and [int()] parse instead of a text that is not ASCII:
    every whitespace character becomes a space and every decimal digit its
    ASCII digit; at the first character above 126 that is neither, the
    text is cut and ends with a question mark. *)
Fixpoint to_ascii (cps : list Z) : list ascii :=
  match cps with
  | [] => []
  | ch :: rest =>
      if ch <? 127 then ascii_of_nat (Z.to_nat ch) :: to_ascii rest
      else if unicode_isspace ch then " "%char :: to_ascii rest
      else
        match to_decimal ch with
        | Some d => ascii_of_nat (Z.to_nat (48 + d)) :: to_ascii rest
        | None => ["?"%char]
        end
  end.

Definition decimal_and_space_to_ascii (s : string) : list ascii :=
  let l := list_ascii_of_string s in
  if forallb (fun c => code c <? 128) l then l
  else
    match decode_utf8 0 0 0 l with
    | Some cps => to_ascii cps
    | None => ["?"%char]
    end.

(** *** Numbers in ASCII text *)

Fixpoint lstrip (l : list ascii) : list ascii :=
  match l with
  | c :: l' => if isspace c then lstrip l' else l
  | [] => []
  end.

Definition strip (l : list ascii) : list ascii :=
  rev (lstrip (rev (lstrip l))).

(** The longest prefix of digits, and the rest. *)
Fixpoint span_digits (l : list ascii) : list ascii * list ascii :=
  match l with
  | c :: l' =>
      if isdigit c
      then let '(ds, r) := span_digits l' in (c :: ds, r)
      else ([], l)
  | [] => ([], [])
  end.

Definition digits_value (ds : list ascii) : Z :=
  fold_left (fun acc c => 10 * acc + digit_value c) ds 0.

(** PEP 515: an underscore is allowed only between two digits; the accepted
    underscores are dropped before the number is read.  [prev] is the
    previous character (NUL at the start). *)
Fixpoint drop_underscores (prev : ascii) (l : list ascii)
  : option (list ascii) :=
  match l with
  | [] => if Ascii.eqb prev "_" then None else Some []
  | c :: l' =>
      if Ascii.eqb c "_"
      then if isdigit prev then drop_underscores c l' else None
      else if Ascii.eqb prev "_" && negb (isdigit c) then None
      else option_map (cons c) (drop_underscores c l')
  end.

(** An optional sign: [true] for a minus. *)
Definition take_sign (l : list ascii) : bool * list ascii :=
  match l with
  | c :: l' =>
      if Ascii.eqb c "-" then (true, l')
      else if Ascii.eqb c "+" then (false, l')
      else (false, l)
  | [] => (false, [])
  end.

(** The run of digits [int()] reads: digits and underscores up to the first
    other character, the digits and what follows them.  Two underscores in
    a row, or an underscore at the end of the run, are an error.  [prev] is
    the previous character (NUL at the start). *)
Fixpoint scan_digits (prev : ascii) (l : list ascii)
  : option (list ascii * list ascii) :=
  match l with
  | [] => if Ascii.eqb prev "_" then None else Some ([], [])
  | c :: l' =>
      if Ascii.eqb c "_"
      then if Ascii.eqb prev "_" then None else scan_digits c l'
      else if isdigit c
      then
        match scan_digits c l' with
        | Some (ds, rest) => Some (c :: ds, rest)
        | None => None
        end
      else if Ascii.eqb prev "_" then None else Some ([], l)
  end.

(** The interpreter's limit on the digits of an integer text (its default:
    the consumer does not change it). *)
Definition int_max_str_digits : Z := 4300.

(** [int(s)] in base 10: whitespace, an optional sign, the run of digits,
    which may not start with an underscore, then whitespace to the end.  A
    run of more digits than the limit raises before what follows the run
    is looked at. *)
Definition int (s : string) : result Z :=
  let bad := Raise (ValueError (InvalidIntLiteral s)) in
  let '(neg, body) := take_sign (lstrip (decimal_and_space_to_ascii s)) in
  match body with
  | c :: _ =>
      if Ascii.eqb c "_" then bad
      else
        match scan_digits Ascii.zero body with
        | None => bad
        | Some (ds, rest) =>
            let digits := Z.of_nat (length ds) in
            if int_max_str_digits <? digits
            then Raise (ValueError (IntMaxStrDigits digits))
            else
              match ds, lstrip rest with
              | _ :: _, [] =>
                  let n := digits_value ds in Ok (if neg then - n else n)
              | _, _ => bad
              end
        end
  | [] => bad
  end.

(** *** Decimal text to binary64 *)

(** The value [m * 10^e] rounded to the nearest binary64 number, ties to
    even, overflowing to infinity: the quotient of two integers, rounded
    once by the correctly rounding division of the float specification. *)
Definition SF_of_decimal (neg : bool) (m e : Z) : spec_float :=
  if m =? 0 then S754_zero neg
  else
    let num := if 0 <=? e then m * 10 ^ e else m in
    let den := if 0 <=? e then 1 else 10 ^ (- e) in
    let '(q, e2, loc) := SFdiv_core_binary prec emax num 0 den 0 in
    binary_round_aux prec emax neg q e2 loc.

Definition float_of_decimal (neg : bool) (m e : Z) : float :=
  SF2Prim (SF_of_decimal neg m e).

(** The digits of a decimal literal: mantissa and power of ten.  The
    literal is [digits [. digits] [(e|E) [sign] digits]], with a digit on
    at least one side of the point, and must use up the whole text. *)
Definition parse_exponent (l : list ascii) : option Z :=
  match l with
  | [] => Some 0
  | c :: l' =>
      if Ascii.eqb (lower c) "e"
      then
        let '(neg, l'') := take_sign l' in
        match span_digits l'' with
        | ((_ :: _) as ds, []) =>
            let n := digits_value ds in Some (if neg then - n else n)
        | _ => None
        end
      else None
  end.

Definition parse_decimal (l : list ascii) : option (Z * Z) :=
  let '(ip, r1) := span_digits l in
  let '(fp, r2) :=
    match r1 with
    | c :: r => if Ascii.eqb c "." then span_digits r else ([], r1)
    | [] => ([], r1)
    end in
  match ip ++ fp with
  | [] => None
  | ds =>
      match parse_exponent r2 with
      | Some e => Some (digits_value ds, e - Z.of_nat (length fp))
      | None => None
      end
  end.

(** [inf], [infinity] and [nan], in any letter case. *)
Definition parse_inf_or_nan (neg : bool) (l : list ascii) : option float :=
  let w := string_of_list_ascii (map lower l) in
  if String.eqb w "inf" || String.eqb w "infinity"
  then Some (if neg then neg_infinity else infinity)
  else if String.eqb w "nan" then Some nan
  else None.

(** [str.replace(old, new)] for a non-empty [old]: the occurrences are
    replaced from the left and do not overlap.  [skip] counts the characters
    of a just-matched occurrence still to be dropped. *)
Fixpoint replace_from (old new : string) (skip : nat) (s : string) : string :=
  match s with
  | EmptyString => EmptyString
  | String c s' =>
      match skip with
      | S k => replace_from old new k s'
      | O =>
          if String.prefix old s
          then String.append new
                 (replace_from old new (Nat.pred (String.length old)) s')
          else String c (replace_from old new 0 s')
      end
  end.

Definition replace (s old new : string) : string := replace_from old new 0 s.

(** [sub in s] for two strings. *)
Fixpoint str_contains (sub s : string) : bool :=
  String.prefix sub s ||
  match s with
  | String _ s' => str_contains sub s'
  | EmptyString => false
  end.

(** ** [max], [min] *)

(** [max(iterable)] keeps the first item and replaces it by each later item
    that compares greater ([item > best]); on floats the comparison is the
    IEEE one, false whenever a NaN is involved.  An empty iterable raises
    [ValueError]. *)
Definition max_step (best item : float) : float :=
  if (best <? item)%float then item else best.

Definition max (l : list float) : result float :=
  match l with
  | [] => Raise (ValueError (EmptySequence "max"))
  | x :: l' => Ok (fold_left max_step l' x)
  end.

(** [min(iterable)]: the same with [item < best]. *)
Definition min_step (best item : float) : float :=
  if (item <? best)%float then item else best.

Definition min (l : list float) : result float :=
  match l with
  | [] => Raise (ValueError (EmptySequence "min"))
  | x :: l' => Ok (fold_left min_step l' x)
  end.

(** ** [collections.deque] with a [maxlen] *)

Record deque := Deque { items : list float; maxlen : Z }.

(** [deque(maxlen=n)]: the bound is converted to a C [ssize_t] of 64 bits,
    which raises [OverflowError] outside its range; a negative bound then
    raises [ValueError]. *)
Definition deque_new (n : Z) : result deque :=
  if (n <? - 2 ^ 63) || (2 ^ 63 <=? n) then Raise OverflowError
  else if n <? 0 then Raise (ValueError NegativeMaxlen)
  else Ok {| items := []; maxlen := n |}.

(** [d.append(x)]: the item is added on the right and, when the deque then
    holds more than [maxlen] items, the leftmost one is dropped. *)
Definition append (d : deque) (x : float) : deque :=
  let l := items d ++ [x] in
  {| items := if maxlen d <? Z.of_nat (length l) then tail l else l;
     maxlen := maxlen d |}.

Definition len (d : deque) : Z := Z.of_nat (length (items d)).

(** ** The values [json.loads] returns *)

(** A [dict] is the list of its items in insertion order; its keys are
    distinct, so a lookup finds the only item with that key. *)
#[local] Set Warnings "-register-all".
Inductive json :=
  | JNull
  | JBool (b : bool)
  | JInt (n : Z)
  | JFloat (x : float)
  | JStr (s : string)
  | JList (l : list json)
  | JDict (d : list (string * json)).

Definition dict_get (key : string) (d : list (string * json)) : option json :=
  match find (fun kv => String.eqb (fst kv) key) d with
  | Some kv => Some (snd kv)
  | None => None
  end.

Definition is_str (key : string) (v : json) : bool :=
  match v with
  | JStr s => String.eqb s key
  | _ => false
  end.

(** [key in obj] for a string [key]: a key of a dict, an item of a list, a
    substring of a string; the other values are not iterable. *)
Definition contains (key : string) (obj : json) : result bool :=
  match obj with
  | JDict d => Ok (bool_decide (is_Some (dict_get key d)))
  | JList l => Ok (existsb (is_str key) l)
  | JStr s => Ok (str_contains key s)
  | _ => Raise TypeError
  end.

(** [obj[key]] for a string [key]: only a dict can be indexed by a string. *)
Definition getitem (obj : json) (key : string) : result json :=
  match obj with
  | JDict d =>
      match dict_get key d with
      | Some v => Ok v
      | None => Raise KeyError
      end
  | _ => Raise TypeError
  end.

(** [obj.replace(old, new)]: only a string has the method. *)
Definition str_replace (obj : json) (old new : string) : result string :=
  match obj with
  | JStr s => Ok (replace s old new)
  | _ => Raise AttributeError
  end.

(** [float(s)] for a string: surrounding whitespace, an optional sign, then
    a decimal literal or one of the words [inf], [infinity], [nan]. *)
Definition float (s : string) : result float :=
  let bad := Raise (ValueError (InvalidFloatLiteral s)) in
  match drop_underscores Ascii.zero (strip (decimal_and_space_to_ascii s)) with
  | None => bad
  | Some l =>
      let '(neg, body) := take_sign l in
      match parse_decimal body with
      | Some (m, e) => Ok (float_of_decimal neg m e)
      | None =>
          match parse_inf_or_nan neg body with
          | Some x => Ok x
          | None => bad
          end
      end
  end.

End Py.

(** ** The logger *)

Inductive level := DEBUG | INFO | WARNING | ERROR.

(** One constructor per message the consumer logs, holding the values its
    f-string formats. *)
Inductive message_text :=
  | KafkaTopic (topic : string)
  | KafkaConsumerGroupId (group_id : string)
  | MaxStallTemperatureRange (temp_variation : float)
  | RollingWindowSize (window_size : Z)
  | WaitingFor (held window_size : Z)
  | RollingWindow (window : list float)
  | TemperatureRange (temp_range : float) (is_stalled : bool)
  | RawMessage (message : string)
  | ProcessedJSONMessage (message_dict : Py.json)
  | TemperatureTimestamp (temperature : float) (timestamp : Py.json)
  | StallDetected (timestamp : Py.json) (temperature : float)
  | MissingRequiredFields
  | InvalidJSONMessage (message : string)
  | ErrorProcessingMessage (e : exn)
  | StartConsumer
  | ConsumerTopicGroup (topic group_id : string)
  | PollingMessages (topic : string)
  | ReceivedMessage (offset : Z) (message_str : string)
  | ErrorWhileConsuming (e : exn)
  | ConsumerClosed (topic : string)
  | EndConsumer (topic group_id : string).

Definition record : Type := level * message_text.

(** ** State and exceptions *)

(** The mutable state of a run: the deque bound to [rolling_window] in
    [main] and the records logged so far.  A raised exception keeps the
    state reached when it was raised: what was appended or logged before
    stays. *)
Record state := State { rolling_window : Py.deque; logged : list record }.

Definition M (A : Type) : Type := state -> result A * state.

Definition ret {A} (a : A) : M A := fun st => (Ok a, st).

Definition bind {A B} (m : M A) (k : A -> M B) : M B :=
  fun st =>
    match m st with
    | (Ok a, st') => k a st'
    | (Raise e, st') => (Raise e, st')
    end.

#[global] Instance M_ret : MRet M := @ret.
#[global] Instance M_bind : MBind M := fun A B k m => bind m k.

(** A pure computation that may raise. *)
Definition lift {A} (r : result A) : M A := fun st => (r, st).

(** [try: body except Exception as e: handler e]. *)
Definition try_except {A} (body : M A) (handler : exn -> M A) : M A :=
  fun st =>
    match body st with
    | (Ok a, st') => (Ok a, st')
    | (Raise e, st') => handler e st'
    end.

(** [try: body finally: cleanup]. *)
Definition try_finally {A} (body : M A) (cleanup : M unit) : M A :=
  fun st =>
    match body st with
    | (r, st') =>
        match cleanup st' with
        | (Ok _, st'') => (r, st'')
        | (Raise e, st'') => (Raise e, st'')
        end
    end.

Fixpoint for_each {A} (l : list A) (body : A -> M unit) : M unit :=
  match l with
  | [] => ret tt
  | x :: l' => body x ;; for_each l' body
  end.

Definition log (lvl : level) (t : message_text) : M unit :=
  fun st =>
    (Ok tt, {| rolling_window := rolling_window st;
               logged := logged st ++ [(lvl, t)] |}).

Definition get_window : M Py.deque := fun st => (Ok (rolling_window st), st).

Definition set_window (d : Py.deque) : M unit :=
  fun st => (Ok tt, {| rolling_window := d; logged := logged st |}).

(** [rolling_window.append(x)]: the deque object itself is changed. *)
Definition window_append (x : float) : M unit :=
  fun st =>
    (Ok tt, {| rolling_window := Py.append (rolling_window st) x;
               logged := logged st |}).

(** The result of a computation and the records it adds to the log. *)
Definition returned {A} (m : M A) (st : state) : result A := fst (m st).
Definition window_after {A} (m : M A) (st : state) : Py.deque :=
  rolling_window (snd (m st)).
Definition logged_after {A} (m : M A) (st : state) : list record :=
  logged (snd (m st)).

(** ** The consumer *)

Module logger.
Definition debug := log DEBUG.
Definition info := log INFO.
Definition warning := log WARNING.
Definition error := log ERROR.
End logger.

(** [os.environ]: the process environment the getters read at every call. *)
Abbreviation environment := (gmap string string).

Section consumer.

(** [json.loads] is the standard library's: the consumer is modelled for any
    behaviour of it, a value or an exception for each text. *)
Variable json_loads : string -> result Py.json.

(** [os.environ] at the time of the call. *)
Variable environ : environment.

Definition get_kafka_topic : M string :=
  let topic := default "unknown_topic" (environ !! "SMOKER_TOPIC") in
  logger.info (KafkaTopic topic);;
  ret topic.

Definition get_kafka_consumer_group_id : M string :=
  let group_id := default "default_group" (environ !! "SMOKER_CONSUMER_GROUP_ID") in
  logger.info (KafkaConsumerGroupId group_id);;
  ret group_id.

(** [float(os.getenv("SMOKER_STALL_THRESHOLD_F", 1.0))]: the text of the
    variable when it is set, the float [1.0] otherwise. *)
Definition get_stall_threshold : M float :=
  temp_variation ← lift
    match environ !! "SMOKER_STALL_THRESHOLD_F" with
    | Some s => Py.float s
    | None => Ok 1%float
    end;
  logger.info (MaxStallTemperatureRange temp_variation);;
  ret temp_variation.

(** [int(os.getenv("SMOKER_ROLLING_WINDOW_SIZE", 5))]. *)
Definition get_rolling_window_size : M Z :=
  window_size ← lift
    match environ !! "SMOKER_ROLLING_WINDOW_SIZE" with
    | Some s => Py.int s
    | None => Ok 5
    end;
  logger.info (RollingWindowSize window_size);;
  ret window_size.

Definition detect_stall (rolling_window_deque : Py.deque) : M bool :=
  WINDOW_SIZE ← get_rolling_window_size;
  if Py.len rolling_window_deque <? WINDOW_SIZE then
    logger.debug (WaitingFor (Py.len rolling_window_deque) WINDOW_SIZE);;
    ret false
  else
    hi ← lift (Py.max (Py.items rolling_window_deque));
    lo ← lift (Py.min (Py.items rolling_window_deque));
    let temp_range := (hi - lo)%float in
    threshold ← get_stall_threshold;
    let is_stalled := (temp_range <=? threshold)%float in
    logger.debug (RollingWindow (Py.items rolling_window_deque));;
    logger.debug (TemperatureRange temp_range is_stalled);;
    ret is_stalled.

(** The handlers of [process_message]: [except json.JSONDecodeError] first,
    then [except Exception]. *)
Definition process_message_except (message : string) (e : exn) : M unit :=
  logger.error
    match e with
    | JSONDecodeError => InvalidJSONMessage message
    | _ => ErrorProcessingMessage e
    end.

Definition process_message (message : string) : M unit :=
  try_except
    (logger.debug (RawMessage message);;
     message_dict ← lift (json_loads message);
     logger.info (ProcessedJSONMessage message_dict);;
     has_temperature ← lift (Py.contains "temperature" message_dict);
     has_both ←
       (if has_temperature : bool
        then lift (Py.contains "timestamp" message_dict)
        else ret false);
     if has_both : bool then
       temperature_str ← lift (Py.getitem message_dict "temperature");
       stripped ← lift (Py.str_replace temperature_str " C" "");
       temperature ← lift (Py.float stripped);
       timestamp ← lift (Py.getitem message_dict "timestamp");
       logger.info (TemperatureTimestamp temperature timestamp);;
       window_append temperature;;
       window ← get_window;
       stalled ← detect_stall window;
       if stalled : bool
       then logger.info (StallDetected timestamp temperature)
       else ret tt
     else
       logger.error MissingRequiredFields)
    (process_message_except message).

(** A message of the Kafka consumer. *)
Record ConsumerRecord := { offset : Z; value : string }.

(** The body of the loop [for message in consumer] of [main]. *)
Definition poll (message : ConsumerRecord) : M unit :=
  let message_str := value message in
  logger.debug (ReceivedMessage (offset message) message_str);;
  process_message message_str.

(** [main], for the messages the consumer delivers before the stream ends.
    Creating and closing the Kafka consumer are outside the model; the
    assignment to [rolling_window] overwrites whatever the state held. *)
Definition main (consumer : list ConsumerRecord) : M unit :=
  logger.info StartConsumer;;
  topic ← get_kafka_topic;
  group_id ← get_kafka_consumer_group_id;
  window_size ← get_rolling_window_size;
  logger.info (ConsumerTopicGroup topic group_id);;
  logger.info (RollingWindowSize window_size);;
  window ← lift (Py.deque_new window_size);
  set_window window;;
  logger.info (PollingMessages topic);;
  try_finally
    (try_except
       (for_each consumer poll)
       (fun e => logger.error (ErrorWhileConsuming e)))
    (logger.info (ConsumerClosed topic));;
  logger.info (EndConsumer topic group_id).

End consumer.

(** * The author counter of [consumers/json_consumer_davidrm.py] *)

(** ** A [defaultdict(int)] keyed by JSON values *)

Module PyDict.

(** The exact integer value of a float that has one: Python compares an
    [int] and a [float] exactly. *)
Definition integral (x : float) : option Z :=
  match Prim2SF x with
  | S754_zero _ => Some 0
  | S754_finite s m e =>
      if 0 <=? e
      then Some (if s then - (Zpos m * 2 ^ e) else Zpos m * 2 ^ e)
      else if Zpos m mod 2 ^ (- e) =? 0
      then Some (if s then - (Zpos m / 2 ^ (- e)) else Zpos m / 2 ^ (- e))
      else None
  | _ => None
  end.

(** What a key is compared by.  [True], [1] and [1.0] are one key: booleans
    and integral floats count as integers. *)
Inductive key :=
  | KNone
  | KNum (n : Z)
  | KNaN
  | KFrac (x : float)
  | KStr (s : string).

(** The key of a value that has one.  A NaN is a key of its own: it is
    equal to nothing under [==], but every NaN that [json.loads] returns is
    one and the same object (the constant of the decoder), and a dict
    takes a key that is the same object as a stored key for that key
    before it compares them.  Lists and dicts are not hashable. *)
Definition key_of (v : Py.json) : option key :=
  match v with
  | Py.JNull => Some KNone
  | Py.JBool b => Some (KNum (if b then 1 else 0))
  | Py.JInt n => Some (KNum n)
  | Py.JFloat x =>
      if is_nan x then Some KNaN
      else match integral x with
           | Some n => Some (KNum n)
           | None => Some (KFrac x)
           end
  | Py.JStr s => Some (KStr s)
  | Py.JList _ | Py.JDict _ => None
  end.

Definition key_eqb (a b : key) : bool :=
  match a, b with
  | KNone, KNone => true
  | KNum m, KNum n => m =? n
  | KNaN, KNaN => true
  | KFrac x, KFrac y => (x =? y)%float
  | KStr s, KStr t => String.eqb s t
  | _, _ => false
  end.

(** Whether the key [a] of the dict is found for the key [b] that is
    looked up: the same object, or [a == b]. *)
Definition same_key (a b : Py.json) : bool :=
  match key_of a, key_of b with
  | Some ka, Some kb => key_eqb ka kb
  | _, _ => false
  end.

Definition hashable (v : Py.json) : bool :=
  match v with
  | Py.JList _ | Py.JDict _ => false
  | _ => true
  end.

(** The items of the dict, in insertion order. *)
Definition t : Type := list (Py.json * Z).

(** The item of [counts[key] += 1] for a hashable [key]: the entry of the
    key gets one more, the key stored first being kept; a key that is not
    there is inserted last, with the default 0 plus 1. *)
Fixpoint increment (key : Py.json) (counts : t) : t :=
  match counts with
  | [] => [(key, 1)]
  | (k, n) :: rest =>
      if same_key k key then (k, n + 1) :: rest
      else (k, n) :: increment key rest
  end.

(** [counts[key] += 1]: hashing a list or a dict raises [TypeError]. *)
Definition iadd (key : Py.json) (counts : t) : result t :=
  if hashable key then Ok (increment key counts) else Raise TypeError.

(** [counts.get(key, 0)]. *)
Fixpoint get (key : Py.json) (counts : t) : Z :=
  match counts with
  | [] => 0
  | (k, n) :: rest => if same_key k key then n else get key rest
  end.

End PyDict.

(** ** The consumer *)

Module json_consumer.

(** One constructor per message the consumer logs. *)
Inductive message_text :=
  | KafkaTopic (topic : string)
  | KafkaConsumerGroupId (group_id : string)
  | RawMessageReceived (message : string)
  | ProcessedJSONMessage (message_dict : Py.json)
  | MessageFromAuthor (author : Py.json)
  | UpdatedAuthorCounts (counts : PyDict.t)
  | ExpectedDictionary (message_dict : Py.json)
  | InvalidJSONMessage (message : string)
  | ErrorProcessingMessage (e : exn)
  | StartConsumer
  | ConsumerTopicGroup (topic group_id : string)
  | PollingMessages (topic : string)
  | ReceivedMessage (offset : Z) (message_str : string)
  | ErrorWhileConsuming (e : exn)
  | ConsumerClosed (topic : string)
  | EndConsumer (topic group_id : string).

Definition record : Type := level * message_text.

(** The global [author_counts] and the records logged so far. *)
Record state := State { author_counts : PyDict.t; logged : list record }.

Definition M (A : Type) : Type := state -> result A * state.

Definition ret {A} (a : A) : M A := fun st => (Ok a, st).

Definition bind {A B} (m : M A) (k : A -> M B) : M B :=
  fun st =>
    match m st with
    | (Ok a, st') => k a st'
    | (Raise e, st') => (Raise e, st')
    end.

#[global] Instance M_ret : MRet M := @ret.
#[global] Instance M_bind : MBind M := fun A B k m => bind m k.

Definition lift {A} (r : result A) : M A := fun st => (r, st).

Definition try_except {A} (body : M A) (handler : exn -> M A) : M A :=
  fun st =>
    match body st with
    | (Ok a, st') => (Ok a, st')
    | (Raise e, st') => handler e st'
    end.

Definition try_finally {A} (body : M A) (cleanup : M unit) : M A :=
  fun st =>
    match body st with
    | (r, st') =>
        match cleanup st' with
        | (Ok _, st'') => (r, st'')
        | (Raise e, st'') => (Raise e, st'')
        end
    end.

Fixpoint for_each {A} (l : list A) (body : A -> M unit) : M unit :=
  match l with
  | [] => ret tt
  | x :: l' => body x ;; for_each l' body
  end.

Definition log (lvl : level) (t : message_text) : M unit :=
  fun st =>
    (Ok tt, {| author_counts := author_counts st;
               logged := logged st ++ [(lvl, t)] |}).

Definition get_counts : M PyDict.t := fun st => (Ok (author_counts st), st).

(** [author_counts[author] += 1]. *)
Definition count_author (author : Py.json) : M unit :=
  fun st =>
    match PyDict.iadd author (author_counts st) with
    | Ok counts => (Ok tt, {| author_counts := counts; logged := logged st |})
    | Raise e => (Raise e, st)
    end.

Definition returned {A} (m : M A) (st : state) : result A := fst (m st).
Definition counts_after {A} (m : M A) (st : state) : PyDict.t :=
  author_counts (snd (m st)).
Definition logged_after {A} (m : M A) (st : state) : list record :=
  logged (snd (m st)).

Section consumer.

Variable json_loads : string -> result Py.json.
Variable environ : environment.

Definition get_kafka_topic : M string :=
  let topic := default "buzzline_json" (environ !! "BUZZ_TOPIC") in
  log INFO (KafkaTopic topic);;
  ret topic.

Definition get_kafka_consumer_group_id : M string :=
  let group_id := default "buzz_group" (environ !! "BUZZ_CONSUMER_GROUP_ID") in
  log INFO (KafkaConsumerGroupId group_id);;
  ret group_id.

Definition process_message_except (message : string) (e : exn) : M unit :=
  log ERROR
    match e with
    | JSONDecodeError => InvalidJSONMessage message
    | _ => ErrorProcessingMessage e
    end.

Definition process_message (message : string) : M unit :=
  try_except
    (log DEBUG (RawMessageReceived message);;
     message_dict ← lift (json_loads message);
     log INFO (ProcessedJSONMessage message_dict);;
     match message_dict with
     | Py.JDict d =>
         let author := default (Py.JStr "unknown") (Py.dict_get "author" d) in
         log INFO (MessageFromAuthor author);;
         count_author author;;
         counts ← get_counts;
         log INFO (UpdatedAuthorCounts counts)
     | _ => log ERROR (ExpectedDictionary message_dict)
     end)
    (process_message_except message).

(** The body of the loop [for message in consumer] of [main]. *)
Definition poll (message : ConsumerRecord) : M unit :=
  let message_str := value message in
  log DEBUG (ReceivedMessage (offset message) message_str);;
  process_message message_str.

(** [main], for the messages the consumer delivers before the stream ends;
    creating and closing the Kafka consumer are outside the model. *)
Definition main (consumer : list ConsumerRecord) : M unit :=
  log INFO StartConsumer;;
  topic ← get_kafka_topic;
  group_id ← get_kafka_consumer_group_id;
  log INFO (ConsumerTopicGroup topic group_id);;
  log INFO (PollingMessages topic);;
  try_finally
    (try_except
       (for_each consumer poll)
       (fun e => log ERROR (ErrorWhileConsuming e)))
    (log INFO (ConsumerClosed topic));;
  log INFO (EndConsumer topic group_id).

End consumer.

End json_consumer.

(** * The vocabulary of the properties *)

(** ** Observations of a run *)

(** The last [n] items of a list, in their order. *)
Definition lastn {A} (n : nat) (l : list A) : list A :=
  drop (length l - n) l.

Definition is_error (r : record) : Prop := fst r = ERROR.

(** A state that differs from [st] by more records only, the last of them
    an error. *)
Definition error_logged (st st' : state) : Prop :=
  rolling_window st' = rolling_window st /\
  exists more r,
    logged st' = logged st ++ more /\ last more = Some r /\ is_error r.

(** The state in which the detector runs for a reading [x] with timestamp
    [ts]: the reading is appended and three records are logged. *)
Definition appended (message : string) (payload : Py.json)
    (x : float) (ts : Py.json) (st : state) : state :=
  State (Py.append (rolling_window st) x)
    (logged st ++ [(DEBUG, RawMessage message);
                   (INFO, ProcessedJSONMessage payload);
                   (INFO, TemperatureTimestamp x ts)]).

(** The records of one iteration of the loop up to the call of the
    detector. *)
Definition received (message : ConsumerRecord) (payload : Py.json)
    (x : float) (ts : Py.json) : list record :=
  [(DEBUG, ReceivedMessage (offset message) (value message));
   (DEBUG, RawMessage (value message));
   (INFO, ProcessedJSONMessage payload);
   (INFO, TemperatureTimestamp x ts)].

(** The decisions a log records: the range and the verdict of each
    invocation of the detector on a full window, in order. *)
Fixpoint decisions (log : list record) : list (float * bool) :=
  match log with
  | [] => []
  | (_, TemperatureRange temp_range is_stalled) :: log' =>
      (temp_range, is_stalled) :: decisions log'
  | _ :: log' => decisions log'
  end.

(** ** Messages *)

Section messages.

Variable json_loads : string -> result Py.json.

(** The ways a message fails to give a reading, after the taxonomy of the
    decoder: the text is not JSON (or [json.loads] raises otherwise), the
    value is not an object, a required field is missing, or the temperature
    is not a string that reads as a float once [" C"] is removed. *)
Inductive decode_failure (message : string) : Prop :=
  | MalformedPayload e :
      json_loads message = Raise e ->
      decode_failure message
  | NotAnObject v :
      json_loads message = Ok v ->
      (forall d, v <> Py.JDict d) ->
      decode_failure message
  | MissingField d :
      json_loads message = Ok (Py.JDict d) ->
      Py.dict_get "temperature" d = None \/ Py.dict_get "timestamp" d = None ->
      decode_failure message
  | InvalidNumericValue d v :
      json_loads message = Ok (Py.JDict d) ->
      Py.dict_get "temperature" d = Some v ->
      (forall s, v = Py.JStr s -> exists e, Py.float (Py.replace s " C" "") = Raise e) ->
      decode_failure message.

(** A message that carries the temperature text [s] and the timestamp [ts]. *)
Definition carries (message : ConsumerRecord) (s : string) (ts : Py.json) : Prop :=
  exists d,
    json_loads (value message) = Ok (Py.JDict d) /\
    Py.dict_get "temperature" d = Some (Py.JStr s) /\
    Py.dict_get "timestamp" d = Some ts.

End messages.

(** The characters of a decimal literal. *)
Definition decimal_char (c : ascii) : bool :=
  Py.isdigit c || Ascii.eqb c "."%char || Ascii.eqb (Py.lower c) "e"%char
  || Ascii.eqb c "-"%char || Ascii.eqb c "+"%char.

(** The letters of [inf], [infinity] and [nan], in either case. *)
Definition word_char (c : ascii) : bool :=
  existsb (Ascii.eqb (Py.lower c)) (list_ascii_of_string "infinityan").

(** The characters of the texts [float()] reads, whitespace apart. *)
Definition number_char (c : ascii) : bool :=
  decimal_char c || Ascii.eqb c "_"%char || word_char c.

(** A printable ASCII character other than the space. *)
Definition printable (c : ascii) : bool :=
  (33 <=? Py.code c) && (Py.code c <=? 126).

(** A unit marker other than C: a text of printable characters, not empty
    and without the letter C. *)
Definition unit_text (u : string) : bool :=
  negb (String.eqb u "")
  && forallb (fun c => printable c && negb (Ascii.eqb c "C"%char))
       (list_ascii_of_string u).

(** [n] copies of a text, one after the other. *)
Fixpoint copies (n : nat) (s : string) : string :=
  match n with
  | O => ""
  | S k => s +:+ copies k s
  end.

(** ** Example messages *)

Module example.

Definition dquote : ascii := ascii_of_nat 34.

Definition quoted (s : string) : string :=
  String dquote (s +:+ String dquote EmptyString).

(** The JSON text of an object whose values are strings, as [json.dumps]
    writes it, and the dict [json.loads] returns for it. *)
Fixpoint members_text (fields : list (string * string)) : string :=
  match fields with
  | [] => ""
  | [(k, v)] => quoted k +:+ ": " +:+ quoted v
  | (k, v) :: rest => quoted k +:+ ": " +:+ quoted v +:+ ", " +:+ members_text rest
  end.

Definition object_text (fields : list (string * string)) : string :=
  "{" +:+ members_text fields +:+ "}".

Definition object_dict (fields : list (string * string)) : Py.json :=
  Py.JDict (map (fun kv => (fst kv, Py.JStr (snd kv))) fields).

(** [json.loads] on the texts of the given objects; any other text is taken
    not to be JSON. *)
Definition loads (objects : list (list (string * string))) (text : string)
  : result Py.json :=
  match find (fun fields => String.eqb (object_text fields) text) objects with
  | Some fields => Ok (object_dict fields)
  | None => Raise JSONDecodeError
  end.

(** A reading: temperature and timestamp. *)
Definition reading (temperature timestamp : string) : list (string * string) :=
  [("temperature", temperature); ("timestamp", timestamp)].

Definition start : state := State (Py.Deque [] 5) [].

End example.

(** The five readings as binary64 numbers: 225, 225.2, 225.1, 225.0 and
    225.3 rounded to the nearest, and the range 225.3 - 225.0. *)
Module five.

Definition x1 : float := 225.
Definition x2 : float := 0x1.c266666666666p+7.
Definition x3 : float := 0x1.c233333333333p+7.
Definition x4 : float := 225.
Definition x5 : float := 0x1.c29999999999ap+7.
Definition temp_range : float := 0x1.33333333334p-2.

End five.

(** ** Binary64 numbers *)

(** A number of the float specification that is not NaN; a zero of either
    sign. *)
Definition not_nan (a : spec_float) : Prop := a <> S754_nan.
Definition zero_spec (a : spec_float) : Prop := exists s, a = S754_zero s.

Definition fzero (x : float) : Prop := zero_spec (Prim2SF x).

(** A window without NaN. *)
Abbreviation no_nan := (Forall (fun x : float => is_nan x = false)).

(** ** The configuration and the readings of a run *)

(** What the two getters read from an environment. *)
Definition configured_window_size (environ : environment) : result Z :=
  match environ !! "SMOKER_ROLLING_WINDOW_SIZE" with
  | Some s => Py.int s
  | None => Ok 5
  end.

Definition configured_threshold (environ : environment) : result float :=
  match environ !! "SMOKER_STALL_THRESHOLD_F" with
  | Some s => Py.float s
  | None => Ok 1%float
  end.

(** The reading a message carries, when it carries one: the payload is an
    object with both fields, and the temperature is a string that reads as
    a float once [" C"] is removed. *)
Definition reading_of (json_loads : string -> result Py.json)
    (message : string) : option float :=
  match json_loads message with
  | Ok (Py.JDict d) =>
      match Py.dict_get "temperature" d, Py.dict_get "timestamp" d with
      | Some (Py.JStr s), Some _ =>
          match Py.float (Py.replace s " C" "") with
          | Ok x => Some x
          | Raise _ => None
          end
      | _, _ => None
      end
  | _ => None
  end.

(** The readings of the messages of a stream, in order. *)
Definition readings (json_loads : string -> result Py.json)
    (consumer : list ConsumerRecord) : list float :=
  omap (fun message => reading_of json_loads (value message)) consumer.

(** The offsets of the messages a log reports as received, in order. *)
Fixpoint received_offsets (log : list record) : list Z :=
  match log with
  | [] => []
  | (_, ReceivedMessage offset _) :: log' => offset :: received_offsets log'
  | _ :: log' => received_offsets log'
  end.

(** The timestamps of the stall alarms of a log, in order. *)
Fixpoint alarms (log : list record) : list Py.json :=
  match log with
  | [] => []
  | (_, StallDetected timestamp _) :: log' => timestamp :: alarms log'
  | _ :: log' => alarms log'
  end.

(** The paths through [detect_stall]: what it returns and what it logs. *)
Inductive detect_path (environ : environment) (d : Py.deque)
  : result bool -> list record -> Prop :=
  | path_no_window_size e :
      configured_window_size environ = Raise e ->
      detect_path environ d (Raise e) []
  | path_waiting N :
      configured_window_size environ = Ok N ->
      Py.len d < N ->
      detect_path environ d (Ok false)
        [(INFO, RollingWindowSize N); (DEBUG, WaitingFor (Py.len d) N)]
  | path_empty N :
      configured_window_size environ = Ok N ->
      N <= Py.len d ->
      Py.items d = [] ->
      detect_path environ d (Raise (ValueError (EmptySequence "max")))
        [(INFO, RollingWindowSize N)]
  | path_no_threshold N hi lo e :
      configured_window_size environ = Ok N ->
      N <= Py.len d ->
      Py.max (Py.items d) = Ok hi ->
      Py.min (Py.items d) = Ok lo ->
      configured_threshold environ = Raise e ->
      detect_path environ d (Raise e) [(INFO, RollingWindowSize N)]
  | path_decided N hi lo T :
      configured_window_size environ = Ok N ->
      N <= Py.len d ->
      Py.max (Py.items d) = Ok hi ->
      Py.min (Py.items d) = Ok lo ->
      configured_threshold environ = Ok T ->
      detect_path environ d (Ok (hi - lo <=? T)%float)
        [(INFO, RollingWindowSize N);
         (INFO, MaxStallTemperatureRange T);
         (DEBUG, RollingWindow (Py.items d));
         (DEBUG, TemperatureRange (hi - lo) (hi - lo <=? T)%float)].

(** The record the handlers of [process_message] log for an exception. *)
Definition handled (message : string) (e : exn) : record :=
  (ERROR, match e with
          | JSONDecodeError => InvalidJSONMessage message
          | _ => ErrorProcessingMessage e
          end).

(** What [process_message] logs after the detector returned or raised. *)
Definition after_detect (message : string) (ts : Py.json) (x : float)
    (r : result bool) : list record :=
  match r with
  | Ok true => [(INFO, StallDetected ts x)]
  | Ok false => []
  | Raise e => [handled message e]
  end.

(** The paths through [process_message] from a window [w]: the window it
    leaves and the records it logs. *)
Inductive process_path (json_loads : string -> result Py.json)
    (environ : environment) (message : string) (w : Py.deque)
  : Py.deque -> list record -> Prop :=
  | path_rejected seen r :
      reading_of json_loads message = None ->
      seen = [] \/ (exists v, seen = [(INFO, ProcessedJSONMessage v)]) ->
      r = (ERROR, MissingRequiredFields) \/ (exists e, r = handled message e) ->
      process_path json_loads environ message w w
        ((DEBUG, RawMessage message) :: seen ++ [r])
  | path_reading d s x ts r more :
      json_loads message = Ok (Py.JDict d) ->
      Py.dict_get "temperature" d = Some (Py.JStr s) ->
      Py.dict_get "timestamp" d = Some ts ->
      Py.float (Py.replace s " C" "") = Ok x ->
      reading_of json_loads message = Some x ->
      detect_path environ (Py.append w x) r more ->
      process_path json_loads environ message w (Py.append w x)
        ([(DEBUG, RawMessage message);
          (INFO, ProcessedJSONMessage (Py.JDict d));
          (INFO, TemperatureTimestamp x ts)]
         ++ more ++ after_detect message ts x r).

(** The decision on a window under a threshold: the range max - min and
    whether it is at most the threshold. *)
Definition decision_on (T : float) (window : list float)
  : option (float * bool) :=
  match Py.max window, Py.min window with
  | Ok hi, Ok lo => Some ((hi - lo)%float, (hi - lo <=? T)%float)
  | _, _ => None
  end.

(** The windows of [N] readings of a stream: when the readings [rest]
    follow the readings [seen], after each of them the last [N] readings of
    the stream so far, once there are [N]. *)
Fixpoint sliding (N : nat) (seen rest : list float) : list (list float) :=
  match rest with
  | [] => []
  | x :: rest' =>
      (if (N <=? length (seen ++ [x]))%nat
       then [lastn N (seen ++ [x])] else [])
      ++ sliding N (seen ++ [x]) rest'
  end.

(** ** Example streams *)

Module stream.

(** Messages with the given objects as payloads, at offsets 0, 1, ... *)
Definition of_objects (objects : list (list (string * string)))
  : list ConsumerRecord :=
  imap (fun i fields =>
          {| offset := Z.of_nat i; value := example.object_text fields |})
    objects.

(** Four messages, the second without a temperature. *)
Definition four : list (list (string * string)) :=
  [example.reading "225" "t1"; [("timestamp", "t2")];
   example.reading "226 C" "t3"; example.reading "227.5" "t4"].

(** Three readings: 100, 100.5, 103. *)
Definition three : list (list (string * string)) :=
  [example.reading "100" "t1"; example.reading "100.5" "t2";
   example.reading "103" "t3"].

(** An environment that sets the window size. *)
Definition window_size (n : string) : environment :=
  {["SMOKER_ROLLING_WINDOW_SIZE" := n]}.

(** A state whose window holds the given readings under the bound 5, with
    nothing logged. *)
Definition holding (items : list float) : state :=
  State (Py.Deque items 5) [].

End stream.

(** ** The authors of a stream *)

(** The author a message is counted under, when it is counted: the payload
    is an object, and its author (or "unknown" in its absence) is
    hashable. *)
Definition author_of (json_loads : string -> result Py.json)
    (message : string) : option Py.json :=
  match json_loads message with
  | Ok (Py.JDict d) =>
      let author := default (Py.JStr "unknown") (Py.dict_get "author" d) in
      if PyDict.hashable author then Some author else None
  | _ => None
  end.

Definition authors (json_loads : string -> result Py.json)
    (consumer : list ConsumerRecord) : list Py.json :=
  omap (fun message => author_of json_loads (value message)) consumer.

(** The sum of the counters of a dict. *)
Definition total (counts : PyDict.t) : Z :=
  fold_right (fun item acc => snd item + acc) 0 counts.

(** The authors of a list that compare equal to [a]. *)
Definition from_author (a : Py.json) (l : list Py.json) : list Py.json :=
  filter (fun b => PyDict.same_key b a = true) l.

(** An author that is a NaN. *)
Definition nan_author (b : Py.json) : bool :=
  match b with
  | Py.JFloat x => is_nan x
  | _ => false
  end.

Definition is_error_record (r : json_consumer.record) : Prop := fst r = ERROR.

(** * Properties *)

(** ** Running the monad *)

Ltac run :=
  unfold returned, window_after, logged_after, mbind, M_bind, mret, M_ret,
    bind, ret, lift, logger.debug, logger.info, logger.error, log,
    try_except, get_window, set_window, window_append in *;
  simpl in *.

(** The same without touching the builtins: only the monad, the logger and
    the dispatch of the operators on the kind of value are unfolded. *)
Ltac steps :=
  cbv beta iota zeta delta
    [returned window_after logged_after mbind M_bind mret M_ret bind ret
       lift logger.debug logger.info logger.error log try_except get_window
       set_window window_append try_finally fst snd
       Py.contains Py.getitem Py.str_replace bool_decide decide_rel
       is_Some_dec option.is_Some_dec] in *;
  cbn [rolling_window logged] in *.

Lemma get_rolling_window_size_run environ st N :
  returned (get_rolling_window_size environ) st = Ok N ->
  get_rolling_window_size environ st =
    (Ok N, State (rolling_window st)
             (logged st ++ [(INFO, RollingWindowSize N)])).
Proof.
  unfold get_rolling_window_size. run.
  destruct (environ !! _) as [s|]; [destruct (Py.int s)|]; simpl; congruence.
Qed.

Lemma get_stall_threshold_run environ st T :
  returned (get_stall_threshold environ) st = Ok T ->
  get_stall_threshold environ st =
    (Ok T, State (rolling_window st)
             (logged st ++ [(INFO, MaxStallTemperatureRange T)])).
Proof.
  unfold get_stall_threshold. run.
  destruct (environ !! _) as [s|]; [destruct (Py.float s)|]; simpl; congruence.
Qed.

(** What a getter returns depends on the environment only, not on the state
    it runs in. *)
Lemma get_rolling_window_size_state environ st st' :
  returned (get_rolling_window_size environ) st =
  returned (get_rolling_window_size environ) st'.
Proof.
  unfold get_rolling_window_size. run.
  destruct (environ !! _) as [s|]; [destruct (Py.int s)|]; reflexivity.
Qed.

Lemma get_stall_threshold_state environ st st' :
  returned (get_stall_threshold environ) st =
  returned (get_stall_threshold environ) st'.
Proof.
  unfold get_stall_threshold. run.
  destruct (environ !! _) as [s|]; [destruct (Py.float s)|]; reflexivity.
Qed.

(** Below the window size the detector stops after the first getter. *)
Lemma detect_stall_waiting environ N d st :
  returned (get_rolling_window_size environ) st = Ok N ->
  Py.len d < N ->
  detect_stall environ d st =
    (Ok false,
     State (rolling_window st)
       (logged st ++ [(INFO, RollingWindowSize N)]
                  ++ [(DEBUG, WaitingFor (Py.len d) N)])).
Proof.
  intros HN Hlt. unfold detect_stall, mbind, M_bind, bind.
  rewrite (get_rolling_window_size_run _ _ _ HN).
  apply Z.ltb_lt in Hlt. rewrite Hlt. run. rewrite <- app_assoc. reflexivity.
Qed.

(** On a window that is not empty [max] and [min] return. *)
Lemma max_min_nonempty (l : list float) :
  l <> [] -> exists hi lo, Py.max l = Ok hi /\ Py.min l = Ok lo.
Proof. destruct l; [congruence|]. intros _. simpl. eauto. Qed.

(** At or above the window size the detector computes the range and
    compares it with the threshold. *)
Lemma detect_stall_deciding environ N T d hi lo st :
  returned (get_rolling_window_size environ) st = Ok N ->
  returned (get_stall_threshold environ) st = Ok T ->
  N <= Py.len d ->
  Py.max (Py.items d) = Ok hi ->
  Py.min (Py.items d) = Ok lo ->
  detect_stall environ d st =
    (Ok (hi - lo <=? T)%float,
     State (rolling_window st)
       (logged st ++ [(INFO, RollingWindowSize N);
                      (INFO, MaxStallTemperatureRange T);
                      (DEBUG, RollingWindow (Py.items d));
                      (DEBUG, TemperatureRange (hi - lo) (hi - lo <=? T)%float)])).
Proof.
  intros HN HT Hle Hhi Hlo. unfold detect_stall, mbind, M_bind, bind.
  rewrite (get_rolling_window_size_run _ _ _ HN).
  apply Z.ltb_ge in Hle. rewrite Hle, Hhi, Hlo. unfold lift at 1 2.
  erewrite get_stall_threshold_run
    by (rewrite <- HT; apply get_stall_threshold_state).
  run. rewrite <- !app_assoc. reflexivity.
Qed.

(** ** Comparisons of binary64 numbers *)

(** Two floats that compare equal also compare less-or-equal: the inclusive
    boundary of [<=]. *)
Lemma eqb_leb (x y : float) : (x =? y)%float = true -> (x <=? y)%float = true.
Proof.
  rewrite FloatAxioms.eqb_spec, FloatAxioms.leb_spec. unfold SFeqb, SFleb.
  destruct (SFcompare _ _) as [[]|]; congruence.
Qed.

(** [float()] raises nothing but its own [ValueError]. *)
Lemma float_raises s e :
  Py.float s = Raise e -> e = ValueError (InvalidFloatLiteral s).
Proof.
  unfold Py.float.
  destruct (Py.drop_underscores _ _) as [l|]; [|congruence].
  destruct (Py.take_sign l) as [neg body].
  destruct (Py.parse_decimal body) as [[m e10]|]; [congruence|].
  destruct (Py.parse_inf_or_nan neg body); congruence.
Qed.

(** ** The detector *)

(** C2: on a window that holds fewer readings than the configured window
    size N the detector returns false, whatever the values held. *)
Theorem detect_stall_undecided environ N d st :
  returned (get_rolling_window_size environ) st = Ok N ->
  Py.len d < N ->
  returned (detect_stall environ d) st = Ok false.
Proof.
  intros HN Hlt. unfold returned.
  rewrite (detect_stall_waiting environ N d st HN Hlt). reflexivity.
Qed.

Lemma detect_stall_undecided_witness :
  returned (detect_stall ∅ (Py.Deque [225; 225]%float 5))
    (State (Py.Deque [] 5) []) = Ok false.
Proof.
  apply (detect_stall_undecided ∅ 5); [reflexivity | vm_compute; reflexivity].
Defined.

(** C9: when the configured window size N is at least 1, the detector never
    calls max or min on an empty window (it never fails with their
    empty-sequence error), and with a threshold that the getter can read it
    returns a decision for every window. *)
Theorem detect_stall_total environ N d st :
  returned (get_rolling_window_size environ) st = Ok N ->
  1 <= N ->
  (forall f, returned (detect_stall environ d) st
             <> Raise (ValueError (EmptySequence f))) /\
  (forall T, returned (get_stall_threshold environ) st = Ok T ->
             exists b, returned (detect_stall environ d) st = Ok b).
Proof.
  intros HN Hpos.
  destruct (Z.lt_ge_cases (Py.len d) N) as [Hlt|Hge].
  - unfold returned. rewrite (detect_stall_waiting environ N d st HN Hlt).
    cbn [fst]. split; [congruence | eauto].
  - destruct (max_min_nonempty (Py.items d)) as (hi & lo & Hhi & Hlo).
    { unfold Py.len in Hge. destruct (Py.items d); simpl in *; [lia|congruence]. }
    split.
    + intros f. unfold returned, detect_stall, mbind, M_bind, bind.
      rewrite (get_rolling_window_size_run _ _ _ HN).
      apply Z.ltb_ge in Hge. rewrite Hge, Hhi, Hlo. unfold lift at 1 2.
      unfold get_stall_threshold. run.
      destruct (environ !! _) as [s|]; [|simpl; congruence].
      destruct (Py.float s) as [T|e] eqn:Hs; simpl; [congruence|].
      apply float_raises in Hs. congruence.
    + intros T HT. eexists. unfold returned.
      rewrite (detect_stall_deciding environ N T d hi lo st HN HT Hge Hhi Hlo).
      reflexivity.
Qed.

Lemma detect_stall_total_witness :
  (forall f, returned (detect_stall ∅ (Py.Deque [] 5))
               (State (Py.Deque [] 5) [])
             <> Raise (ValueError (EmptySequence f))) /\
  exists b, returned (detect_stall ∅ (Py.Deque [] 5))
              (State (Py.Deque [] 5) []) = Ok b.
Proof.
  destruct (detect_stall_total ∅ 5 (Py.Deque [] 5) (State (Py.Deque [] 5) []))
    as [Hmax Htot]; [reflexivity | lia |].
  split; [exact Hmax | apply (Htot 1%float); reflexivity].
Defined.

(** ** The rolling window *)

Section rolling_window.


Lemma lastn_length {A} n (l : list A) :
  length (lastn n l) = Nat.min (length l) n.
Proof. unfold lastn. rewrite length_drop. lia. Qed.

Lemma lastn_snoc {A} n (l : list A) x :
  lastn n (lastn n l ++ [x]) = lastn n (l ++ [x]).
Proof.
  unfold lastn. rewrite !length_app, length_drop. simpl.
  destruct (decide (length l <= n)%nat) as [Hle|Hgt].
  - assert (length l - n = 0)%nat as -> by lia.
    rewrite Nat.sub_0_r. reflexivity.
  - destruct n as [|n].
    + rewrite !drop_ge; [reflexivity | rewrite length_app; simpl; lia
                         | rewrite length_app, length_drop; simpl; lia].
    + replace (length l - (length l - S n) + 1 - S n)%nat with 1%nat by lia.
      replace (length l + 1 - S n)%nat with (length l - S n + 1)%nat by lia.
      rewrite (drop_app_le l) by lia.
      rewrite drop_app_le by (rewrite length_drop; lia).
      rewrite drop_drop. reflexivity.
Qed.

(** The deque keeps its bound, and one append keeps the last [maxlen] items
    of what was held followed by the new one. *)
Lemma append_maxlen d x : Py.maxlen (Py.append d x) = Py.maxlen d.
Proof. reflexivity. Qed.

Lemma append_items d x :
  0 <= Py.maxlen d ->
  Py.len d <= Py.maxlen d ->
  Py.items (Py.append d x) =
    lastn (Z.to_nat (Py.maxlen d)) (Py.items d ++ [x]).
Proof.
  unfold Py.len, Py.append, lastn. simpl. intros H0 Hle.
  rewrite length_app. simpl.
  destruct (Z.ltb_spec (Py.maxlen d) (Z.of_nat (length (Py.items d) + 1))) as [Hlt|Hge].
  - replace (length (Py.items d) + 1 - Z.to_nat (Py.maxlen d))%nat with 1%nat by lia.
    destruct (Py.items d ++ [x]); reflexivity.
  - replace (length (Py.items d) + 1 - Z.to_nat (Py.maxlen d))%nat with 0%nat by lia.
    reflexivity.
Qed.

Lemma appends_maxlen vs d :
  Py.maxlen (fold_left Py.append vs d) = Py.maxlen d.
Proof. revert d. induction vs as [|v vs IH]; intros d; simpl; [|rewrite IH]; reflexivity. Qed.

(** After any appends to a deque that respects its bound, the deque holds
    the last [maxlen] items of everything it was given. *)
Lemma appends_items vs : forall d,
  0 <= Py.maxlen d ->
  Py.len d <= Py.maxlen d ->
  Py.items (fold_left Py.append vs d) =
    lastn (Z.to_nat (Py.maxlen d)) (Py.items d ++ vs).
Proof.
  induction vs as [|v vs IH] using rev_ind; intros d H0 Hle.
  - simpl. rewrite app_nil_r. unfold lastn.
    replace (length (Py.items d) - Z.to_nat (Py.maxlen d))%nat with 0%nat
      by (unfold Py.len in Hle; lia).
    reflexivity.
  - rewrite fold_left_app. cbn [fold_left].
    rewrite append_items; rewrite ?appends_maxlen; try assumption.
    + rewrite IH by assumption. rewrite lastn_snoc, app_assoc. reflexivity.
    + unfold Py.len. rewrite IH by assumption. rewrite lastn_length. lia.
Qed.

End rolling_window.

(** C3: after any sequence of appends to a rolling window created with
    capacity N, the window holds at most N values, and exactly
    min(number of appends, N) of them. *)
Theorem window_length N d0 (vs : list float) :
  Py.deque_new N = Ok d0 ->
  let d := fold_left Py.append vs d0 in
  Py.len d <= N /\ Py.len d = Z.min (Z.of_nat (length vs)) N.
Proof.
  unfold Py.deque_new. destruct (_ || _); [congruence|].
  destruct (Z.ltb_spec N 0) as [|H0]; [congruence|].
  intros [= <-]. simpl. unfold Py.len.
  rewrite appends_items by (unfold Py.len; simpl; lia).
  simpl. rewrite lastn_length. lia.
Qed.

Lemma window_length_witness :
  Py.len (fold_left Py.append [1; 2; 3]%float (Py.Deque [] 2)) <= 2 /\
  Py.len (fold_left Py.append [1; 2; 3]%float (Py.Deque [] 2)) =
    Z.min (Z.of_nat 3) 2.
Proof. apply (window_length 2 (Py.Deque [] 2) [1; 2; 3]%float). reflexivity. Defined.

(** C4: after appending v1..vk, k > N, to a rolling window created with
    capacity N, the window holds exactly the last N of those values in the
    order they were appended. *)
Theorem window_fifo N d0 (vs : list float) :
  Py.deque_new N = Ok d0 ->
  N < Z.of_nat (length vs) ->
  Py.items (fold_left Py.append vs d0) = lastn (Z.to_nat N) vs /\
  length (lastn (Z.to_nat N) vs) = Z.to_nat N.
Proof.
  unfold Py.deque_new. destruct (_ || _); [congruence|].
  destruct (Z.ltb_spec N 0) as [|H0]; [congruence|].
  intros [= <-] Hk.
  rewrite appends_items by (unfold Py.len; simpl; lia).
  simpl. split; [reflexivity | rewrite lastn_length; lia].
Qed.

Lemma window_fifo_witness :
  Py.items (fold_left Py.append [1; 2; 3]%float (Py.Deque [] 2)) =
    [2; 3]%float.
Proof.
  destruct (window_fifo 2 (Py.Deque [] 2) [1; 2; 3]%float) as [H _];
    [reflexivity | vm_compute; reflexivity | exact H].
Defined.

(** ** Processing one message *)

Section process_message.

Variable json_loads : string -> result Py.json.
Variable environ : environment.



Ltac run_handler :=
  eexists; split; [reflexivity|];
  split; [reflexivity|];
  cbn [logged]; rewrite <- ?app_assoc; cbn [app];
  eexists _, _; split; [reflexivity|]; split; reflexivity.

Lemma process_message_failure message st :
  decode_failure json_loads message ->
  exists st', process_message json_loads environ message st = (Ok tt, st') /\
              error_logged st st'.
Proof.
  intros Hfail. unfold error_logged, process_message, process_message_except.
  destruct Hfail as [e He | v Hv Hnot | d Hd Hmiss | d v Hd Hv Hbad]; steps.
  - rewrite He. steps. run_handler.
  - rewrite Hv. steps.
    destruct v as [| b | n | x | s | l | d]; steps; try run_handler.
    + destruct (Py.str_contains "temperature" s); steps;
        [destruct (Py.str_contains "timestamp" s); steps|];
        run_handler.
    + destruct (existsb (Py.is_str "temperature") l); steps;
        [destruct (existsb (Py.is_str "timestamp") l); steps|];
        run_handler.
    + destruct (Hnot d eq_refl).
  - rewrite Hd. steps.
    destruct (Py.dict_get "temperature" d) as [v|] eqn:Hv; steps;
      [|run_handler].
    destruct Hmiss as [|Hts]; [congruence|]. rewrite Hts. steps.
    run_handler.
  - rewrite Hd. steps. rewrite Hv. steps.
    destruct (Py.dict_get "timestamp" d) as [ts|] eqn:Hts; steps;
      [|run_handler].
    destruct v as [| b | n | x | s | l | d']; steps; try run_handler.
    destruct (Hbad s eq_refl) as [e ->]. steps.
    run_handler.
Qed.

(** [process_message] catches every exception: it always returns. *)
Lemma process_message_returns message st :
  returned (process_message json_loads environ message) st = Ok tt.
Proof.
  unfold process_message, process_message_except. steps.
  destruct (json_loads message) as [v|e]; steps; [|reflexivity].
  destruct v as [| b | n | x | s | l | d]; steps; try reflexivity.
  - destruct (Py.str_contains "temperature" s); steps;
      [destruct (Py.str_contains "timestamp" s); steps|]; reflexivity.
  - destruct (existsb (Py.is_str "temperature") l); steps;
      [destruct (existsb (Py.is_str "timestamp") l); steps|]; reflexivity.
  - destruct (Py.dict_get "temperature" d) as [v|]; steps; [|reflexivity].
    destruct (Py.dict_get "timestamp" d) as [ts|]; steps; [|reflexivity].
    destruct v as [| b | n | x | s | l | d']; steps; try reflexivity.
    destruct (Py.float _) as [x|e]; steps; [|reflexivity].
    destruct (detect_stall _ _ _) as [[[]|e] st']; steps; reflexivity.
Qed.

End process_message.

(** C6: a message that fails to decode (payload that does not parse,
    missing temperature or timestamp, temperature that is not a number)
    leaves the rolling window as it was, is reported by an error record,
    and does not stop the loop: [process_message] returns and the next
    message is processed from a state with the same window. *)
Theorem failed_message_keeps_window json_loads environ message rest st :
  decode_failure json_loads (value message) ->
  exists st',
    poll json_loads environ message st = (Ok tt, st') /\
    error_logged st st' /\
    window_after (process_message json_loads environ (value message)) st
      = rolling_window st /\
    returned (process_message json_loads environ (value message)) st = Ok tt /\
    for_each (message :: rest) (poll json_loads environ) st =
      for_each rest (poll json_loads environ) st'.
Proof.
  intros Hfail.
  destruct (process_message_failure json_loads environ (value message)
              (State (rolling_window st)
                 (logged st ++ [(DEBUG, ReceivedMessage (offset message)
                                          (value message))]))
              Hfail) as (st' & Hrun & Hwin & more & r & Hlog & Hlast & Herr).
  destruct (process_message_failure json_loads environ (value message) st Hfail)
    as (st1 & Hrun1 & Hwin1 & _).
  assert (Hpoll : poll json_loads environ message st = (Ok tt, st')).
  { unfold poll. steps. exact Hrun. }
  exists st'. split; [exact Hpoll|]. split.
  { split; [exact Hwin|].
    exists ((DEBUG, ReceivedMessage (offset message) (value message)) :: more), r.
    split; [|split].
    - rewrite Hlog. cbn [logged]. rewrite <- app_assoc. reflexivity.
    - destruct more; [discriminate | exact Hlast].
    - exact Herr. }
  split; [unfold window_after; rewrite Hrun1; exact Hwin1|].
  split; [apply process_message_returns|].
  cbn [for_each]. unfold mbind, M_bind, bind. rewrite Hpoll. reflexivity.
Qed.

(** ** The text [float()] accepts *)

Section float_text.

Local Open Scope char_scope.

(** *** Whitespace *)

Lemma lstrip_In c l : Py.isspace c = false -> In c l -> In c (Py.lstrip l).
Proof.
  intros Hc. induction l as [|a l IH]; simpl; [tauto|].
  intros [->|Hin].
  - rewrite Hc. left. reflexivity.
  - destruct (Py.isspace a); [auto | right; exact Hin].
Qed.

Lemma strip_In c l : Py.isspace c = false -> In c l -> In c (Py.strip l).
Proof.
  intros Hc Hin. unfold Py.strip.
  rewrite <- in_rev. apply lstrip_In; [assumption|].
  rewrite <- in_rev. apply lstrip_In; assumption.
Qed.

Lemma lstrip_incl c l : In c (Py.lstrip l) -> In c l.
Proof.
  induction l as [|a l IH]; simpl; [tauto|].
  destruct (Py.isspace a); [intros H; right; apply IH, H | exact id].
Qed.

Lemma strip_incl c l : In c (Py.strip l) -> In c l.
Proof.
  unfold Py.strip. rewrite <- in_rev. intros H.
  apply lstrip_incl in H. rewrite <- in_rev in H. apply lstrip_incl, H.
Qed.

Lemma lstrip_app a l m :
  In a l -> Py.isspace a = false -> Py.lstrip (l ++ m) = Py.lstrip l ++ m.
Proof.
  induction l as [|b l IH]; simpl; [tauto|]. intros [->|Hin] Ha.
  - rewrite Ha. reflexivity.
  - destruct (Py.isspace b); [apply IH; assumption | reflexivity].
Qed.

(** What stands between two characters that are not whitespace is not
    stripped. *)
Lemma strip_between a b c l1 l2 :
  In a l1 -> Py.isspace a = false ->
  In b l2 -> Py.isspace b = false ->
  In c (Py.strip (l1 ++ c :: l2)).
Proof.
  intros Ha Hsa Hb Hsb. unfold Py.strip.
  rewrite (lstrip_app a) by assumption.
  rewrite rev_app_distr. cbn [rev]. rewrite <- app_assoc.
  rewrite (lstrip_app b) by (try rewrite <- in_rev; assumption).
  rewrite <- in_rev. apply in_or_app. right.
  apply in_or_app. left. left. reflexivity.
Qed.

(** *** The characters of a number *)

Lemma number_char_not_space c : number_char c = true -> Py.isspace c = false.
Proof.
  destruct c as [[] [] [] [] [] [] [] []]; vm_compute; intros H;
    first [reflexivity | discriminate H].
Qed.

Lemma printable_spec c :
  printable c = true -> Py.code c < 127 /\ Py.isspace c = false.
Proof.
  destruct c as [[] [] [] [] [] [] [] []]; vm_compute; intros H;
    first [discriminate H | split; reflexivity].
Qed.

Lemma drop_underscores_chars (P : ascii -> Prop) l : forall prev l',
  P "_" ->
  Py.drop_underscores prev l = Some l' -> Forall P l' -> Forall P l.
Proof.
  induction l as [|a l IH]; intros prev l' HP; simpl; [constructor|].
  destruct (Ascii.eqb_spec a "_") as [->|Ha].
  - destruct (Py.isdigit prev); [|discriminate].
    intros Hl Hall. constructor; eauto.
  - destruct (_ && _); [discriminate|].
    destruct (Py.drop_underscores a l) as [l0|] eqn:Hl0; [|discriminate].
    simpl. intros [= <-] Hall. apply Forall_cons in Hall as [Ha' Hall].
    constructor; eauto.
Qed.

Lemma span_digits_app l : forall ds r,
  Py.span_digits l = (ds, r) ->
  l = ds ++ r /\ Forall (fun c => Py.isdigit c = true) ds.
Proof.
  induction l as [|a l IH]; simpl; intros ds r.
  - intros [= <- <-]. split; [reflexivity | constructor].
  - destruct (Py.isdigit a) eqn:Ha.
    + destruct (Py.span_digits l) as [ds0 r0].
      intros [= <- <-]. destruct (IH _ _ eq_refl) as [-> Hds].
      split; [reflexivity | constructor; assumption].
    + intros [= <- <-]. split; [reflexivity | constructor].
Qed.

Lemma digits_decimal ds :
  Forall (fun c => Py.isdigit c = true) ds ->
  Forall (fun c => decimal_char c = true) ds.
Proof.
  intros H. eapply Forall_impl; [exact H|].
  intros c Hc. unfold decimal_char. rewrite Hc. reflexivity.
Qed.

Lemma take_sign_chars (P : ascii -> Prop) l neg r :
  P "-" -> P "+" ->
  Py.take_sign l = (neg, r) -> Forall P r -> Forall P l.
Proof.
  intros Hm Hp. destruct l as [|a l]; simpl; [intros [= <- <-]; auto|].
  destruct (Ascii.eqb_spec a "-") as [->|];
    [intros [= <- <-] H; constructor; assumption|].
  destruct (Ascii.eqb_spec a "+") as [->|];
    [intros [= <- <-] H; constructor; assumption|].
  intros [= <- <-]. auto.
Qed.

Lemma parse_exponent_chars l e :
  Py.parse_exponent l = Some e -> Forall (fun c => decimal_char c = true) l.
Proof.
  destruct l as [|a l]; simpl; [constructor|].
  destruct (Ascii.eqb (Py.lower a) "e") eqn:Ha; [|discriminate].
  destruct (Py.take_sign l) as [neg l2] eqn:Hsign.
  destruct (Py.span_digits l2) as [ds r] eqn:Hds.
  destruct ds as [|d0 ds]; [discriminate|].
  destruct r; [|discriminate]. intros _.
  apply span_digits_app in Hds as [-> Hds]. rewrite app_nil_r in Hsign.
  constructor.
  - unfold decimal_char. rewrite Ha.
    repeat rewrite ?orb_true_r, ?orb_true_l. reflexivity.
  - eapply (take_sign_chars (fun c => decimal_char c = true));
      [reflexivity | reflexivity | exact Hsign | apply digits_decimal, Hds].
Qed.

Lemma parse_decimal_chars l m e :
  Py.parse_decimal l = Some (m, e) -> Forall (fun c => decimal_char c = true) l.
Proof.
  unfold Py.parse_decimal.
  destruct (Py.span_digits l) as [ip r1] eqn:Hip.
  apply span_digits_app in Hip as [-> Hip].
  intros H. apply Forall_app. split; [apply digits_decimal, Hip|].
  destruct r1 as [|c r].
  - constructor.
  - destruct (Ascii.eqb_spec c ".") as [->|Hc].
    + destruct (Py.span_digits r) as [fp r2] eqn:Hfp.
      apply span_digits_app in Hfp as [-> Hfp].
      constructor; [reflexivity|].
      apply Forall_app. split; [apply digits_decimal, Hfp|].
      destruct (ip ++ fp); [discriminate|].
      destruct (Py.parse_exponent r2) eqn:He; [|discriminate].
      eapply parse_exponent_chars, He.
    + destruct (ip ++ []); [discriminate|].
      destruct (Py.parse_exponent (c :: r)) eqn:He; [|discriminate].
      eapply parse_exponent_chars, He.
Qed.

Lemma lower_word l w :
  map Py.lower l = list_ascii_of_string w ->
  Forall (fun c => In (Py.lower c) (list_ascii_of_string w)) l.
Proof.
  intros <-. apply List.Forall_forall. intros c Hc. apply in_map, Hc.
Qed.

Lemma parse_inf_or_nan_chars neg l x :
  Py.parse_inf_or_nan neg l = Some x -> Forall (fun c => word_char c = true) l.
Proof.
  unfold Py.parse_inf_or_nan.
  set (w := string_of_list_ascii (map Py.lower l)).
  assert (Hw : map Py.lower l = list_ascii_of_string w)
    by (unfold w; rewrite list_ascii_of_string_of_list_ascii; reflexivity).
  apply lower_word in Hw. intros H.
  eapply Forall_impl; [exact Hw|]. clear Hw. intros c Hc. revert H Hc.
  unfold word_char.
  destruct (String.eqb_spec w "inf") as [->|_];
    [intros _ Hc; simpl in Hc; intuition (subst; try reflexivity);
     match goal with E : _ = Py.lower c |- _ => rewrite <- E; reflexivity end|].
  destruct (String.eqb_spec w "infinity") as [->|_];
    [intros _ Hc; simpl in Hc; intuition (subst; try reflexivity);
     match goal with E : _ = Py.lower c |- _ => rewrite <- E; reflexivity end|].
  destruct (String.eqb_spec w "nan") as [->|_];
    [intros _ Hc; simpl in Hc; intuition (subst; try reflexivity);
     match goal with E : _ = Py.lower c |- _ => rewrite <- E; reflexivity end|].
  discriminate.
Qed.

(** The text [float()] reads, once stripped, is not empty and made of the
    characters of numbers. *)
Lemma float_chars s x :
  Py.float s = Ok x ->
  Py.strip (Py.decimal_and_space_to_ascii s) <> [] /\
  Forall (fun c => number_char c = true)
    (Py.strip (Py.decimal_and_space_to_ascii s)).
Proof.
  unfold Py.float. set (t := Py.strip _).
  destruct (Py.drop_underscores Ascii.zero t) as [l|] eqn:Hl; [|discriminate].
  destruct (Py.take_sign l) as [neg body] eqn:Hsign. intros H.
  assert (Hbody : body <> [] /\ Forall (fun c => number_char c = true) body).
  { destruct (Py.parse_decimal body) as [[m e]|] eqn:Hdec.
    - split; [intros ->; discriminate Hdec|].
      eapply Forall_impl; [eapply parse_decimal_chars, Hdec|].
      intros c Hc. unfold number_char. rewrite Hc. reflexivity.
    - destruct (Py.parse_inf_or_nan neg body) eqn:Hw; [|discriminate].
      split; [intros ->; discriminate Hw|].
      eapply Forall_impl; [eapply parse_inf_or_nan_chars, Hw|].
      intros c Hc. unfold number_char. rewrite Hc. apply orb_true_r. }
  destruct Hbody as [Hne Hall].
  assert (Hl' : l <> []) by (intros ->; injection Hsign as _ <-; congruence).
  split.
  - intros E. rewrite E in Hl. injection Hl as <-. congruence.
  - eapply drop_underscores_chars; [reflexivity | exact Hl |].
    eapply take_sign_chars; [reflexivity | reflexivity | exact Hsign | exact Hall].
Qed.

(** A text that, once stripped, holds another character is rejected. *)
Lemma float_rejects s c :
  In c (Py.strip (Py.decimal_and_space_to_ascii s)) ->
  number_char c = false ->
  Py.float s = Raise (ValueError (InvalidFloatLiteral s)).
Proof.
  intros Hin Hc. destruct (Py.float s) as [x|e] eqn:Hx.
  - apply float_chars in Hx as [_ Hall].
    rewrite List.Forall_forall in Hall. rewrite (Hall _ Hin) in Hc.
    discriminate.
  - f_equal. apply float_raises, Hx.
Qed.

(** *** Texts that are not ASCII *)

Lemma list_ascii_app s1 s2 :
  list_ascii_of_string (s1 +:+ s2) =
    list_ascii_of_string s1 ++ list_ascii_of_string s2.
Proof. induction s1 as [|c s1 IH]; simpl; [|rewrite IH]; reflexivity. Qed.

Lemma ascii_of_code c : ascii_of_nat (Z.to_nat (Py.code c)) = c.
Proof. unfold Py.code. rewrite Nat2Z.id. apply ascii_nat_embedding. Qed.

(** An ASCII text is its own code points. *)
Lemma decode_ascii u : forall acc low,
  Forall (fun c => Py.code c < 127) u ->
  Py.decode_utf8 0 acc low u = Some (map Py.code u).
Proof.
  induction u as [|c u IH]; intros acc low Hu; [reflexivity|].
  apply Forall_cons in Hu as [Hc Hu]. cbn [Py.decode_utf8 map]. cbv zeta.
  destruct (Z.ltb_spec (Py.code c) 128) as [_|]; [|lia].
  rewrite IH by assumption. reflexivity.
Qed.

Lemma decode_app l u : forall need acc low cps,
  Forall (fun c => Py.code c < 127) u ->
  Py.decode_utf8 need acc low l = Some cps ->
  Py.decode_utf8 need acc low (l ++ u) = Some (cps ++ map Py.code u).
Proof.
  induction l as [|b l IH]; intros need acc low cps Hu.
  - destruct need; [|discriminate]. intros [= <-]. apply decode_ascii, Hu.
  - destruct need as [|k]; cbn [Py.decode_utf8 app]; cbv zeta.
    + destruct (Py.code b <? 128)%Z.
      { destruct (Py.decode_utf8 0 0 0 l) as [cps0|] eqn:E; [|discriminate].
        intros [= <-]. rewrite (IH _ _ _ _ Hu E). reflexivity. }
      destruct (Py.code b <? 192)%Z; [discriminate|].
      destruct (Py.code b <? 224)%Z; [apply IH, Hu|].
      destruct (Py.code b <? 240)%Z; [apply IH, Hu|].
      destruct (Py.code b <? 248)%Z; [apply IH, Hu | discriminate].
    + destruct (_ && _); [|discriminate].
      destruct k as [|k'].
      * destruct (_ && _); [|discriminate].
        destruct (Py.decode_utf8 0 0 0 l) as [cps0|] eqn:E; [|discriminate].
        intros [= <-]. rewrite (IH _ _ _ _ Hu E). reflexivity.
      * apply IH, Hu.
Qed.

(** An ASCII character of a text is one of its code points. *)
Lemma decode_In c l : forall need acc low cps,
  Py.code c < 128 ->
  Py.decode_utf8 need acc low l = Some cps -> In c l -> In (Py.code c) cps.
Proof.
  induction l as [|b l IH]; intros need acc low cps Hc; [intros _ []|].
  destruct need as [|k]; cbn [Py.decode_utf8]; cbv zeta.
  - destruct (Z.ltb_spec (Py.code b) 128) as [Hb|Hb].
    { destruct (Py.decode_utf8 0 0 0 l) as [cps0|] eqn:E; [|discriminate].
      intros [= <-] [->|Hin]; [left; reflexivity | right; eapply IH; eauto]. }
    intros Hd [->|Hin]; [lia|]. revert Hd.
    destruct (Py.code b <? 192)%Z; [discriminate|].
    destruct (Py.code b <? 224)%Z; [intros Hd; eapply IH; eauto|].
    destruct (Py.code b <? 240)%Z; [intros Hd; eapply IH; eauto|].
    destruct (Py.code b <? 248)%Z; [intros Hd; eapply IH; eauto | discriminate].
  - destruct (Z.leb_spec 128 (Py.code b)) as [Hb|Hb];
      cbn [andb]; [|discriminate].
    destruct (Py.code b <? 192)%Z; [|discriminate].
    intros Hd [->|Hin]; [lia|]. revert Hd.
    destruct k as [|k'].
    + destruct (_ && _); [|discriminate].
      destruct (Py.decode_utf8 0 0 0 l) as [cps0|] eqn:E; [|discriminate].
      intros [= <-]. right. eapply IH; eauto.
    + intros Hd. eapply IH; eauto.
Qed.

Lemma to_ascii_ascii u :
  Forall (fun c => Py.code c < 127) u -> Py.to_ascii (map Py.code u) = u.
Proof.
  induction 1 as [|c u Hc Hu IH]; [reflexivity|]. cbn [map Py.to_ascii].
  destruct (Z.ltb_spec (Py.code c) 127); [|lia].
  rewrite ascii_of_code, IH. reflexivity.
Qed.

(** A cut text ends with a question mark. *)
Lemma to_ascii_app cps more :
  Py.to_ascii (cps ++ more) = Py.to_ascii cps ++ Py.to_ascii more \/
  In "?" (Py.to_ascii cps).
Proof.
  induction cps as [|ch cps IH]; [left; reflexivity|].
  cbn [app Py.to_ascii].
  destruct (ch <? 127)%Z;
    [destruct IH as [->|]; [left; reflexivity | right; right; assumption]|].
  destruct (Py.unicode_isspace ch);
    [destruct IH as [->|]; [left; reflexivity | right; right; assumption]|].
  destruct (Py.to_decimal ch);
    [destruct IH as [->|]; [left; reflexivity | right; right; assumption]|].
  right. left. reflexivity.
Qed.

Lemma to_ascii_In c cps :
  Py.code c < 127 -> In (Py.code c) cps ->
  In c (Py.to_ascii cps) \/ In "?" (Py.to_ascii cps).
Proof.
  intros Hc. induction cps as [|ch cps IH]; [intros []|].
  cbn [Py.to_ascii]. intros [->|Hin].
  - destruct (Z.ltb_spec (Py.code c) 127); [|lia].
    left. left. apply ascii_of_code.
  - specialize (IH Hin).
    destruct (ch <? 127)%Z;
      [destruct IH; [left | right]; right; assumption|].
    destruct (Py.unicode_isspace ch);
      [destruct IH; [left | right]; right; assumption|].
    destruct (Py.to_decimal ch);
      [destruct IH; [left | right]; right; assumption|].
    right. left. reflexivity.
Qed.

(** An ASCII character of a text is a character of what is parsed, unless
    the text is cut. *)
Lemma to_ascii_text_In s c :
  Py.code c < 127 -> In c (list_ascii_of_string s) ->
  In c (Py.decimal_and_space_to_ascii s) \/
  In "?" (Py.decimal_and_space_to_ascii s).
Proof.
  intros Hc Hin. unfold Py.decimal_and_space_to_ascii. cbv zeta.
  destruct (forallb _ _); [left; exact Hin|].
  destruct (Py.decode_utf8 0 0 0 _) as [cps|] eqn:Hd;
    [|right; left; reflexivity].
  apply to_ascii_In; [exact Hc|].
  eapply decode_In; [|exact Hd|exact Hin]. lia.
Qed.

(** An ASCII text added at the end is added to what is parsed. *)
Lemma to_ascii_text_app s u :
  Forall (fun c => Py.code c < 127) (list_ascii_of_string u) ->
  Py.decimal_and_space_to_ascii (s +:+ u) =
    Py.decimal_and_space_to_ascii s ++ list_ascii_of_string u \/
  In "?" (Py.decimal_and_space_to_ascii s).
Proof.
  intros Hu. unfold Py.decimal_and_space_to_ascii. cbv zeta.
  rewrite list_ascii_app, forallb_app.
  assert (Hall : forallb (fun c => (Py.code c <? 128)%Z) (list_ascii_of_string u)
                 = true).
  { apply forallb_forall. intros c Hc. rewrite List.Forall_forall in Hu.
    specialize (Hu c Hc). apply Z.ltb_lt. lia. }
  rewrite Hall, andb_true_r. clear Hall.
  destruct (forallb _ (list_ascii_of_string s)); [left; reflexivity|].
  destruct (Py.decode_utf8 0 0 0 (list_ascii_of_string s)) as [cps|] eqn:Hd;
    [|right; left; reflexivity].
  rewrite (decode_app _ _ _ _ _ _ Hu Hd).
  destruct (to_ascii_app cps (map Py.code (list_ascii_of_string u)))
    as [->|Hq]; [left | right; exact Hq].
  rewrite to_ascii_ascii by exact Hu. reflexivity.
Qed.

(** *** The letter C *)

(** No accepted text holds the letter C. *)
Lemma float_no_C s x :
  Py.float s = Ok x -> ~ In "C" (list_ascii_of_string s).
Proof.
  intros Hx Hin.
  assert (Hbad : forall c, number_char c = false -> Py.isspace c = false ->
                   ~ In c (Py.decimal_and_space_to_ascii s)).
  { intros c Hc Hs H. apply (strip_In c) in H; [|exact Hs].
    rewrite (float_rejects s c H Hc) in Hx. discriminate. }
  destruct (to_ascii_text_In s "C") as [H|H];
    [reflexivity | exact Hin | |]; revert H; apply Hbad; reflexivity.
Qed.

(** A valid float followed by a space and a unit marker is rejected. *)
Lemma float_unit_suffix s x u :
  Py.float s = Ok x -> unit_text u = true ->
  Py.float (s +:+ String " " u) =
    Raise (ValueError (InvalidFloatLiteral (s +:+ String " " u))).
Proof.
  intros Hx Hu. destruct (float_chars s x Hx) as [Hne Hall].
  unfold unit_text in Hu. apply andb_true_iff in Hu as [Hnon Hu].
  assert (Hp : Forall (fun c => printable c = true) (list_ascii_of_string u)).
  { apply List.Forall_forall. intros c Hc.
    rewrite forallb_forall in Hu. specialize (Hu c Hc).
    apply andb_true_iff in Hu as [Hu _]. exact Hu. }
  destruct (to_ascii_text_app s (String " " u)) as [E|Hq].
  - constructor; [reflexivity|].
    eapply Forall_impl; [exact Hp|]. intros c Hc. apply printable_spec, Hc.
  - destruct (Py.strip (Py.decimal_and_space_to_ascii s)) as [|a r] eqn:Hs;
      [congruence|].
    assert (Ha : In a (Py.decimal_and_space_to_ascii s))
      by (apply strip_incl; rewrite Hs; left; reflexivity).
    apply Forall_cons in Hall as [Hna _].
    destruct u as [|b u]; [discriminate|].
    apply Forall_cons in Hp as [Hb _].
    apply (float_rejects _ " "); [|reflexivity].
    rewrite E. cbn [list_ascii_of_string].
    apply (strip_between a b); [exact Ha | | left; reflexivity |].
    + apply number_char_not_space, Hna.
    + apply printable_spec, Hb.
  - apply (strip_In "?") in Hq; [|reflexivity].
    rewrite List.Forall_forall in Hall. specialize (Hall _ Hq). discriminate.
Qed.

(** *** Removing [" C"] *)

Lemma prefix_cons a s1 b s2 :
  String.prefix (String a s1) (String b s2) =
    if Ascii.ascii_dec a b then String.prefix s1 s2 else false.
Proof. reflexivity. Qed.

(** One [" C"] at the head of a text is removed. *)
Lemma replace_from_C rest :
  Py.replace_from " C" "" 0 (String " " (String "C" rest)) =
    Py.replace_from " C" "" 0 rest.
Proof.
  change (Py.replace_from " C" "" 0 (String " " (String "C" rest)))
    with (if String.prefix " C" (String " " (String "C" rest))
          then String.append ""
                 (Py.replace_from " C" ""
                    (Nat.pred (String.length " C")) (String "C" rest))
          else String " " (Py.replace_from " C" "" 0 (String "C" rest))).
  assert (String.prefix " C" (String " " (String "C" rest)) = true) as ->
    by (cbn; destruct rest; reflexivity).
  reflexivity.
Qed.

(** Removing [" C"] from copies of it leaves nothing. *)
Lemma replace_C_only n : Py.replace (copies n " C") " C" "" = ""%string.
Proof.
  unfold Py.replace. induction n as [|n IH]; [reflexivity|].
  change (copies (S n) " C") with (String " " (String "C" (copies n " C"))).
  rewrite replace_from_C. exact IH.
Qed.

(** Removing [" C"] from a text without the letter C followed by copies of
    [" C"] gives the text back. *)
Lemma replace_C_copies s n :
  ~ In "C" (list_ascii_of_string s) ->
  Py.replace (s +:+ copies n " C") " C" "" = s.
Proof.
  induction s as [|c s IH]; [intros _; apply replace_C_only|].
  simpl list_ascii_of_string. intros Hno.
  assert (Hs : ~ In "C" (list_ascii_of_string s)) by (intros H; apply Hno; right; exact H).
  change (String c s +:+ copies n " C") with (String c (s +:+ copies n " C")).
  unfold Py.replace in *. cbn [Py.replace_from].
  assert (Hpre : String.prefix " C" (String c (s +:+ copies n " C")) = false).
  { rewrite prefix_cons.
    destruct (Ascii.ascii_dec " " c); [|reflexivity].
    destruct s as [|c2 s].
    - destruct n as [|n]; [reflexivity|].
      change ("" +:+ copies (S n) " C")
        with (String " " (String "C" (copies n " C"))).
      rewrite prefix_cons.
      destruct (Ascii.ascii_dec "C" " "); [discriminate | reflexivity].
    - change (String c2 s +:+ copies n " C")
        with (String c2 (s +:+ copies n " C")).
      rewrite prefix_cons.
      destruct (Ascii.ascii_dec "C" c2) as [<-|]; [|reflexivity].
      destruct Hs. left. reflexivity. }
  rewrite Hpre. f_equal. apply IH, Hs.
Qed.

(** Without the letter C there is nothing to remove. *)
Lemma replace_C_none s :
  ~ In "C" (list_ascii_of_string s) ->
  Py.replace s " C" "" = s.
Proof.
  intros Hno. assert (H := replace_C_copies s 0 Hno). cbn [copies] in H.
  assert (E : (s +:+ "")%string = s)
    by (clear; induction s as [|c s IH];
        [reflexivity
        | change (String c (s +:+ "") = String c s); f_equal; exact IH]).
  rewrite E in H. exact H.
Qed.

(** A unit marker holds no letter C. *)
Lemma unit_text_no_C u :
  unit_text u = true -> ~ In "C" (list_ascii_of_string u).
Proof.
  unfold unit_text. intros Hu Hin. apply andb_true_iff in Hu as [_ Hu].
  rewrite forallb_forall in Hu. specialize (Hu _ Hin).
  apply andb_true_iff in Hu as [_ Hu]. discriminate.
Qed.

End float_text.

(** ** A message that decodes *)

Section reading.

Variable json_loads : string -> result Py.json.
Variable environ : environment.

(** The detector only reads the deque and writes to the log. *)
Lemma detect_stall_window d st :
  rolling_window (snd (detect_stall environ d st)) = rolling_window st /\
  exists more, logged (snd (detect_stall environ d st)) = logged st ++ more.
Proof.
  unfold detect_stall, get_rolling_window_size, get_stall_threshold. steps.
  destruct (match environ !! "SMOKER_ROLLING_WINDOW_SIZE" with
            | Some s => Py.int s | None => Ok 5 end) as [N|e]; steps;
    [|split; [reflexivity | exists []; rewrite app_nil_r; reflexivity]].
  destruct (Py.len d <? N); steps;
    [split; [reflexivity | rewrite <- app_assoc; eauto]|].
  destruct (Py.max (Py.items d)) as [hi|e]; steps;
    [|split; [reflexivity | eauto]].
  destruct (Py.min (Py.items d)) as [lo|e]; steps;
    [|split; [reflexivity | eauto]].
  destruct (match environ !! "SMOKER_STALL_THRESHOLD_F" with
            | Some s => Py.float s | None => Ok 1%float end) as [T|e]; steps;
    [|split; [reflexivity | eauto]].
  split; [reflexivity | rewrite <- !app_assoc; eauto].
Qed.


(** What [process_message] does with a message that carries a reading. *)
Lemma process_message_reading message d s x ts st :
  json_loads message = Ok (Py.JDict d) ->
  Py.dict_get "temperature" d = Some (Py.JStr s) ->
  Py.dict_get "timestamp" d = Some ts ->
  Py.float (Py.replace s " C" "") = Ok x ->
  let st1 := appended message (Py.JDict d) x ts st in
  process_message json_loads environ message st =
    match detect_stall environ (rolling_window st1) st1 with
    | (Ok true, st2) =>
        (Ok tt, State (rolling_window st2)
                  (logged st2 ++ [(INFO, StallDetected ts x)]))
    | (Ok false, st2) => (Ok tt, st2)
    | (Raise e, st2) =>
        (Ok tt, State (rolling_window st2)
                  (logged st2 ++
                     [(ERROR, match e with
                              | JSONDecodeError => InvalidJSONMessage message
                              | _ => ErrorProcessingMessage e
                              end)]))
    end.
Proof.
  intros Hd Hs Hts Hx. unfold appended, process_message, process_message_except.
  steps. rewrite Hd. steps. rewrite Hs. steps. rewrite Hts. steps.
  rewrite Hx. steps. rewrite <- !app_assoc. cbn [app].
  destruct (detect_stall _ _ _) as [[[]|e] st2]; reflexivity.
Qed.

(** What it does with a temperature text that [float()] does not read. *)
Lemma process_message_invalid message d s what ts st :
  json_loads message = Ok (Py.JDict d) ->
  Py.dict_get "temperature" d = Some (Py.JStr s) ->
  Py.dict_get "timestamp" d = Some ts ->
  Py.float (Py.replace s " C" "") = Raise (ValueError what) ->
  process_message json_loads environ message st =
    (Ok tt,
     State (rolling_window st)
       (logged st ++ [(DEBUG, RawMessage message);
                      (INFO, ProcessedJSONMessage (Py.JDict d));
                      (ERROR, ErrorProcessingMessage (ValueError what))])).
Proof.
  intros Hd Hs Hts Hx. unfold process_message, process_message_except.
  steps. rewrite Hd. steps. rewrite Hs. steps. rewrite Hts. steps.
  rewrite Hx. steps. rewrite <- !app_assoc. reflexivity.
Qed.

(** It appends the reading and logs it. *)
Lemma process_message_appends message d s x ts st :
  json_loads message = Ok (Py.JDict d) ->
  Py.dict_get "temperature" d = Some (Py.JStr s) ->
  Py.dict_get "timestamp" d = Some ts ->
  Py.float (Py.replace s " C" "") = Ok x ->
  window_after (process_message json_loads environ message) st =
    Py.append (rolling_window st) x /\
  In (INFO, TemperatureTimestamp x ts)
    (logged_after (process_message json_loads environ message) st).
Proof.
  intros Hd Hs Hts Hx. unfold window_after, logged_after.
  rewrite (process_message_reading message d s x ts st Hd Hs Hts Hx).
  cbv zeta.
  set (st1 := appended message (Py.JDict d) x ts st).
  destruct (detect_stall_window (rolling_window st1) st1) as [Hw [more Hl]].
  assert (Hin : In (INFO, TemperatureTimestamp x ts) (logged st1 ++ more)).
  { apply in_or_app. left. unfold st1, appended. cbn [logged].
    apply in_or_app. right. simpl. auto. }
  destruct (detect_stall _ _ _) as [[[]|e] st2]; cbn [snd] in *;
    cbn [rolling_window logged]; rewrite ?Hw, ?Hl;
    (split; [reflexivity|]); try exact Hin;
    apply in_or_app; left; exact Hin.
Qed.

End reading.


(** ** The decoder *)

(** The payload with temperature "225.5 F" and timestamp "t2" is not
    decoded: "225.5" is a valid float, but the suffix " F" is not removed,
    [float()] raises, the error is logged and the window stays empty. *)
Lemma decoder_rejects_F_suffix :
  let fields := example.reading "225.5 F" "t2" in
  let message := example.object_text fields in
  Py.float "225.5" = Ok 225.5%float /\
  process_message (example.loads [fields]) ∅ message example.start =
    (Ok tt,
     State (Py.Deque [] 5)
       [(DEBUG, RawMessage message);
        (INFO, ProcessedJSONMessage (example.object_dict fields));
        (ERROR, ErrorProcessingMessage
                  (ValueError (InvalidFloatLiteral "225.5 F")))]).
Proof. split; vm_compute; reflexivity. Qed.

(** C5 (as amended): for a payload whose temperature field is a string
    holding a valid float followed by zero or more copies of the suffix
    " C", the decoder removes every " C" and reads the float: the reading
    is logged with its timestamp and appended to the window.  No other unit
    marker is removed: when the valid float is followed by a space and a
    text, not empty, of printable ASCII characters other than the space and
    the letter C (" F", " K", " degF"), [float()] raises, the error is
    logged and the window is unchanged. *)
Theorem decoder_strips_C_suffix json_loads environ message d s t x ts st :
  json_loads message = Ok (Py.JDict d) ->
  Py.dict_get "temperature" d = Some (Py.JStr t) ->
  Py.dict_get "timestamp" d = Some ts ->
  Py.float s = Ok x ->
  let run := process_message json_loads environ message in
  (forall n, t = (s +:+ copies n " C")%string ->
     window_after run st = Py.append (rolling_window st) x /\
     In (INFO, TemperatureTimestamp x ts) (logged_after run st)) /\
  (forall u, unit_text u = true -> t = (s +:+ " " +:+ u)%string ->
     returned run st = Ok tt /\
     window_after run st = rolling_window st /\
     last (logged_after run st) =
       Some (ERROR,
             ErrorProcessingMessage (ValueError (InvalidFloatLiteral t)))).
Proof.
  intros Hd Ht Hts Hx run. assert (HC := float_no_C s x Hx). split.
  - intros n ->.
    apply (process_message_appends json_loads environ message d _ x ts st
             Hd Ht Hts).
    rewrite replace_C_copies by exact HC. exact Hx.
  - intros u Hu ->. change (" " +:+ u)%string with (String " " u) in *.
    assert (Hno : ~ In "C"%char (list_ascii_of_string (s +:+ String " " u))).
    { rewrite list_ascii_app. intros H.
      apply in_app_or in H as [H|[H|H]];
        [exact (HC H) | discriminate H | exact (unit_text_no_C u Hu H)]. }
    assert (Hrun := process_message_invalid json_loads environ message d
                      _ (InvalidFloatLiteral (s +:+ String " " u)) ts st
                      Hd Ht Hts).
    rewrite replace_C_none in Hrun by exact Hno.
    specialize (Hrun (float_unit_suffix s x u Hx Hu)).
    unfold run, returned, window_after, logged_after. rewrite Hrun.
    cbn [fst snd rolling_window logged].
    split; [reflexivity|]. split; [reflexivity|].
    change [?a; ?b; ?c] with ([a; b] ++ [c]).
    rewrite app_assoc. apply last_snoc.
Qed.

(** The payload with temperature "225.5 C" and timestamp "t2" decodes to
    the reading 225.5 at "t2"; the payload with temperature "225.5 F" is
    rejected. *)
Lemma decoder_strips_C_suffix_witness :
  let accepted := example.reading "225.5 C" "t2" in
  let rejected := example.reading "225.5 F" "t2" in
  (window_after (process_message (example.loads [accepted]) ∅
                   (example.object_text accepted))
     example.start = Py.Deque [225.5%float] 5 /\
   In (INFO, TemperatureTimestamp 225.5%float (Py.JStr "t2"))
     (logged_after (process_message (example.loads [accepted]) ∅
                      (example.object_text accepted))
        example.start)) /\
  (window_after (process_message (example.loads [rejected]) ∅
                   (example.object_text rejected))
     example.start = Py.Deque [] 5 /\
   last (logged_after (process_message (example.loads [rejected]) ∅
                         (example.object_text rejected))
           example.start) =
     Some (ERROR,
           ErrorProcessingMessage (ValueError (InvalidFloatLiteral "225.5 F")))).
Proof.
  split.
  - destruct (decoder_strips_C_suffix
                (example.loads [example.reading "225.5 C" "t2"]) ∅
                (example.object_text (example.reading "225.5 C" "t2"))
                [("temperature", Py.JStr "225.5 C"); ("timestamp", Py.JStr "t2")]
                "225.5" "225.5 C" 225.5%float (Py.JStr "t2") example.start)
      as [Haccepted _]; [vm_compute; reflexivity ..|].
    exact (Haccepted 1%nat eq_refl).
  - destruct (decoder_strips_C_suffix
                (example.loads [example.reading "225.5 F" "t2"]) ∅
                (example.object_text (example.reading "225.5 F" "t2"))
                [("temperature", Py.JStr "225.5 F"); ("timestamp", Py.JStr "t2")]
                "225.5" "225.5 F" 225.5%float (Py.JStr "t2") example.start)
      as [_ Hrejected]; [vm_compute; reflexivity ..|].
    destruct (Hrejected "F" eq_refl eq_refl) as (_ & Hw & Hl).
    split; [exact Hw | exact Hl].
Defined.

(** The payload with only a timestamp is rejected and the window is kept. *)
Lemma failed_message_keeps_window_witness :
  let fields := [("timestamp", "t1")] in
  let message := {| offset := 0; value := example.object_text fields |} in
  let st := State (Py.Deque [225%float] 5) [] in
  window_after (process_message (example.loads [fields]) ∅ (value message)) st
    = Py.Deque [225%float] 5 /\
  returned (process_message (example.loads [fields]) ∅ (value message)) st
    = Ok tt.
Proof.
  destruct (failed_message_keeps_window (example.loads [[("timestamp", "t1")]]) ∅
              {| offset := 0;
                 value := example.object_text [("timestamp", "t1")] |}
              [] (State (Py.Deque [225%float] 5) []))
    as (st' & _ & _ & Hw & Hr & _).
  - apply (MissingField _ _ [("timestamp", Py.JStr "t1")]);
      [vm_compute; reflexivity | left; reflexivity].
  - split; [exact Hw | exact Hr].
Defined.

(** ** The configuration *)

(** The detector does not keep the configuration of startup: two
    invocations on the same window give different decisions when the
    process environment differs between them, for the threshold (true under
    the default 1.0, false under 0.5) and for the window size (true under
    the default 5, false under 6). *)
Lemma detect_stall_rereads_environment :
  let d := Py.Deque [100; 100; 101; 100; 100]%float 5 in
  let st := State d [] in
  returned (detect_stall ∅ d) st = Ok true /\
  returned (detect_stall {["SMOKER_STALL_THRESHOLD_F" := "0.5"]} d) st
    = Ok false /\
  returned (detect_stall {["SMOKER_ROLLING_WINDOW_SIZE" := "6"]} d) st
    = Ok false.
Proof. repeat split; vm_compute; reflexivity. Qed.

(** C7 (as amended): the detector reads the window size and the threshold
    from the process environment at every invocation, and its decision is a
    function of the window contents and of the values the two variables
    have at that time: two invocations with the same contents under
    environments that agree on the two variables return the same decision,
    whatever was logged before, and neither changes the window. *)
Theorem detect_stall_function_of_environment env1 env2 d1 d2 st1 st2 :
  env1 !! "SMOKER_ROLLING_WINDOW_SIZE" = env2 !! "SMOKER_ROLLING_WINDOW_SIZE" ->
  env1 !! "SMOKER_STALL_THRESHOLD_F" = env2 !! "SMOKER_STALL_THRESHOLD_F" ->
  Py.items d1 = Py.items d2 ->
  returned (detect_stall env1 d1) st1 = returned (detect_stall env2 d2) st2 /\
  window_after (detect_stall env1 d1) st1 = rolling_window st1 /\
  window_after (detect_stall env2 d2) st2 = rolling_window st2.
Proof.
  intros HN HT Hitems. split.
  - unfold detect_stall, get_rolling_window_size, get_stall_threshold, Py.len.
    steps. rewrite HN, HT, Hitems.
    destruct (match env2 !! "SMOKER_ROLLING_WINDOW_SIZE" with
              | Some s => Py.int s | None => Ok 5 end) as [N|e]; steps;
      [|reflexivity].
    destruct (_ <? N); steps; [reflexivity|].
    destruct (Py.max (Py.items d2)) as [hi|e]; steps; [|reflexivity].
    destruct (Py.min (Py.items d2)) as [lo|e]; steps; [|reflexivity].
    destruct (match env2 !! "SMOKER_STALL_THRESHOLD_F" with
              | Some s => Py.float s | None => Ok 1%float end) as [T|e]; steps;
      reflexivity.
  - split; apply detect_stall_window.
Qed.

Lemma detect_stall_function_of_environment_witness :
  returned (detect_stall ∅ (Py.Deque [100; 100; 101; 100; 100]%float 5))
    example.start =
  returned (detect_stall {["SMOKER_TOPIC" := "smoker"]}
              (Py.Deque [100; 100; 101; 100; 100]%float 7))
    (State (Py.Deque [] 7) [(INFO, StartConsumer)]).
Proof.
  apply (detect_stall_function_of_environment ∅ {["SMOKER_TOPIC" := "smoker"]});
    vm_compute; reflexivity.
Defined.

(** ** The pipeline *)

Section pipeline.

Variable json_loads : string -> result Py.json.
Variable environ : environment.



(** One iteration on a reading while the window is filling. *)
Lemma poll_waiting message d s x ts N st :
  json_loads (value message) = Ok (Py.JDict d) ->
  Py.dict_get "temperature" d = Some (Py.JStr s) ->
  Py.dict_get "timestamp" d = Some ts ->
  Py.float (Py.replace s " C" "") = Ok x ->
  returned (get_rolling_window_size environ) st = Ok N ->
  Py.len (Py.append (rolling_window st) x) < N ->
  poll json_loads environ message st =
    (Ok tt,
     State (Py.append (rolling_window st) x)
       (logged st ++ received message (Py.JDict d) x ts
                  ++ [(INFO, RollingWindowSize N);
                      (DEBUG, WaitingFor (Py.len (Py.append (rolling_window st) x)) N)])).
Proof.
  intros Hd Hs Hts Hx HN Hlt. unfold poll. steps.
  rewrite (process_message_reading json_loads environ _ d s x ts _ Hd Hs Hts Hx).
  cbv zeta. unfold appended. cbn [rolling_window logged].
  rewrite (detect_stall_waiting environ N);
    [| rewrite <- HN; apply get_rolling_window_size_state | exact Hlt].
  cbn [rolling_window logged]. unfold received.
  rewrite <- !app_assoc. reflexivity.
Qed.

(** One iteration on a reading that fills the window or finds it full. *)
Lemma poll_deciding message d s x ts N T hi lo st :
  json_loads (value message) = Ok (Py.JDict d) ->
  Py.dict_get "temperature" d = Some (Py.JStr s) ->
  Py.dict_get "timestamp" d = Some ts ->
  Py.float (Py.replace s " C" "") = Ok x ->
  returned (get_rolling_window_size environ) st = Ok N ->
  returned (get_stall_threshold environ) st = Ok T ->
  let window := Py.append (rolling_window st) x in
  N <= Py.len window ->
  Py.max (Py.items window) = Ok hi ->
  Py.min (Py.items window) = Ok lo ->
  let temp_range := (hi - lo)%float in
  let is_stalled := (temp_range <=? T)%float in
  poll json_loads environ message st =
    (Ok tt,
     State window
       (logged st ++ received message (Py.JDict d) x ts
                  ++ [(INFO, RollingWindowSize N);
                      (INFO, MaxStallTemperatureRange T);
                      (DEBUG, RollingWindow (Py.items window));
                      (DEBUG, TemperatureRange temp_range is_stalled)]
                  ++ (if is_stalled then [(INFO, StallDetected ts x)] else []))).
Proof.
  intros Hd Hs Hts Hx HN HT window Hge Hhi Hlo temp_range is_stalled.
  unfold poll. steps.
  rewrite (process_message_reading json_loads environ _ d s x ts _ Hd Hs Hts Hx).
  cbv zeta. unfold appended. cbn [rolling_window logged].
  rewrite (detect_stall_deciding environ N T _ hi lo);
    [| rewrite <- HN; apply get_rolling_window_size_state
     | rewrite <- HT; apply get_stall_threshold_state
     | exact Hge | exact Hhi | exact Hlo ].
  cbn [rolling_window logged]. unfold received.
  fold temp_range. fold is_stalled.
  destruct is_stalled; rewrite <- ?app_assoc; cbn [app];
    rewrite ?app_nil_r; reflexivity.
Qed.

End pipeline.

(** ** Five readings within one degree *)


Lemma decisions_app l1 l2 : decisions (l1 ++ l2) = decisions l1 ++ decisions l2.
Proof.
  induction l1 as [|[lvl []] l1 IH]; simpl; rewrite ?IH; reflexivity.
Qed.


Section five_readings.

Variable json_loads : string -> result Py.json.
Variable environ : environment.
Variables m1 m2 m3 m4 m5 : ConsumerRecord.
Variables ts1 ts2 ts3 ts4 ts5 : Py.json.

Hypothesis window_size : forall st,
  returned (get_rolling_window_size environ) st = Ok 5.
Hypothesis threshold : forall st,
  returned (get_stall_threshold environ) st = Ok 1%float.
Hypothesis H1 : carries json_loads m1 "225" ts1.
Hypothesis H2 : carries json_loads m2 "225.2" ts2.
Hypothesis H3 : carries json_loads m3 "225.1" ts3.
Hypothesis H4 : carries json_loads m4 "225.0" ts4.
Hypothesis H5 : carries json_loads m5 "225.3" ts5.

(** The loop over the five messages, started on an empty window of
    capacity 5: four iterations wait, the fifth decides. *)
Lemma five_readings_loop st :
  rolling_window st = Py.Deque [] 5 ->
  exists more,
    for_each [m1; m2; m3; m4; m5] (poll json_loads environ) st =
      (Ok tt,
       State (Py.Deque [five.x1; five.x2; five.x3; five.x4; five.x5] 5)
         (logged st ++ more)) /\
    decisions more = [(five.temp_range, true)] /\
    last more = Some (INFO, StallDetected ts5 five.x5).
Proof.
  intros Hw.
  destruct H1 as (d1 & Hd1 & Ht1 & Hs1), H2 as (d2 & Hd2 & Ht2 & Hs2),
    H3 as (d3 & Hd3 & Ht3 & Hs3), H4 as (d4 & Hd4 & Ht4 & Hs4),
    H5 as (d5 & Hd5 & Ht5 & Hs5).
  cbn [for_each]. unfold mbind, M_bind, bind, mret, M_ret, ret.
  rewrite (poll_waiting json_loads environ m1 d1 _ five.x1 ts1 5 st Hd1 Ht1 Hs1);
    [| vm_compute; reflexivity | apply window_size
     | rewrite Hw; vm_compute; reflexivity ].
  rewrite Hw. change (Py.append _ five.x1) with (Py.Deque [five.x1] 5).
  rewrite (poll_waiting json_loads environ m2 d2 _ five.x2 ts2 5 _ Hd2 Ht2 Hs2);
    [| vm_compute; reflexivity | apply window_size | vm_compute; reflexivity ].
  cbn [rolling_window logged].
  change (Py.append _ five.x2) with (Py.Deque [five.x1; five.x2] 5).
  rewrite (poll_waiting json_loads environ m3 d3 _ five.x3 ts3 5 _ Hd3 Ht3 Hs3);
    [| vm_compute; reflexivity | apply window_size | vm_compute; reflexivity ].
  cbn [rolling_window logged].
  change (Py.append _ five.x3) with (Py.Deque [five.x1; five.x2; five.x3] 5).
  rewrite (poll_waiting json_loads environ m4 d4 _ five.x4 ts4 5 _ Hd4 Ht4 Hs4);
    [| vm_compute; reflexivity | apply window_size | vm_compute; reflexivity ].
  cbn [rolling_window logged].
  change (Py.append _ five.x4)
    with (Py.Deque [five.x1; five.x2; five.x3; five.x4] 5).
  rewrite (poll_deciding json_loads environ m5 d5 _ five.x5 ts5 5 1%float
             five.x5 five.x1 _ Hd5 Ht5 Hs5);
    [| vm_compute; reflexivity | apply window_size | apply threshold
     | vm_compute; discriminate | vm_compute; reflexivity
     | vm_compute; reflexivity ].
  cbn [rolling_window logged].
  change (Py.append _ five.x5)
    with (Py.Deque [five.x1; five.x2; five.x3; five.x4; five.x5] 5).
  change (five.x5 - five.x1)%float with five.temp_range.
  change (five.temp_range <=? 1)%float with true. cbv iota.
  rewrite <- !app_assoc.
  eexists. split; [reflexivity|]. split.
  - rewrite !decisions_app. reflexivity.
  - unfold received. cbn [app]. reflexivity.
Qed.

End five_readings.

(** [main] once the window size is read: the startup records, the loop on
    an empty window of that capacity, then the closing records. *)
Lemma main_run json_loads environ consumer N st :
  returned (get_rolling_window_size environ) st = Ok N ->
  0 <= N < 2 ^ 63 ->
  let topic := default "unknown_topic" (environ !! "SMOKER_TOPIC") in
  let group_id := default "default_group" (environ !! "SMOKER_CONSUMER_GROUP_ID") in
  let st0 :=
    State (Py.Deque [] N)
      (logged st ++ [(INFO, StartConsumer); (INFO, KafkaTopic topic);
                     (INFO, KafkaConsumerGroupId group_id);
                     (INFO, RollingWindowSize N);
                     (INFO, ConsumerTopicGroup topic group_id);
                     (INFO, RollingWindowSize N);
                     (INFO, PollingMessages topic)]) in
  forall st1,
    for_each consumer (poll json_loads environ) st0 = (Ok tt, st1) ->
    main json_loads environ consumer st =
      (Ok tt,
       State (rolling_window st1)
         (logged st1 ++ [(INFO, ConsumerClosed topic);
                         (INFO, EndConsumer topic group_id)])).
Proof.
  intros HN H0 topic group_id st0 st1 Hloop.
  unfold main, get_kafka_topic, get_kafka_consumer_group_id. steps.
  fold topic. fold group_id.
  erewrite get_rolling_window_size_run
    by (rewrite <- HN; apply get_rolling_window_size_state).
  cbn [rolling_window logged].
  unfold Py.deque_new.
  destruct (Z.ltb_spec N (- 2 ^ 63)) as [|_]; [lia|].
  destruct (Z.leb_spec (2 ^ 63) N) as [|_]; [lia|]. cbn [orb].
  destruct (Z.ltb_spec N 0) as [|_]; [lia|].
  rewrite <- !app_assoc. cbn [app].
  match goal with
  | |- context [for_each ?c ?f ?s] =>
      change (for_each c f s) with (for_each consumer (poll json_loads environ) st0)
  end.
  rewrite Hloop. cbn [rolling_window logged].
  rewrite <- ?app_assoc. reflexivity.
Qed.

(** On the five readings 225, 225.2, 225.1, 225.0, 225.3 the only decision
    [main] records has the range 0.30000000000001137, which is not the
    float 0.3. *)
Lemma five_readings_range_is_not_0_3 :
  let objects :=
    [example.reading "225" "t1"; example.reading "225.2" "t2";
     example.reading "225.1" "t3"; example.reading "225.0" "t4";
     example.reading "225.3" "t5"] in
  let consumer :=
    imap (fun i fields =>
            {| offset := Z.of_nat i; value := example.object_text fields |})
      objects in
  decisions (logged_after (main (example.loads objects) ∅ consumer)
               example.start)
    = [(five.temp_range, true)] /\
  Py.float "0.3" = Ok 0x1.3333333333333p-2%float /\
  (five.temp_range =? 0x1.3333333333333p-2)%float = false.
Proof. repeat split; vm_compute; reflexivity. Qed.

(** C8 (as amended): five messages carrying the temperatures 225, 225.2,
    225.1, 225.0 and 225.3, in this order, with window size 5 and threshold
    1.0, leave the five readings in the window and yield one decision, the
    final one: stalled = true, with the range computed in binary64 as
    225.3 - 225.0 = 0.30000000000001137, which exceeds the float 0.3 by
    about 1.14e-14. *)
Theorem five_readings_stalled json_loads environ
    m1 m2 m3 m4 m5 ts1 ts2 ts3 ts4 ts5 st :
  returned (get_rolling_window_size environ) st = Ok 5 ->
  returned (get_stall_threshold environ) st = Ok 1%float ->
  carries json_loads m1 "225" ts1 ->
  carries json_loads m2 "225.2" ts2 ->
  carries json_loads m3 "225.1" ts3 ->
  carries json_loads m4 "225.0" ts4 ->
  carries json_loads m5 "225.3" ts5 ->
  let run := main json_loads environ [m1; m2; m3; m4; m5] in
  returned run st = Ok tt /\
  window_after run st =
    Py.Deque [five.x1; five.x2; five.x3; five.x4; five.x5] 5 /\
  decisions (logged_after run st) =
    decisions (logged st) ++ [(five.temp_range, true)] /\
  In (INFO, StallDetected ts5 five.x5) (logged_after run st) /\
  (five.x5 - five.x1)%float = five.temp_range /\
  (five.temp_range - 0x1.3333333333333p-2)%float = 0x1.9ap-47%float.
Proof.
  intros HN HT H1 H2 H3 H4 H5 run.
  assert (HN' : forall st', returned (get_rolling_window_size environ) st' = Ok 5)
    by (intros st'; rewrite <- HN; apply get_rolling_window_size_state).
  assert (HT' : forall st', returned (get_stall_threshold environ) st' = Ok 1%float)
    by (intros st'; rewrite <- HT; apply get_stall_threshold_state).
  set (topic := default "unknown_topic" (environ !! "SMOKER_TOPIC")).
  set (group_id := default "default_group" (environ !! "SMOKER_CONSUMER_GROUP_ID")).
  set (st0 :=
    State (Py.Deque [] 5)
      (logged st ++ [(INFO, StartConsumer); (INFO, KafkaTopic topic);
                     (INFO, KafkaConsumerGroupId group_id);
                     (INFO, RollingWindowSize 5);
                     (INFO, ConsumerTopicGroup topic group_id);
                     (INFO, RollingWindowSize 5);
                     (INFO, PollingMessages topic)])).
  destruct (five_readings_loop json_loads environ m1 m2 m3 m4 m5
              ts1 ts2 ts3 ts4 ts5 HN' HT' H1 H2 H3 H4 H5 st0 eq_refl)
    as (more & Hloop & Hdec & Hlast).
  assert (Hrun := main_run json_loads environ [m1; m2; m3; m4; m5] 5 st HN
                    ltac:(lia) _ Hloop).
  fold topic group_id in Hrun. cbn [rolling_window logged] in Hrun.
  unfold run, returned, window_after, logged_after. rewrite Hrun.
  cbn [fst snd rolling_window logged].
  split; [reflexivity|]. split; [reflexivity|]. split; [|split].
  - unfold st0. cbn [logged]. rewrite !decisions_app, Hdec. simpl.
    rewrite !app_nil_r. reflexivity.
  - apply in_or_app. left. apply in_or_app. right.
    destruct more as [|r more] using rev_ind; [discriminate|].
    rewrite last_snoc in Hlast. injection Hlast as ->.
    apply in_or_app. right. left. reflexivity.
  - split; vm_compute; reflexivity.
Qed.

Lemma five_readings_stalled_witness :
  let objects :=
    [example.reading "225" "t1"; example.reading "225.2" "t2";
     example.reading "225.1" "t3"; example.reading "225.0" "t4";
     example.reading "225.3" "t5"] in
  let consumer :=
    imap (fun i fields =>
            {| offset := Z.of_nat i; value := example.object_text fields |})
      objects in
  window_after (main (example.loads objects) ∅ consumer) example.start =
    Py.Deque [five.x1; five.x2; five.x3; five.x4; five.x5] 5 /\
  decisions (logged_after (main (example.loads objects) ∅ consumer)
               example.start) = [(five.temp_range, true)].
Proof.
  destruct (five_readings_stalled
              (example.loads
                 [example.reading "225" "t1"; example.reading "225.2" "t2";
                  example.reading "225.1" "t3"; example.reading "225.0" "t4";
                  example.reading "225.3" "t5"]) ∅
              {| offset := 0; value := example.object_text (example.reading "225" "t1") |}
              {| offset := 1; value := example.object_text (example.reading "225.2" "t2") |}
              {| offset := 2; value := example.object_text (example.reading "225.1" "t3") |}
              {| offset := 3; value := example.object_text (example.reading "225.0" "t4") |}
              {| offset := 4; value := example.object_text (example.reading "225.3" "t5") |}
              (Py.JStr "t1") (Py.JStr "t2") (Py.JStr "t3") (Py.JStr "t4")
              (Py.JStr "t5") example.start)
    as (_ & Hw & Hd & _);
    [ first [ vm_compute; reflexivity
            | eexists; repeat split; vm_compute; reflexivity ] ..
    | split; [exact Hw | exact Hd] ].
Defined.

(** ** The order of binary64 numbers *)

(** The comparisons of the float specification on numbers that are not NaN:
    [SFleb] is a total preorder, and two numbers that compare equal are the
    same number or two zeros. *)
Section spec_order.


Ltac cmp_cases :=
  repeat match goal with
  | H : context [Z.compare ?x ?y] |- _ => destruct (Z.compare_spec x y)
  | |- context [Z.compare ?x ?y] => destruct (Z.compare_spec x y)
  end;
  change (Pos.compare_cont Eq) with Pos.compare in *;
  repeat match goal with
  | H : context [Pos.compare ?x ?y] |- _ => destruct (Pos.compare_spec x y)
  | |- context [Pos.compare ?x ?y] => destruct (Pos.compare_spec x y)
  end;
  simpl in *; subst; try discriminate; try reflexivity; try lia.

Lemma SFleb_trans a b c :
  SFleb a b = true -> SFleb b c = true -> SFleb a c = true.
Proof.
  unfold SFleb, SFcompare.
  destruct a as [[]|[]| |[] ma ea], b as [[]|[]| |[] mb eb],
    c as [[]|[]| |[] mc ec]; simpl; try discriminate; try reflexivity;
    intros H1 H2; cmp_cases.
Qed.

Lemma SFleb_total a b :
  not_nan a -> not_nan b -> SFleb a b = true \/ SFleb b a = true.
Proof.
  unfold not_nan, SFleb, SFcompare.
  destruct a as [[]|[]| |[] ma ea], b as [[]|[]| |[] mb eb];
    simpl; intros Ha Hb; try congruence; auto; cmp_cases; auto.
Qed.

Lemma SFltb_SFleb a b : SFltb a b = true -> SFleb a b = true.
Proof. unfold SFltb, SFleb. destruct (SFcompare a b) as [[]|]; congruence. Qed.

Lemma SFltb_false a b :
  not_nan a -> not_nan b -> SFltb a b = false -> SFleb b a = true.
Proof.
  unfold not_nan, SFltb, SFleb, SFcompare.
  destruct a as [[]|[]| |[] ma ea], b as [[]|[]| |[] mb eb];
    simpl; intros Ha Hb; try congruence; auto; intros H; cmp_cases.
Qed.

Lemma SFleb_antisym a b :
  SFleb a b = true -> SFleb b a = true -> a = b \/ (zero_spec a /\ zero_spec b).
Proof.
  unfold zero_spec, SFleb, SFcompare.
  destruct a as [[]|[]| |[] ma ea], b as [[]|[]| |[] mb eb];
    simpl; try discriminate; auto; try (right; split; eexists; reflexivity);
    intros H1 H2; cmp_cases; auto.
Qed.

(** Between two zeros there are only zeros. *)
Lemma SFleb_between_zeros a b c :
  zero_spec a -> zero_spec c ->
  SFleb a b = true -> SFleb b c = true -> zero_spec b.
Proof.
  intros [sa ->] [sc ->]. unfold zero_spec, SFleb, SFcompare.
  destruct b as [sb|[]| |[] mb eb]; simpl; try discriminate; eauto.
Qed.

Lemma SFltb_zeros a b : zero_spec a -> zero_spec b -> SFltb a b = false.
Proof. intros [sa ->] [sb ->]. reflexivity. Qed.

(** Subtraction does not see the sign of a zero operand when the other
    operand is not a zero, and a zero minus itself is +0. *)
Lemma SFsub_zero_l a a' b :
  zero_spec a -> zero_spec a' -> ~ zero_spec b ->
  SF64sub a b = SF64sub a' b.
Proof.
  intros [s ->] [s' ->] Hb.
  destruct b as [sb|sb| |sb mb eb]; try reflexivity.
  destruct Hb. eexists. reflexivity.
Qed.

Lemma SFsub_zero_r a b b' :
  zero_spec b -> zero_spec b' -> ~ zero_spec a ->
  SF64sub a b = SF64sub a b'.
Proof.
  intros [s ->] [s' ->] Ha.
  destruct a as [sa|sa| |sa ma ea]; try reflexivity.
  destruct Ha. eexists. reflexivity.
Qed.

Lemma SFsub_zero_self a : zero_spec a -> SF64sub a a = S754_zero false.
Proof. intros [[] ->]; reflexivity. Qed.

Lemma zero_spec_dec a : zero_spec a \/ ~ zero_spec a.
Proof.
  destruct a as [s|s| |s m e]; [left; eexists; reflexivity|..];
    right; intros [s' H]; discriminate.
Qed.

End spec_order.

(** The same on the floats of the program. *)
Section float_order.


Lemma is_nan_spec x : is_nan x = false -> not_nan (Prim2SF x).
Proof.
  unfold is_nan, not_nan. rewrite FloatAxioms.eqb_spec. intros H E.
  rewrite E in H. discriminate.
Qed.

Lemma leb_trans x y z :
  (x <=? y)%float = true -> (y <=? z)%float = true -> (x <=? z)%float = true.
Proof. rewrite !FloatAxioms.leb_spec. apply SFleb_trans. Qed.

Lemma leb_total x y :
  is_nan x = false -> is_nan y = false ->
  (x <=? y)%float = true \/ (y <=? x)%float = true.
Proof.
  intros Hx Hy. rewrite !FloatAxioms.leb_spec.
  apply SFleb_total; apply is_nan_spec; assumption.
Qed.

Lemma leb_refl x : is_nan x = false -> (x <=? x)%float = true.
Proof. intros Hx. destruct (leb_total x x Hx Hx); assumption. Qed.

Lemma ltb_leb x y : (x <? y)%float = true -> (x <=? y)%float = true.
Proof. rewrite FloatAxioms.ltb_spec, FloatAxioms.leb_spec. apply SFltb_SFleb. Qed.

Lemma ltb_false_leb x y :
  is_nan x = false -> is_nan y = false ->
  (x <? y)%float = false -> (y <=? x)%float = true.
Proof.
  intros Hx Hy. rewrite FloatAxioms.ltb_spec, FloatAxioms.leb_spec.
  apply SFltb_false; apply is_nan_spec; assumption.
Qed.

Lemma leb_antisym x y :
  (x <=? y)%float = true -> (y <=? x)%float = true ->
  x = y \/ (fzero x /\ fzero y).
Proof.
  rewrite !FloatAxioms.leb_spec. intros H1 H2.
  destruct (SFleb_antisym _ _ H1 H2) as [E|Hz]; [left|right; exact Hz].
  apply Prim2SF_inj, E.
Qed.

Lemma leb_between_zeros x y z :
  fzero x -> fzero z ->
  (x <=? y)%float = true -> (y <=? z)%float = true -> fzero y.
Proof. rewrite !FloatAxioms.leb_spec. apply SFleb_between_zeros. Qed.

Lemma ltb_zeros x y : fzero x -> fzero y -> (x <? y)%float = false.
Proof. rewrite FloatAxioms.ltb_spec. apply SFltb_zeros. Qed.

Lemma sub_zero_l x x' y :
  fzero x -> fzero x' -> ~ fzero y -> (x - y = x' - y)%float.
Proof.
  intros Hx Hx' Hy. apply Prim2SF_inj. rewrite !sub_spec.
  apply SFsub_zero_l; assumption.
Qed.

Lemma sub_zero_r x y y' :
  fzero y -> fzero y' -> ~ fzero x -> (x - y = x - y')%float.
Proof.
  intros Hy Hy' Hx. apply Prim2SF_inj. rewrite !sub_spec.
  apply SFsub_zero_r; assumption.
Qed.

Lemma sub_zero_self x : fzero x -> (x - x)%float = 0%float.
Proof.
  intros Hx. apply Prim2SF_inj. rewrite sub_spec.
  rewrite SFsub_zero_self by exact Hx. reflexivity.
Qed.

End float_order.

(** ** [max] and [min] on windows without NaN *)


Section extrema.


(** The fold of [max]: the result is one of the items, at least the
    starting one and at least every item met. *)
Lemma fold_max l : forall best,
  is_nan best = false -> no_nan l ->
  let m := fold_left Py.max_step l best in
  In m (best :: l) /\ (best <=? m)%float = true /\
  forall y, In y l -> (y <=? m)%float = true.
Proof.
  induction l as [|item l IH]; intros best Hb Hl; cbn [fold_left].
  - split; [left; reflexivity|]. split; [apply leb_refl, Hb | intros y []].
  - apply Forall_cons in Hl as [Hi Hl].
    assert (Hs : is_nan (Py.max_step best item) = false)
      by (unfold Py.max_step; destruct (best <? item)%float; assumption).
    assert (Hbs : (best <=? Py.max_step best item)%float = true).
    { unfold Py.max_step. destruct (best <? item)%float eqn:E;
        [apply ltb_leb, E | apply leb_refl, Hb]. }
    assert (His : (item <=? Py.max_step best item)%float = true).
    { unfold Py.max_step. destruct (best <? item)%float eqn:E;
        [apply leb_refl, Hi | apply ltb_false_leb; assumption]. }
    destruct (IH (Py.max_step best item) Hs Hl) as (Hin & Hle & Hall).
    split; [|split].
    + destruct Hin as [Hin|Hin]; [|right; right; exact Hin].
      rewrite <- Hin. unfold Py.max_step.
      destruct (best <? item)%float; [right; left|left]; reflexivity.
    + eapply leb_trans; eassumption.
    + intros y [<-|Hy]; [eapply leb_trans; eassumption | apply Hall, Hy].
Qed.

Lemma fold_min l : forall best,
  is_nan best = false -> no_nan l ->
  let m := fold_left Py.min_step l best in
  In m (best :: l) /\ (m <=? best)%float = true /\
  forall y, In y l -> (m <=? y)%float = true.
Proof.
  induction l as [|item l IH]; intros best Hb Hl; cbn [fold_left].
  - split; [left; reflexivity|]. split; [apply leb_refl, Hb | intros y []].
  - apply Forall_cons in Hl as [Hi Hl].
    assert (Hs : is_nan (Py.min_step best item) = false)
      by (unfold Py.min_step; destruct (item <? best)%float; assumption).
    assert (Hbs : (Py.min_step best item <=? best)%float = true).
    { unfold Py.min_step. destruct (item <? best)%float eqn:E;
        [apply ltb_leb, E | apply leb_refl, Hb]. }
    assert (His : (Py.min_step best item <=? item)%float = true).
    { unfold Py.min_step. destruct (item <? best)%float eqn:E;
        [apply leb_refl, Hi | apply ltb_false_leb; assumption]. }
    destruct (IH (Py.min_step best item) Hs Hl) as (Hin & Hle & Hall).
    split; [|split].
    + destruct Hin as [Hin|Hin]; [|right; right; exact Hin].
      rewrite <- Hin. unfold Py.min_step.
      destruct (item <? best)%float; [right; left|left]; reflexivity.
    + eapply leb_trans; eassumption.
    + intros y [<-|Hy]; [eapply leb_trans; eassumption | apply Hall, Hy].
Qed.

(** [max] and [min] return an item of the window, whatever it holds. *)
Lemma max_In l hi : Py.max l = Ok hi -> In hi l.
Proof.
  destruct l as [|x l]; [discriminate|]. intros [= <-].
  revert x. induction l as [|item l IH]; intros x; cbn [fold_left];
    [left; reflexivity|].
  destruct (IH (Py.max_step x item)) as [E|Hin]; [|right; right; exact Hin].
  rewrite <- E. unfold Py.max_step.
  destruct (x <? item)%float; [right; left | left]; reflexivity.
Qed.

Lemma min_In l lo : Py.min l = Ok lo -> In lo l.
Proof.
  destruct l as [|x l]; [discriminate|]. intros [= <-].
  revert x. induction l as [|item l IH]; intros x; cbn [fold_left];
    [left; reflexivity|].
  destruct (IH (Py.min_step x item)) as [E|Hin]; [|right; right; exact Hin].
  rewrite <- E. unfold Py.min_step.
  destruct (item <? x)%float; [right; left | left]; reflexivity.
Qed.

(** [max] returns an item that no item exceeds, [min] an item that exceeds
    no item. *)
Lemma max_greatest l hi :
  no_nan l -> Py.max l = Ok hi ->
  In hi l /\ forall y, In y l -> (y <=? hi)%float = true.
Proof.
  destruct l as [|x l]; [discriminate|]. intros Hl [= <-].
  apply Forall_cons in Hl as [Hx Hl].
  destruct (fold_max l x Hx Hl) as (Hin & Hle & Hall).
  split; [exact Hin|]. intros y [<-|Hy]; [exact Hle | apply Hall, Hy].
Qed.

Lemma min_least l lo :
  no_nan l -> Py.min l = Ok lo ->
  In lo l /\ forall y, In y l -> (lo <=? y)%float = true.
Proof.
  destruct l as [|x l]; [discriminate|]. intros Hl [= <-].
  apply Forall_cons in Hl as [Hx Hl].
  destruct (fold_min l x Hx Hl) as (Hin & Hle & Hall).
  split; [exact Hin|]. intros y [<-|Hy]; [exact Hle | apply Hall, Hy].
Qed.

(** On a window of zeros both return the first item. *)
Lemma max_zeros x l :
  fzero x -> Forall fzero l -> Py.max (x :: l) = Ok x.
Proof.
  intros Hx Hl. cbn [Py.max]. f_equal.
  induction Hl as [|y l Hy Hl IH]; [reflexivity|].
  cbn [fold_left]. unfold Py.max_step at 2.
  rewrite (ltb_zeros x y Hx Hy). exact IH.
Qed.

Lemma min_zeros x l :
  fzero x -> Forall fzero l -> Py.min (x :: l) = Ok x.
Proof.
  intros Hx Hl. cbn [Py.min]. f_equal.
  induction Hl as [|y l Hy Hl IH]; [reflexivity|].
  cbn [fold_left]. unfold Py.min_step at 2.
  rewrite (ltb_zeros y x Hy Hx). exact IH.
Qed.

(** When the greatest and the least item are zeros, the range is +0. *)
Lemma range_zeros l hi lo :
  no_nan l -> Py.max l = Ok hi -> Py.min l = Ok lo ->
  fzero hi -> fzero lo -> (hi - lo)%float = 0%float.
Proof.
  intros Hl Hhi Hlo Zhi Zlo.
  destruct (max_greatest l hi Hl Hhi) as [_ Hmax].
  destruct (min_least l lo Hl Hlo) as [_ Hmin].
  assert (Hz : Forall fzero l).
  { apply List.Forall_forall. intros y Hy.
    apply (leb_between_zeros lo y hi); auto. }
  destruct l as [|x l]; [discriminate|].
  apply Forall_cons in Hz as [Zx Zl].
  rewrite (max_zeros x l Zx Zl) in Hhi. rewrite (min_zeros x l Zx Zl) in Hlo.
  injection Hhi as <-. injection Hlo as <-. apply sub_zero_self, Zx.
Qed.

(** The range of a window without NaN does not depend on the order of its
    items. *)
Lemma range_permutation l1 l2 hi1 lo1 hi2 lo2 :
  Permutation l1 l2 -> no_nan l1 ->
  Py.max l1 = Ok hi1 -> Py.min l1 = Ok lo1 ->
  Py.max l2 = Ok hi2 -> Py.min l2 = Ok lo2 ->
  (hi1 - lo1 = hi2 - lo2)%float.
Proof.
  intros Hp Hl1 Hhi1 Hlo1 Hhi2 Hlo2.
  assert (Hl2 : no_nan l2) by (rewrite <- Hp; exact Hl1).
  destruct (max_greatest l1 hi1 Hl1 Hhi1) as [Hin1 Hmax1].
  destruct (max_greatest l2 hi2 Hl2 Hhi2) as [Hin2 Hmax2].
  destruct (min_least l1 lo1 Hl1 Hlo1) as [Hjn1 Hmin1].
  destruct (min_least l2 lo2 Hl2 Hlo2) as [Hjn2 Hmin2].
  assert (Hhi : hi1 = hi2 \/ (fzero hi1 /\ fzero hi2)).
  { apply leb_antisym.
    - apply Hmax2. apply (Permutation_in _ Hp), Hin1.
    - apply Hmax1. apply (Permutation_in _ (Permutation_sym Hp)), Hin2. }
  assert (Hlo : lo1 = lo2 \/ (fzero lo1 /\ fzero lo2)).
  { apply leb_antisym.
    - apply Hmin1. apply (Permutation_in _ (Permutation_sym Hp)), Hjn2.
    - apply Hmin2. apply (Permutation_in _ Hp), Hjn1. }
  destruct (zero_spec_dec (Prim2SF hi1)) as [Zhi1|Nhi1];
    destruct (zero_spec_dec (Prim2SF lo1)) as [Zlo1|Nlo1].
  - assert (Zhi2 : fzero hi2) by (destruct Hhi as [<-|[_ ?]]; assumption).
    assert (Zlo2 : fzero lo2) by (destruct Hlo as [<-|[_ ?]]; assumption).
    rewrite (range_zeros l1 hi1 lo1), (range_zeros l2 hi2 lo2); auto.
  - destruct Hlo as [<-|[Z _]]; [|destruct (Nlo1 Z)].
    assert (Zhi2 : fzero hi2) by (destruct Hhi as [<-|[_ ?]]; assumption).
    apply sub_zero_l; assumption.
  - destruct Hhi as [<-|[Z _]]; [|destruct (Nhi1 Z)].
    assert (Zlo2 : fzero lo2) by (destruct Hlo as [<-|[_ ?]]; assumption).
    apply sub_zero_r; assumption.
  - destruct Hhi as [<-|[Z _]]; [|destruct (Nhi1 Z)].
    destruct Hlo as [<-|[Z _]]; [|destruct (Nlo1 Z)].
    reflexivity.
Qed.

End extrema.

(** ** The decision on a full window *)

(** C1: on a window that holds exactly the configured number N of readings
    (N positive), the detector computes range = max(window) - min(window),
    logs it, and returns stalled = (range <= T); a range equal to T counts
    as stalled.  The two extremes are readings of the window, and on a
    window without NaN the maximum is at least, and the minimum at most,
    every reading.  For the window [100.0, 100.0, 101.0, 100.0, 100.0] with
    N = 5 and T = 1.0 the range is 1.0 and the decision is true. *)
Theorem detect_stall_full_window environ N T d st :
  returned (get_rolling_window_size environ) st = Ok N ->
  returned (get_stall_threshold environ) st = Ok T ->
  0 < N ->
  Py.len d = N ->
  exists hi lo,
    Py.max (Py.items d) = Ok hi /\ Py.min (Py.items d) = Ok lo /\
    In hi (Py.items d) /\ In lo (Py.items d) /\
    (no_nan (Py.items d) ->
     forall y, In y (Py.items d) ->
       (lo <=? y)%float = true /\ (y <=? hi)%float = true) /\
    let temp_range := (hi - lo)%float in
    returned (detect_stall environ d) st = Ok (temp_range <=? T)%float /\
    last (logged_after (detect_stall environ d) st) =
      Some (DEBUG, TemperatureRange temp_range (temp_range <=? T)%float) /\
    ((temp_range =? T)%float = true ->
     returned (detect_stall environ d) st = Ok true) /\
    (Py.items d = [100; 100; 101; 100; 100]%float -> T = 1%float ->
     temp_range = 1%float /\ returned (detect_stall environ d) st = Ok true).
Proof.
  intros HN HT Hpos Hlen.
  destruct (max_min_nonempty (Py.items d)) as (hi & lo & Hhi & Hlo).
  { unfold Py.len in Hlen. destruct (Py.items d); simpl in *; [lia|congruence]. }
  exists hi, lo. split; [exact Hhi|]. split; [exact Hlo|].
  split; [apply max_In, Hhi|]. split; [apply min_In, Hlo|]. split.
  { intros Hnn y Hy.
    split; [apply (min_least _ _ Hnn Hlo), Hy | apply (max_greatest _ _ Hnn Hhi), Hy]. }
  assert (Hrun := detect_stall_deciding environ N T d hi lo st HN HT
                    ltac:(lia) Hhi Hlo).
  unfold returned, logged_after. rewrite Hrun. simpl.
  split; [reflexivity|]. split.
  { change [?a; ?b; ?c; ?x] with ([a; b; c] ++ [x]).
    rewrite app_assoc. apply last_snoc. }
  split.
  - intros Heq. f_equal. apply eqb_leb, Heq.
  - intros Hw ->. rewrite Hw in Hhi, Hlo.
    vm_compute in Hhi, Hlo.
    injection Hhi as <-. injection Hlo as <-. split; reflexivity.
Qed.

(** The boundary window of C1 under the default configuration, and a
    window whose extremes are neither its first nor its last reading. *)
Lemma detect_stall_full_window_witness :
  (exists hi lo,
     Py.max [100; 100; 101; 100; 100]%float = Ok hi /\
     Py.min [100; 100; 101; 100; 100]%float = Ok lo /\
     (hi - lo)%float = 1%float /\
     returned (detect_stall ∅ (Py.Deque [100; 100; 101; 100; 100]%float 5))
       (State (Py.Deque [] 5) []) = Ok true) /\
  (exists hi lo,
     In hi [100.5; 100; 101; 100.25; 100.75]%float /\
     In lo [100.5; 100; 101; 100.25; 100.75]%float /\
     (forall y, In y [100.5; 100; 101; 100.25; 100.75]%float ->
        (lo <=? y)%float = true /\ (y <=? hi)%float = true) /\
     returned
       (detect_stall ∅ (Py.Deque [100.5; 100; 101; 100.25; 100.75]%float 5))
       (State (Py.Deque [] 5) []) = Ok (hi - lo <=? 1)%float).
Proof.
  split.
  - destruct (detect_stall_full_window ∅ 5 1%float
                (Py.Deque [100; 100; 101; 100; 100]%float 5)
                (State (Py.Deque [] 5) []))
      as (hi & lo & Hhi & Hlo & _ & _ & _ & _ & _ & _ & Hex);
      [reflexivity | reflexivity | lia | reflexivity |].
    exists hi, lo. destruct (Hex eq_refl eq_refl) as [Hr Hd].
    repeat split; assumption.
  - destruct (detect_stall_full_window ∅ 5 1%float
                (Py.Deque [100.5; 100; 101; 100.25; 100.75]%float 5)
                (State (Py.Deque [] 5) []))
      as (hi & lo & _ & _ & Hin & Hjn & Hall & Hr & _);
      [reflexivity | reflexivity | lia | reflexivity |].
    exists hi, lo. split; [exact Hin|]. split; [exact Hjn|].
    split; [|exact Hr]. apply Hall. cbn [Py.items]. repeat constructor.
Defined.

(** ** Windows in another order *)

(** A window holding a NaN: the reading "nan" is accepted by [float()], and
    the windows [nan, 1, 1, 1, 1] and [1, nan, 1, 1, 1], permutations of
    each other, get different ranges and different decisions: NaN and
    false for the first, 0 and true for the second. *)
Lemma detect_stall_nan_order :
  let w1 := [nan; 1; 1; 1; 1]%float in
  let w2 := [1; nan; 1; 1; 1]%float in
  Py.float "nan" = Ok nan /\
  Permutation w1 w2 /\
  returned (detect_stall ∅ (Py.Deque w1 5)) example.start = Ok false /\
  returned (detect_stall ∅ (Py.Deque w2 5)) example.start = Ok true /\
  decisions (logged_after (detect_stall ∅ (Py.Deque w1 5)) example.start)
    = [(nan, false)] /\
  decisions (logged_after (detect_stall ∅ (Py.Deque w2 5)) example.start)
    = [(0%float, true)].
Proof.
  cbv zeta. split; [vm_compute; reflexivity|].
  split; [apply perm_swap|].
  repeat split; vm_compute; reflexivity.
Qed.

(** C10 (as amended): on a window that holds no NaN the detector returns
    the same decision, and records the same range, for every permutation of
    the window. *)
Theorem detect_stall_permutation environ d1 d2 st :
  Permutation (Py.items d1) (Py.items d2) ->
  no_nan (Py.items d1) ->
  returned (detect_stall environ d1) st =
    returned (detect_stall environ d2) st /\
  decisions (logged_after (detect_stall environ d1) st) =
    decisions (logged_after (detect_stall environ d2) st).
Proof.
  intros Hp Hnn.
  assert (Hlen : Py.len d1 = Py.len d2)
    by (unfold Py.len; rewrite (Permutation_length Hp); reflexivity).
  unfold detect_stall, get_rolling_window_size, get_stall_threshold.
  steps. rewrite Hlen.
  destruct (match environ !! "SMOKER_ROLLING_WINDOW_SIZE" with
            | Some s => Py.int s | None => Ok 5 end) as [N|e]; steps;
    [|split; reflexivity].
  destruct (Py.len d2 <? N); steps.
  { split; [reflexivity|]. rewrite !decisions_app. reflexivity. }
  destruct (Py.max (Py.items d1)) as [hi1|e1] eqn:Hhi1.
  - assert (Hne1 : Py.items d1 <> []) by (intros E; rewrite E in Hhi1; discriminate).
    assert (Hne2 : Py.items d2 <> [])
      by (intros E; rewrite E in Hp; apply Permutation_nil_r in Hp; auto).
    destruct (max_min_nonempty _ Hne1) as (hi1' & lo1 & Hhi1' & Hlo1).
    destruct (max_min_nonempty _ Hne2) as (hi2 & lo2 & Hhi2 & Hlo2).
    rewrite Hlo1, Hhi2, Hlo2. steps.
    rewrite (range_permutation _ _ hi1 lo1 hi2 lo2 Hp Hnn Hhi1 Hlo1 Hhi2 Hlo2).
    destruct (match environ !! "SMOKER_STALL_THRESHOLD_F" with
              | Some s => Py.float s | None => Ok 1%float end) as [T|e]; steps;
      [|split; reflexivity].
    split; [reflexivity|]. rewrite !decisions_app. reflexivity.
  - assert (E1 : Py.items d1 = [])
      by (destruct (Py.items d1); [reflexivity | discriminate]).
    rewrite E1 in Hp, Hhi1. apply Permutation_nil_l in Hp. rewrite <- Hp.
    cbn [Py.max] in *. injection Hhi1 as <-. steps. split; reflexivity.
Qed.

Lemma detect_stall_permutation_witness :
  returned (detect_stall ∅ (Py.Deque [100; 100; 101; 100; 100]%float 5))
    example.start =
  returned (detect_stall ∅ (Py.Deque [100; 101; 100; 100; 100]%float 5))
    example.start.
Proof.
  apply (detect_stall_permutation ∅
           (Py.Deque [100; 100; 101; 100; 100]%float 5)
           (Py.Deque [100; 101; 100; 100; 100]%float 5)).
  - cbn [Py.items]. apply perm_skip, perm_swap.
  - cbn [Py.items]. repeat constructor.
Defined.

(** * Further properties of the consumer *)

(** ** The paths of the detector *)

Lemma get_rolling_window_size_configured environ st :
  returned (get_rolling_window_size environ) st = configured_window_size environ.
Proof.
  unfold get_rolling_window_size, configured_window_size. steps.
  destruct (environ !! _) as [s|]; [destruct (Py.int s)|]; reflexivity.
Qed.

Lemma get_stall_threshold_configured environ st :
  returned (get_stall_threshold environ) st = configured_threshold environ.
Proof.
  unfold get_stall_threshold, configured_threshold. steps.
  destruct (environ !! _) as [s|]; [destruct (Py.float s)|]; reflexivity.
Qed.

(** Every run of the detector follows one of the paths: the window is left
    alone and the records of the path are added to the log. *)
Lemma detect_stall_paths environ d st :
  exists r more,
    detect_stall environ d st =
      (r, State (rolling_window st) (logged st ++ more)) /\
    detect_path environ d r more.
Proof.
  destruct st as [w lg].
  unfold detect_stall, get_rolling_window_size, get_stall_threshold. steps.
  destruct (configured_window_size environ) as [N|e] eqn:HN;
    unfold configured_window_size in HN; rewrite HN; steps.
  2:{ exists (Raise e), []. rewrite app_nil_r.
      split; [reflexivity | apply path_no_window_size; exact HN]. }
  destruct (Z.ltb_spec (Py.len d) N) as [Hlt|Hge]; steps.
  { eexists _, _. rewrite <- app_assoc.
    split; [reflexivity | apply path_waiting; assumption]. }
  destruct (Py.items d) as [|x l] eqn:Hitems.
  { cbn [Py.max]. steps. eexists _, _.
    split; [reflexivity | apply path_empty; assumption]. }
  destruct (max_min_nonempty (x :: l)) as (hi & lo & Hhi & Hlo); [discriminate|].
  rewrite Hhi, Hlo. steps.
  destruct (configured_threshold environ) as [T|e] eqn:HT;
    unfold configured_threshold in HT; rewrite HT; steps.
  - eexists _, _. rewrite <- !app_assoc. cbn [app].
    split; [reflexivity|].
    rewrite <- Hitems in *. eapply path_decided; eassumption.
  - eexists _, _. split; [reflexivity|].
    rewrite <- Hitems in *. eapply path_no_threshold; eassumption.
Qed.

(** ** The paths of [process_message] *)

Section paths.

Variable json_loads : string -> result Py.json.
Variable environ : environment.

Ltac rejection :=
  first [ left; reflexivity
        | right; exists TypeError; reflexivity
        | right; exists AttributeError; reflexivity
        | right; eexists; reflexivity ].

(** Every run of [process_message] follows one of its paths and returns. *)
Lemma process_message_paths message st :
  exists w' more,
    process_message json_loads environ message st =
      (Ok tt, State w' (logged st ++ more)) /\
    process_path json_loads environ message (rolling_window st) w' more.
Proof.
  destruct st as [w lg].
  destruct (json_loads message) as [v|e] eqn:Hv.
  2:{ unfold process_message, process_message_except. steps. rewrite Hv. steps.
      eexists _, _. split; [rewrite <- app_assoc; reflexivity|].
      apply (path_rejected _ _ _ _ []);
        [|left; reflexivity|right; exists e; reflexivity].
      unfold reading_of. rewrite Hv. reflexivity. }
  assert (Hrej : forall r : record,
    r = (ERROR, MissingRequiredFields) \/ (exists e, r = handled message e) ->
    reading_of json_loads message = None ->
    process_path json_loads environ message w w
      ((DEBUG, RawMessage message)
         :: [(INFO, ProcessedJSONMessage v)] ++ [r])).
  { intros r Hr Hnone. apply path_rejected; [exact Hnone| |exact Hr].
    right. eauto. }
  destruct v as [| b | n | x | s | l | d].
  1-6: assert (Hnone : reading_of json_loads message = None)
         by (unfold reading_of; rewrite Hv; reflexivity).
  1-4: unfold process_message, process_message_except; steps; rewrite Hv; steps;
       eexists _, _; (split; [rewrite <- !app_assoc; reflexivity|]);
       (apply Hrej; [rejection | exact Hnone]).
  - unfold process_message, process_message_except. steps. rewrite Hv. steps.
    destruct (Py.str_contains "temperature" s); steps;
      [destruct (Py.str_contains "timestamp" s); steps|];
      eexists _, _; (split; [rewrite <- !app_assoc; reflexivity|]);
      (apply Hrej; [rejection | exact Hnone]).
  - unfold process_message, process_message_except. steps. rewrite Hv. steps.
    destruct (existsb (Py.is_str "temperature") l); steps;
      [destruct (existsb (Py.is_str "timestamp") l); steps|];
      eexists _, _; (split; [rewrite <- !app_assoc; reflexivity|]);
      (apply Hrej; [rejection | exact Hnone]).
  - destruct (Py.dict_get "temperature" d) as [t|] eqn:Ht.
    2:{ unfold process_message, process_message_except. steps.
        rewrite Hv. steps. rewrite Ht. steps.
        eexists _, _. split; [rewrite <- !app_assoc; reflexivity|].
        apply Hrej; [rejection|].
        unfold reading_of. rewrite Hv, Ht. reflexivity. }
    destruct (Py.dict_get "timestamp" d) as [ts|] eqn:Hts.
    2:{ unfold process_message, process_message_except. steps.
        rewrite Hv. steps. rewrite Ht. steps. rewrite Hts. steps.
        eexists _, _. split; [rewrite <- !app_assoc; reflexivity|].
        apply Hrej; [rejection|].
        unfold reading_of. rewrite Hv, Ht, Hts.
        destruct t; reflexivity. }
    destruct t as [| b | n | x | s | l | d'].
    5:{ destruct (Py.float (Py.replace s " C" "")) as [x|e] eqn:Hx.
        - rewrite (process_message_reading json_loads environ message d s x ts
                     _ Hv Ht Hts Hx).
          cbv zeta. unfold appended. cbn [rolling_window logged].
          destruct (detect_stall_paths environ (Py.append w x)
                      (State (Py.append w x)
                         (lg ++ [(DEBUG, RawMessage message);
                                 (INFO, ProcessedJSONMessage (Py.JDict d));
                                 (INFO, TemperatureTimestamp x ts)])))
            as (r & more & Hrun & Hpath).
          rewrite Hrun. cbn [rolling_window logged].
          exists (Py.append w x),
            ([(DEBUG, RawMessage message);
              (INFO, ProcessedJSONMessage (Py.JDict d));
              (INFO, TemperatureTimestamp x ts)]
             ++ more ++ after_detect message ts x r).
          split.
          + destruct r as [[]|e]; cbn [after_detect]; unfold handled;
              rewrite <- ?app_assoc; cbn [app]; rewrite ?app_nil_r;
              reflexivity.
          + eapply path_reading; try eassumption.
            unfold reading_of. rewrite Hv, Ht, Hts, Hx. reflexivity.
        - unfold process_message, process_message_except. steps.
          rewrite Hv. steps. rewrite Ht. steps. rewrite Hts. steps.
          rewrite Hx. steps.
          eexists _, _. split; [rewrite <- !app_assoc; reflexivity|].
          apply Hrej; [right; exists e; reflexivity|].
          unfold reading_of. rewrite Hv, Ht, Hts, Hx. reflexivity. }
    all: unfold process_message, process_message_except; steps;
         rewrite Hv; steps; rewrite Ht; steps; rewrite Hts; steps;
         eexists _, _; (split; [rewrite <- !app_assoc; reflexivity|]);
         (apply Hrej; [rejection|]);
         unfold reading_of; rewrite Hv, Ht; reflexivity.
Qed.

End paths.

(** What the records of a path hold. *)
Lemma detect_path_plain environ d r more :
  detect_path environ d r more ->
  received_offsets more = [] /\ alarms more = [].
Proof. intros []; split; reflexivity. Qed.

Lemma received_offsets_app l1 l2 :
  received_offsets (l1 ++ l2) = received_offsets l1 ++ received_offsets l2.
Proof.
  induction l1 as [|[lvl []] l1 IH]; simpl; rewrite ?IH; reflexivity.
Qed.

Lemma alarms_app l1 l2 : alarms (l1 ++ l2) = alarms l1 ++ alarms l2.
Proof.
  induction l1 as [|[lvl []] l1 IH]; simpl; rewrite ?IH; reflexivity.
Qed.

Lemma handled_plain message e :
  received_offsets [handled message e] = [] /\
  alarms [handled message e] = [] /\
  decisions [handled message e] = [].
Proof. destruct e; repeat split; reflexivity. Qed.

Lemma process_path_received json_loads environ message w w' more :
  process_path json_loads environ message w w' more ->
  received_offsets more = [].
Proof.
  intros [seen r Hnone Hseen Hr | d s x ts r dm Hd Ht Hts Hx Hsome Hpath].
  - cbn [received_offsets]. rewrite received_offsets_app.
    destruct Hseen as [->|[v ->]], Hr as [->|[e ->]];
      try reflexivity; destruct e; reflexivity.
  - rewrite !received_offsets_app.
    rewrite (proj1 (detect_path_plain _ _ _ _ Hpath)).
    destruct r as [[]|e]; cbn [after_detect];
      try reflexivity; destruct e; reflexivity.
Qed.

Lemma process_path_window json_loads environ message w w' more :
  process_path json_loads environ message w w' more ->
  w' = match reading_of json_loads message with
       | Some x => Py.append w x
       | None => w
       end.
Proof.
  intros [seen r Hnone _ _ | d s x ts r dm _ _ _ _ Hsome _].
  - rewrite Hnone. reflexivity.
  - rewrite Hsome. reflexivity.
Qed.

(** ** One message *)

(** X1: [process_message] catches every exception.  For every message,
    whatever [json.loads] does with it and whatever the environment holds,
    it returns normally, only adds records to the log, the first of them
    the raw message, and keeps the bound of the deque. *)
Theorem process_message_never_raises json_loads environ message st :
  returned (process_message json_loads environ message) st = Ok tt /\
  (exists more,
     logged_after (process_message json_loads environ message) st =
       logged st ++ (DEBUG, RawMessage message) :: more) /\
  Py.maxlen (window_after (process_message json_loads environ message) st) =
    Py.maxlen (rolling_window st).
Proof.
  destruct (process_message_paths json_loads environ message st)
    as (w' & more & Hrun & Hpath).
  unfold returned, logged_after, window_after. rewrite Hrun.
  cbn [fst snd rolling_window logged].
  split; [reflexivity|].
  destruct Hpath; (split; [eexists; reflexivity | reflexivity]).
Qed.

(** X2: the only change [process_message] makes to the window is one
    append of the reading the message carries: a message with a reading
    appends it, also when the detector then fails, and any other message
    leaves the window as it was. *)
Theorem process_message_window json_loads environ message st :
  window_after (process_message json_loads environ message) st =
    match reading_of json_loads message with
    | Some x => Py.append (rolling_window st) x
    | None => rolling_window st
    end.
Proof.
  destruct (process_message_paths json_loads environ message st)
    as (w' & more & Hrun & Hpath).
  unfold window_after. rewrite Hrun. cbn [snd rolling_window].
  eapply process_path_window, Hpath.
Qed.

(** ** The loop *)

Section loop.

Variable json_loads : string -> result Py.json.
Variable environ : environment.

Lemma poll_paths message st :
  exists w' more,
    poll json_loads environ message st =
      (Ok tt,
       State w' (logged st
                 ++ (DEBUG, ReceivedMessage (offset message) (value message))
                 :: more)) /\
    process_path json_loads environ (value message) (rolling_window st) w' more.
Proof.
  unfold poll. steps.
  destruct (process_message_paths json_loads environ (value message)
              (State (rolling_window st)
                 (logged st ++ [(DEBUG, ReceivedMessage (offset message)
                                          (value message))])))
    as (w' & more & Hrun & Hpath).
  exists w', more. rewrite Hrun. cbn [rolling_window logged] in *.
  rewrite <- app_assoc. split; [reflexivity | exact Hpath].
Qed.

(** The loop returns; it feeds the window the readings of the stream in
    order and reports every message as received, in order. *)
Lemma for_each_poll consumer : forall st,
  exists st',
    for_each consumer (poll json_loads environ) st = (Ok tt, st') /\
    rolling_window st' =
      fold_left Py.append (readings json_loads consumer) (rolling_window st) /\
    exists more,
      logged st' = logged st ++ more /\
      received_offsets more = map offset consumer.
Proof.
  induction consumer as [|message consumer IH]; intros st.
  - exists st. split; [destruct st; reflexivity|]. split; [reflexivity|].
    exists []. rewrite app_nil_r. split; reflexivity.
  - destruct (poll_paths message st) as (w1 & more1 & Hrun & Hpath).
    destruct (IH (State w1 (logged st
                  ++ (DEBUG, ReceivedMessage (offset message) (value message))
                  :: more1)))
      as (st' & Hloop & Hw & more & Hlog & Hrec).
    exists st'. cbn [for_each]. unfold mbind, M_bind, bind.
    rewrite Hrun. split; [exact Hloop|]. split.
    + rewrite Hw. cbn [rolling_window]. unfold readings.
      rewrite (process_path_window _ _ _ _ _ _ Hpath).
      cbn [omap list_omap].
      destruct (reading_of json_loads (value message)); reflexivity.
    + exists ((DEBUG, ReceivedMessage (offset message) (value message))
              :: more1 ++ more).
      split.
      * rewrite Hlog. cbn [logged]. rewrite <- app_assoc. reflexivity.
      * cbn [received_offsets map]. rewrite received_offsets_app, Hrec.
        rewrite (process_path_received _ _ _ _ _ _ Hpath). reflexivity.
Qed.

End loop.

(** ** The whole run *)

(** [main] when the window cannot be created: the exception leaves [main]
    after the startup records, before the polling record. *)
Lemma main_startup json_loads environ consumer st :
  (forall N, configured_window_size environ = Ok N -> N < 0 \/ 2 ^ 63 <= N) ->
  exists more,
    main json_loads environ consumer st =
      (Raise (match configured_window_size environ with
              | Raise e => e
              | Ok N =>
                  if (N <? - 2 ^ 63) || (2 ^ 63 <=? N) then OverflowError
                  else ValueError NegativeMaxlen
              end),
       State (rolling_window st) (logged st ++ more)) /\
    received_offsets more = [] /\
    decisions more = [] /\
    Forall (fun r => forall topic, r <> (INFO, PollingMessages topic)
                                   /\ r <> (INFO, ConsumerClosed topic)) more.
Proof.
  intros Hbad. destruct st as [w lg].
  unfold main, get_kafka_topic, get_kafka_consumer_group_id,
    get_rolling_window_size.
  steps. fold (configured_window_size environ).
  destruct (configured_window_size environ) as [N|e] eqn:HN; steps.
  - specialize (Hbad N eq_refl). unfold Py.deque_new.
    destruct ((N <? - 2 ^ 63) || (2 ^ 63 <=? N)) eqn:Hfit; steps.
    + eexists. rewrite <- !app_assoc. cbn [app].
      split; [reflexivity|]. split; [reflexivity|]. split; [reflexivity|].
      repeat constructor; discriminate.
    + apply orb_false_iff in Hfit as [_ Hfit]. apply Z.leb_gt in Hfit.
      destruct (Z.ltb_spec N 0) as [_|]; [|lia]. steps.
      eexists. rewrite <- !app_assoc. cbn [app].
      split; [reflexivity|]. split; [reflexivity|]. split; [reflexivity|].
      repeat constructor; discriminate.
  - eexists. rewrite <- !app_assoc. cbn [app].
    split; [reflexivity|]. split; [reflexivity|]. split; [reflexivity|].
    repeat constructor; discriminate.
Qed.

(** X3: when the window size reads as N with 0 <= N < 2^63 (a bound that
    [deque] accepts), [main] returns normally for every stream of messages;
    it leaves in the window exactly the last N readings the stream carried,
    in their order, messages without a reading being skipped; it reports
    every message as received, in order; and its last two records are the
    closing of the consumer and the end. *)
Theorem main_window json_loads environ consumer N st :
  configured_window_size environ = Ok N ->
  0 <= N < 2 ^ 63 ->
  let run := main json_loads environ consumer in
  returned run st = Ok tt /\
  window_after run st =
    Py.Deque (lastn (Z.to_nat N) (readings json_loads consumer)) N /\
  exists more,
    logged_after run st = logged st ++ more /\
    received_offsets more = map offset consumer /\
    exists topic group_id before,
      more = before ++ [(INFO, ConsumerClosed topic);
                        (INFO, EndConsumer topic group_id)].
Proof.
  intros HN H0 run.
  set (topic := default "unknown_topic" (environ !! "SMOKER_TOPIC")).
  set (group_id := default "default_group" (environ !! "SMOKER_CONSUMER_GROUP_ID")).
  set (startup := [(INFO, StartConsumer); (INFO, KafkaTopic topic);
                   (INFO, KafkaConsumerGroupId group_id);
                   (INFO, RollingWindowSize N);
                   (INFO, ConsumerTopicGroup topic group_id);
                   (INFO, RollingWindowSize N);
                   (INFO, PollingMessages topic)]).
  destruct (for_each_poll json_loads environ consumer
              (State (Py.Deque [] N) (logged st ++ startup)))
    as (st1 & Hloop & Hw & more & Hlog & Hrec).
  assert (HN' : returned (get_rolling_window_size environ) st = Ok N)
    by (rewrite get_rolling_window_size_configured; exact HN).
  assert (Hrun := main_run json_loads environ consumer N st HN' H0 _ Hloop).
  fold topic group_id in Hrun.
  unfold run, returned, window_after, logged_after. rewrite Hrun.
  cbn [fst snd rolling_window logged] in *.
  split; [reflexivity|]. split.
  - rewrite Hw. remember (fold_left _ _ _) as d eqn:Hd.
    assert (Hitems : Py.items d = lastn (Z.to_nat N) (readings json_loads consumer)).
    { rewrite Hd, appends_items by (unfold Py.len; simpl; lia). reflexivity. }
    assert (Hmax : Py.maxlen d = N) by (rewrite Hd; apply appends_maxlen).
    destruct d as [items maxlen]. cbn in Hitems, Hmax. congruence.
  - exists (startup ++ more ++ [(INFO, ConsumerClosed topic);
                               (INFO, EndConsumer topic group_id)]).
    split; [rewrite Hlog, <- !app_assoc; reflexivity|]. split.
    + rewrite !received_offsets_app, Hrec. cbn. rewrite app_nil_r. reflexivity.
    + exists topic, group_id, (startup ++ more).
      rewrite <- app_assoc. reflexivity.
Qed.

(** X4: [main] fails at startup, before it polls, when the window size
    does not read as an integer, is negative, or is 2^63 or more: the
    exception that leaves [main] is the [ValueError] of [int()], the
    [ValueError] of [deque(maxlen=...)] for a negative bound from -2^63 on,
    and its [OverflowError] for a bound below -2^63 or from 2^63 on; no
    message is received and the closing records are not logged. *)
Theorem main_startup_failure json_loads environ consumer st :
  (forall N, configured_window_size environ = Ok N -> N < 0 \/ 2 ^ 63 <= N) ->
  let run := main json_loads environ consumer in
  returned run st =
    Raise (match configured_window_size environ with
           | Raise e => e
           | Ok N =>
               if (N <? - 2 ^ 63) || (2 ^ 63 <=? N) then OverflowError
               else ValueError NegativeMaxlen
           end) /\
  window_after run st = rolling_window st /\
  exists more,
    logged_after run st = logged st ++ more /\
    received_offsets more = [] /\
    Forall (fun r => forall topic, r <> (INFO, PollingMessages topic)
                                   /\ r <> (INFO, ConsumerClosed topic)) more.
Proof.
  intros Hbad run.
  destruct (main_startup json_loads environ consumer st Hbad)
    as (more & Hrun & Hrec & _ & Hall).
  unfold run, returned, window_after, logged_after. rewrite Hrun.
  cbn [fst snd rolling_window logged].
  split; [reflexivity|]. split; [reflexivity|]. eauto.
Qed.

(** ** The detector inside [process_message] *)

(** With a window size and a threshold that read, on a window that is not
    shorter than the window size and not empty, the detector takes the
    deciding path. *)
Lemma detect_path_decided_inv environ d N T hi lo r more :
  configured_window_size environ = Ok N ->
  configured_threshold environ = Ok T ->
  N <= Py.len d ->
  Py.max (Py.items d) = Ok hi ->
  Py.min (Py.items d) = Ok lo ->
  detect_path environ d r more ->
  r = Ok (hi - lo <=? T)%float /\
  more = [(INFO, RollingWindowSize N);
          (INFO, MaxStallTemperatureRange T);
          (DEBUG, RollingWindow (Py.items d));
          (DEBUG, TemperatureRange (hi - lo) (hi - lo <=? T)%float)].
Proof.
  intros HN HT Hge Hhi Hlo Hpath.
  destruct Hpath as [e HN' | N' HN' Hlt | N' HN' _ Hempty
                    | N' hi' lo' e HN' _ _ _ HT'
                    | N' hi' lo' T' HN' _ Hhi' Hlo' HT'].
  - congruence.
  - assert (N' = N) by congruence. lia.
  - rewrite Hempty in Hhi. discriminate.
  - congruence.
  - assert (N' = N) by congruence. assert (T' = T) by congruence.
    assert (hi' = hi) by congruence. assert (lo' = lo) by congruence.
    subst. split; reflexivity.
Qed.

(** X5: a reading is kept even when the detector then fails.  When the
    threshold does not read as a float, a message that carries a reading
    and fills the window (or finds it full) still appends its reading; the
    exception of the detector is logged as an error and no decision and no
    alarm is recorded. *)
Theorem reading_kept_when_threshold_fails
    json_loads environ message x N e st :
  reading_of json_loads message = Some x ->
  configured_window_size environ = Ok N ->
  1 <= N <= Py.len (Py.append (rolling_window st) x) ->
  configured_threshold environ = Raise e ->
  let run := process_message json_loads environ message in
  returned run st = Ok tt /\
  window_after run st = Py.append (rolling_window st) x /\
  exists more,
    logged_after run st = logged st ++ more /\
    last more = Some (handled message e) /\
    decisions more = [] /\ alarms more = [].
Proof.
  intros Hx HN Hlen HT run.
  destruct (process_message_paths json_loads environ message st)
    as (w' & more & Hrun & Hpath).
  unfold run, returned, window_after, logged_after. rewrite Hrun.
  cbn [fst snd rolling_window logged].
  split; [reflexivity|].
  destruct Hpath as [seen r Hnone _ _ | d s x' ts r dm _ _ _ _ Hsome Hdet];
    [congruence|].
  assert (x' = x) by congruence. subst x'.
  split; [reflexivity|]. eexists. split; [reflexivity|].
  destruct Hdet as [e' HN' | N' HN' Hlt | N' HN' _ Hempty
                   | N' hi lo e' HN' _ _ _ HT'
                   | N' hi lo T' HN' _ _ _ HT'].
  - congruence.
  - assert (N' = N) by congruence. lia.
  - unfold Py.len in Hlen. rewrite Hempty in Hlen. simpl in Hlen. lia.
  - assert (e' = e) by congruence. subst e'. cbn [after_detect].
    split; [reflexivity|]. destruct e; split; reflexivity.
  - congruence.
Qed.

(** X6: with a window size of 0 the deque never holds a reading, so every
    message that carries a reading is reported as an error: the window
    stays empty, [max] raises on it and the handler logs its
    [ValueError]. *)
Theorem window_size_zero json_loads environ message x st :
  reading_of json_loads message = Some x ->
  configured_window_size environ = Ok 0 ->
  rolling_window st = Py.Deque [] 0 ->
  let run := process_message json_loads environ message in
  returned run st = Ok tt /\
  window_after run st = Py.Deque [] 0 /\
  exists more,
    logged_after run st = logged st ++ more /\
    last more =
      Some (ERROR, ErrorProcessingMessage (ValueError (EmptySequence "max"))) /\
    decisions more = [] /\ alarms more = [].
Proof.
  intros Hx HN Hw run.
  destruct (process_message_paths json_loads environ message st)
    as (w' & more & Hrun & Hpath).
  unfold run, returned, window_after, logged_after. rewrite Hrun.
  cbn [fst snd rolling_window logged].
  split; [reflexivity|].
  destruct Hpath as [seen r Hnone _ _ | d s x' ts r dm _ _ _ _ Hsome Hdet];
    [congruence|].
  rewrite Hw in *.
  change (Py.append (Py.Deque [] 0) x') with (Py.Deque [] 0) in *.
  split; [reflexivity|]. eexists. split; [reflexivity|].
  destruct Hdet as [e' HN' | N' HN' Hlt | N' HN' _ Hempty
                   | N' hi lo e' HN' _ Hhi _ HT'
                   | N' hi lo T' HN' _ Hhi _ HT'].
  - congruence.
  - assert (N' = 0) by congruence. subst N'. vm_compute in Hlt. discriminate.
  - cbn [after_detect]. repeat split; reflexivity.
  - discriminate.
  - discriminate.
Qed.

(** X7: a stall alarm is logged for a message exactly when the message
    carries a reading, the window size and the threshold read, the window
    with the reading appended holds at least N readings and its range
    max - min is at most T; the alarm then bears the timestamp of the
    message, and no message logs more than one. *)
Theorem alarm_iff_stalled json_loads environ message st more :
  logged_after (process_message json_loads environ message) st =
    logged st ++ more ->
  (alarms more <> [] <->
   exists x N T hi lo,
     reading_of json_loads message = Some x /\
     configured_window_size environ = Ok N /\
     configured_threshold environ = Ok T /\
     N <= Py.len (Py.append (rolling_window st) x) /\
     Py.max (Py.items (Py.append (rolling_window st) x)) = Ok hi /\
     Py.min (Py.items (Py.append (rolling_window st) x)) = Ok lo /\
     (hi - lo <=? T)%float = true) /\
  (alarms more = [] \/
   exists d ts, json_loads message = Ok (Py.JDict d) /\
                Py.dict_get "timestamp" d = Some ts /\ alarms more = [ts]).
Proof.
  destruct (process_message_paths json_loads environ message st)
    as (w' & more' & Hrun & Hpath).
  unfold logged_after. rewrite Hrun. cbn [snd logged].
  intros Hmore. apply app_inv_head in Hmore. subst more'.
  destruct Hpath as [seen r Hnone Hseen Hr
                    | d s x ts r dm Hd Ht Hts Hx Hsome Hdet].
  - assert (Hno : alarms ((DEBUG, RawMessage message) :: seen ++ [r]) = []).
    { cbn [alarms]. rewrite alarms_app.
      destruct Hseen as [->|[v ->]], Hr as [->|[e ->]];
        try reflexivity; destruct e; reflexivity. }
    rewrite Hno. split; [|left; reflexivity].
    split; [congruence|]. intros (x & N & T & hi & lo & Hsome & _). congruence.
  - assert (Hal : alarms ([(DEBUG, RawMessage message);
                           (INFO, ProcessedJSONMessage (Py.JDict d));
                           (INFO, TemperatureTimestamp x ts)]
                          ++ dm ++ after_detect message ts x r)
                  = match r with Ok true => [ts] | _ => [] end).
    { rewrite !alarms_app, (proj2 (detect_path_plain _ _ _ _ Hdet)).
      destruct r as [[]|e]; cbn [after_detect]; try reflexivity.
      destruct e; reflexivity. }
    rewrite Hal. split.
    + split.
      * intros Hne. destruct r as [[]|e]; try congruence.
        exists x. inversion Hdet as [ | | | | N hi lo T HN Hge Hhi Hlo HT Hr' ].
        exists N, T, hi, lo. repeat split; try assumption; congruence.
      * intros (x' & N & T & hi & lo & Hsome' & HN & HT & Hge & Hhi & Hlo & Hle).
        assert (x' = x) by congruence. subst x'.
        destruct (detect_path_decided_inv _ _ _ _ _ _ _ _ HN HT Hge Hhi Hlo Hdet)
          as [-> _].
        rewrite Hle. discriminate.
    + destruct r as [[]|e]; [right; eauto | left; reflexivity | left; reflexivity].
Qed.

(** ** The decision *)

(** The decision of a run of the detector is given by its path. *)
Lemma detect_stall_returned environ d st :
  exists more,
    detect_path environ d (returned (detect_stall environ d) st) more.
Proof.
  destruct (detect_stall_paths environ d st) as (r & more & Hrun & Hpath).
  exists more. unfold returned. rewrite Hrun. exact Hpath.
Qed.

(** X8: raising the threshold never clears a stall.  Under the same window
    size, a window the detector finds stalled for a threshold T1 is found
    stalled for every threshold T2 with T1 <= T2. *)
Theorem stall_monotone_in_threshold env1 env2 d st1 st2 T1 T2 :
  configured_window_size env1 = configured_window_size env2 ->
  configured_threshold env1 = Ok T1 ->
  configured_threshold env2 = Ok T2 ->
  (T1 <=? T2)%float = true ->
  returned (detect_stall env1 d) st1 = Ok true ->
  returned (detect_stall env2 d) st2 = Ok true.
Proof.
  intros HN HT1 HT2 Hle Hstalled.
  destruct (detect_stall_returned env1 d st1) as (more1 & Hp1).
  destruct (detect_stall_returned env2 d st2) as (more2 & Hp2).
  rewrite Hstalled in Hp1.
  inversion Hp1 as [ | N HN1 Hlt Hr | | | N hi lo T HN1 Hge Hhi Hlo HT Hr ];
    subst.
  assert (T = T1) by congruence. subst T.
  assert (Hstall : (hi - lo <=? T1)%float = true) by congruence.
  rewrite HN in HN1.
  destruct (detect_path_decided_inv _ _ _ _ _ _ _ _ HN1 HT2 Hge Hhi Hlo Hp2)
    as [-> _].
  f_equal. rewrite ?Hstall. eapply leb_trans; eassumption.
Qed.

(** X9: on a window without NaN a stall means what it says: when the
    detector returns true, the window holds at least N readings, every
    reading lies between two readings lo and hi of the window, and
    hi - lo is at most the threshold. *)
Theorem stall_bounds_every_reading environ d st :
  no_nan (Py.items d) ->
  returned (detect_stall environ d) st = Ok true ->
  exists N T hi lo,
    configured_window_size environ = Ok N /\
    configured_threshold environ = Ok T /\
    N <= Py.len d /\
    In hi (Py.items d) /\ In lo (Py.items d) /\
    (forall y, In y (Py.items d) ->
       (lo <=? y)%float = true /\ (y <=? hi)%float = true) /\
    (hi - lo <=? T)%float = true.
Proof.
  intros Hnn Hstalled.
  destruct (detect_stall_returned environ d st) as (more & Hp).
  rewrite Hstalled in Hp.
  inversion Hp as [ | N HN1 Hlt Hr | | | N hi lo T HN1 Hge Hhi Hlo HT Hr ];
    subst.
  destruct (max_greatest _ _ Hnn Hhi) as [Hin_hi Hmax].
  destruct (min_least _ _ Hnn Hlo) as [Hin_lo Hmin].
  exists N, T, hi, lo.
  split; [exact HN1|]. split; [exact HT|]. split; [exact Hge|].
  split; [exact Hin_hi|]. split; [exact Hin_lo|]. rewrite ?Hr. split.
  - intros y Hy. split; [apply Hmin | apply Hmax]; exact Hy.
  - reflexivity.
Qed.

(** ** A constant window *)

(** A finite float is a zero or a finite number of the specification. *)
Lemma is_finite_spec x :
  is_finite x = true ->
  match Prim2SF x with
  | S754_zero _ | S754_finite _ _ _ => True
  | _ => False
  end.
Proof.
  unfold is_finite, is_nan, is_infinity.
  rewrite !FloatAxioms.eqb_spec, abs_spec.
  destruct (Prim2SF x) as [s|[]| |s m e]; try exact (fun _ => I);
    vm_compute; discriminate.
Qed.

(** A finite float minus itself is +0. *)
Lemma sub_self_finite x : is_finite x = true -> (x - x)%float = 0%float.
Proof.
  intros Hx. apply is_finite_spec in Hx.
  apply Prim2SF_inj. rewrite sub_spec.
  destruct (Prim2SF x) as [s|s| |s m e]; try destruct Hx.
  - destruct s; reflexivity.
  - unfold SF64sub, SFsub. rewrite Z.sub_diag. reflexivity.
Qed.

Lemma max_constant x l :
  Forall (fun y => y = x) l -> Py.max (x :: l) = Ok x.
Proof.
  intros Hl. cbn [Py.max]. f_equal.
  induction Hl as [|y l -> _ IH]; [reflexivity|].
  cbn [fold_left]. unfold Py.max_step at 2.
  destruct (x <? x)%float; exact IH.
Qed.

Lemma min_constant x l :
  Forall (fun y => y = x) l -> Py.min (x :: l) = Ok x.
Proof.
  intros Hl. cbn [Py.min]. f_equal.
  induction Hl as [|y l -> _ IH]; [reflexivity|].
  cbn [fold_left]. unfold Py.min_step at 2.
  destruct (x <? x)%float; exact IH.
Qed.

(** X10: a constant temperature is a stall, unless it is infinite.  On a
    window of at least N >= 1 readings all equal to x, the detector returns
    true for every threshold T >= 0 when x is finite (the range is +0), and
    false for every threshold when x is an infinity (the range is NaN). *)
Theorem constant_window environ d x N T st :
  configured_window_size environ = Ok N ->
  configured_threshold environ = Ok T ->
  1 <= N <= Py.len d ->
  Forall (fun y => y = x) (Py.items d) ->
  (is_finite x = true -> (0 <=? T)%float = true ->
   returned (detect_stall environ d) st = Ok true) /\
  (x = infinity \/ x = neg_infinity ->
   returned (detect_stall environ d) st = Ok false).
Proof.
  intros HN HT Hlen Hall.
  destruct (detect_stall_returned environ d st) as (more & Hp).
  destruct (Py.items d) as [|y l] eqn:Hitems.
  { unfold Py.len in Hlen. rewrite Hitems in Hlen. simpl in Hlen. lia. }
  apply Forall_cons in Hall as [-> Hall].
  assert (Hhi : Py.max (Py.items d) = Ok x)
    by (rewrite Hitems; apply max_constant, Hall).
  assert (Hlo : Py.min (Py.items d) = Ok x)
    by (rewrite Hitems; apply min_constant, Hall).
  destruct (detect_path_decided_inv _ _ _ _ _ _ _ _ HN HT (proj2 Hlen) Hhi Hlo Hp)
    as [-> _].
  split.
  - intros Hfin HT0. rewrite (sub_self_finite x Hfin), HT0. reflexivity.
  - intros [-> | ->]; f_equal; rewrite FloatAxioms.leb_spec, sub_spec;
      reflexivity.
Qed.

(** ** The decisions of a run *)

Section run_decisions.

Variable json_loads : string -> result Py.json.
Variable environ : environment.
Variable N : Z.
Variable T : float.
Hypothesis window_size : configured_window_size environ = Ok N.
Hypothesis threshold : configured_threshold environ = Ok T.
Hypothesis positive : 1 <= N.

Lemma append_lastn seen x :
  Py.append (Py.Deque (lastn (Z.to_nat N) seen) N) x =
    Py.Deque (lastn (Z.to_nat N) (seen ++ [x])) N.
Proof.
  set (d := Py.Deque (lastn (Z.to_nat N) seen) N).
  assert (Hitems : Py.items (Py.append d x) = lastn (Z.to_nat N) (seen ++ [x])).
  { rewrite append_items.
    - apply lastn_snoc.
    - simpl. lia.
    - unfold Py.len. simpl. rewrite lastn_length. lia. }
  destruct (Py.append d x) as [items maxlen] eqn:E.
  assert (Hmax : maxlen = N) by (change maxlen with (Py.maxlen (Py.Deque items maxlen)); rewrite <- E; reflexivity).
  cbn in Hitems. congruence.
Qed.

(** The decisions one message adds: none when it has no reading or the
    window is still filling, then the decision on the last N readings. *)
Lemma process_path_decisions message seen w' more :
  process_path json_loads environ message
    (Py.Deque (lastn (Z.to_nat N) seen) N) w' more ->
  decisions more =
    match reading_of json_loads message with
    | Some x =>
        omap (decision_on T)
          (if (Z.to_nat N <=? length (seen ++ [x]))%nat
           then [lastn (Z.to_nat N) (seen ++ [x])] else [])
    | None => []
    end.
Proof.
  intros [sn r Hnone Hseen Hr | d s x ts r dm _ _ _ _ Hsome Hdet].
  - rewrite Hnone. cbn [decisions]. rewrite decisions_app.
    destruct Hseen as [->|[v ->]], Hr as [->|[e ->]];
      try reflexivity; destruct e; reflexivity.
  - rewrite Hsome. rewrite append_lastn in Hdet.
    rewrite !decisions_app. cbn [decisions app].
    assert (Hafter : decisions (after_detect message ts x r) = []).
    { destruct r as [[]|e]; try reflexivity. destruct e; reflexivity. }
    rewrite Hafter, app_nil_r.
    assert (Hlen : Py.len (Py.Deque (lastn (Z.to_nat N) (seen ++ [x])) N)
                   = Z.of_nat (Nat.min (length (seen ++ [x])) (Z.to_nat N))).
    { unfold Py.len. cbn [Py.items]. rewrite lastn_length. reflexivity. }
    destruct Hdet as [e' HN' | N' HN' Hlt | N' HN' Hge Hempty
                     | N' hi lo e' HN' _ _ _ HT'
                     | N' hi lo T' HN' Hge Hhi Hlo HT'];
      try congruence.
    + assert (N' = N) by congruence. subst N'. rewrite Hlen in Hlt.
      destruct (Nat.leb_spec (Z.to_nat N) (length (seen ++ [x]))); [lia|].
      reflexivity.
    + assert (N' = N) by congruence. subst N'.
      unfold Py.len in Hge. rewrite Hempty in Hge. simpl in Hge. lia.
    + assert (N' = N) by congruence. assert (T' = T) by congruence. subst.
      rewrite Hlen in Hge.
      destruct (Nat.leb_spec (Z.to_nat N) (length (seen ++ [x]))); [|lia].
      cbn [omap list_omap Py.items] in *. unfold decision_on.
      rewrite Hhi, Hlo. reflexivity.
Qed.

Lemma for_each_decisions consumer : forall st seen,
  rolling_window st = Py.Deque (lastn (Z.to_nat N) seen) N ->
  exists st' more,
    for_each consumer (poll json_loads environ) st = (Ok tt, st') /\
    logged st' = logged st ++ more /\
    decisions more =
      omap (decision_on T)
        (sliding (Z.to_nat N) seen (readings json_loads consumer)).
Proof.
  induction consumer as [|message consumer IH]; intros st seen Hw.
  - exists st, []. rewrite app_nil_r.
    split; [destruct st; reflexivity|]. split; reflexivity.
  - destruct (poll_paths json_loads environ message st)
      as (w1 & more1 & Hrun & Hpath).
    rewrite Hw in Hpath.
    assert (Hdec := process_path_decisions _ _ _ _ Hpath).
    assert (Hw1 := process_path_window _ _ _ _ _ _ Hpath).
    unfold readings. cbn [omap list_omap].
    fold (readings json_loads consumer).
    destruct (reading_of json_loads (value message)) as [x|] eqn:Hx.
    + rewrite append_lastn in Hw1.
      destruct (IH (State w1 (logged st
                  ++ (DEBUG, ReceivedMessage (offset message) (value message))
                  :: more1)) (seen ++ [x]) Hw1)
        as (st' & more & Hloop & Hlog & Hmore).
      exists st', ((DEBUG, ReceivedMessage (offset message) (value message))
                   :: more1 ++ more).
      cbn [for_each]. unfold mbind, M_bind, bind. rewrite Hrun.
      split; [exact Hloop|]. split.
      * rewrite Hlog. cbn [logged]. rewrite <- app_assoc. reflexivity.
      * cbn [decisions sliding]. rewrite decisions_app, Hdec, Hmore.
        rewrite omap_app. reflexivity.
    + destruct (IH (State w1 (logged st
                  ++ (DEBUG, ReceivedMessage (offset message) (value message))
                  :: more1)) seen Hw1)
        as (st' & more & Hloop & Hlog & Hmore).
      exists st', ((DEBUG, ReceivedMessage (offset message) (value message))
                   :: more1 ++ more).
      cbn [for_each]. unfold mbind, M_bind, bind. rewrite Hrun.
      split; [exact Hloop|]. split.
      * rewrite Hlog. cbn [logged]. rewrite <- app_assoc. reflexivity.
      * cbn [decisions]. rewrite decisions_app, Hdec, Hmore. reflexivity.
Qed.

End run_decisions.

(** No window of [N] readings is reached by fewer than [N] readings. *)
Lemma sliding_short N rest : forall seen,
  (length seen + length rest < N)%nat -> sliding N seen rest = [].
Proof.
  induction rest as [|x rest IH]; intros seen Hlen; [reflexivity|].
  cbn [sliding length] in *.
  destruct (Nat.leb_spec N (length (seen ++ [x]))) as [Hle|_].
  - rewrite length_app in Hle. cbn [length] in Hle. lia.
  - apply IH. rewrite length_app. cbn [length]. lia.
Qed.

Lemma readings_length json_loads consumer :
  (length (readings json_loads consumer) <= length consumer)%nat.
Proof.
  unfold readings. induction consumer as [|m consumer IH]; [reflexivity|].
  cbn [omap list_omap length].
  destruct (reading_of json_loads (value m)); cbn [length]; lia.
Qed.

(** X11: the decisions [main] records are those of the sliding windows of
    the stream.  With a window size N >= 1 and a threshold T that read,
    [main] records no decision until N readings have arrived, then one
    decision after each reading, computed on the last N readings: the
    range max - min of that window and whether it is at most T.  (A window
    size of 2^63 or more, which [deque] refuses, is covered for the streams
    of fewer than N messages: [main] stops at startup and records no
    decision, and the stream has no window of N readings.) *)
Theorem main_decisions json_loads environ consumer N T st more :
  configured_window_size environ = Ok N ->
  configured_threshold environ = Ok T ->
  1 <= N ->
  N < 2 ^ 63 \/ Z.of_nat (length consumer) < N ->
  logged_after (main json_loads environ consumer) st = logged st ++ more ->
  decisions more =
    omap (decision_on T)
      (sliding (Z.to_nat N) [] (readings json_loads consumer)).
Proof.
  intros HN HT Hpos Hfit Hmore.
  destruct (Z.lt_ge_cases N (2 ^ 63)) as [Hlt|Hge]; cycle 1.
  { destruct Hfit as [|Hshort]; [lia|].
    destruct (main_startup json_loads environ consumer st)
      as (more0 & Hrun & _ & Hdec & _).
    { intros N' HN'. assert (N' = N) by congruence. lia. }
    unfold logged_after in Hmore. rewrite Hrun in Hmore.
    cbn [snd logged] in Hmore. apply app_inv_head in Hmore. subst more0.
    rewrite Hdec, sliding_short; [reflexivity|].
    pose proof (readings_length json_loads consumer). cbn [length]. lia. }
  clear Hfit.
  set (topic := default "unknown_topic" (environ !! "SMOKER_TOPIC")).
  set (group_id := default "default_group" (environ !! "SMOKER_CONSUMER_GROUP_ID")).
  set (startup := [(INFO, StartConsumer); (INFO, KafkaTopic topic);
                   (INFO, KafkaConsumerGroupId group_id);
                   (INFO, RollingWindowSize N);
                   (INFO, ConsumerTopicGroup topic group_id);
                   (INFO, RollingWindowSize N);
                   (INFO, PollingMessages topic)]).
  destruct (for_each_decisions json_loads environ N T HN HT Hpos consumer
              (State (Py.Deque [] N) (logged st ++ startup)) [] eq_refl)
    as (st1 & more1 & Hloop & Hlog & Hdec).
  assert (HN' : returned (get_rolling_window_size environ) st = Ok N)
    by (rewrite get_rolling_window_size_configured; exact HN).
  assert (Hrun := main_run json_loads environ consumer N st HN'
                    ltac:(lia) _ Hloop).
  fold topic group_id in Hrun.
  unfold logged_after in Hmore. rewrite Hrun in Hmore.
  cbn [snd logged] in Hmore, Hlog. rewrite Hlog, <- !app_assoc in Hmore.
  apply app_inv_head in Hmore. subst more.
  rewrite !decisions_app, Hdec. cbn. rewrite app_nil_r. reflexivity.
Qed.

(** * The author counter *)

(** ** Keys *)

Section keys.

Lemma SFeqb_sym a b : SFeqb a b = SFeqb b a.
Proof.
  unfold SFeqb, SFcompare.
  destruct a as [[]|[]| |[] ma ea], b as [[]|[]| |[] mb eb];
    simpl; try reflexivity;
    destruct (Z.compare_spec ea eb), (Z.compare_spec eb ea);
    try lia; try reflexivity;
    change (Pos.compare_cont Eq) with Pos.compare;
    destruct (Pos.compare_spec ma mb), (Pos.compare_spec mb ma);
    simpl; subst; try reflexivity; try lia.
Qed.

Lemma SFeqb_trans a b c :
  SFeqb a b = true -> SFeqb b c = true -> SFeqb a c = true.
Proof.
  unfold SFeqb, SFcompare.
  destruct a as [[]|[]| |[] ma ea], b as [[]|[]| |[] mb eb],
    c as [[]|[]| |[] mc ec]; simpl; try discriminate; try reflexivity;
    intros H1 H2;
    repeat match goal with
    | H : context [Z.compare ?x ?y] |- _ => destruct (Z.compare_spec x y)
    | |- context [Z.compare ?x ?y] => destruct (Z.compare_spec x y)
    end;
    change (Pos.compare_cont Eq) with Pos.compare in *;
    repeat match goal with
    | H : context [Pos.compare ?x ?y] |- _ => destruct (Pos.compare_spec x y)
    | |- context [Pos.compare ?x ?y] => destruct (Pos.compare_spec x y)
    end;
    simpl in *; subst; try discriminate; try reflexivity; try lia.
Qed.

Lemma key_eqb_sym a b : PyDict.key_eqb a b = PyDict.key_eqb b a.
Proof.
  destruct a, b; simpl; try reflexivity.
  - apply Z.eqb_sym.
  - rewrite !FloatAxioms.eqb_spec. apply SFeqb_sym.
  - apply String.eqb_sym.
Qed.

Lemma key_eqb_trans a b c :
  PyDict.key_eqb a b = true -> PyDict.key_eqb b c = true ->
  PyDict.key_eqb a c = true.
Proof.
  destruct a, b, c; simpl; try discriminate; try reflexivity.
  - rewrite !Z.eqb_eq. congruence.
  - rewrite !FloatAxioms.eqb_spec. apply SFeqb_trans.
  - rewrite !String.eqb_eq. congruence.
Qed.

Lemma same_key_sym a b : PyDict.same_key a b = PyDict.same_key b a.
Proof.
  unfold PyDict.same_key.
  destruct (PyDict.key_of a), (PyDict.key_of b); try reflexivity.
  apply key_eqb_sym.
Qed.

Lemma same_key_trans a b c :
  PyDict.same_key a b = true -> PyDict.same_key b c = true ->
  PyDict.same_key a c = true.
Proof.
  unfold PyDict.same_key.
  destruct (PyDict.key_of a), (PyDict.key_of b), (PyDict.key_of c);
    try discriminate.
  apply key_eqb_trans.
Qed.

(** A key of the dict matches both or none of two equal keys. *)
Lemma same_key_congr k a b :
  PyDict.same_key a b = true ->
  PyDict.same_key k a = PyDict.same_key k b.
Proof.
  intros Hab.
  destruct (PyDict.same_key k a) eqn:Hka, (PyDict.same_key k b) eqn:Hkb;
    try reflexivity.
  - rewrite (same_key_trans k a b Hka Hab) in Hkb. discriminate.
  - rewrite same_key_sym in Hab.
    rewrite (same_key_trans k b a Hkb Hab) in Hka. discriminate.
Qed.

End keys.

(** ** The dict *)

Section dict.

Lemma get_increment b a counts :
  PyDict.get a (PyDict.increment b counts) =
    PyDict.get a counts + (if PyDict.same_key b a then 1 else 0).
Proof.
  induction counts as [|[k n] counts IH]; cbn [PyDict.increment PyDict.get].
  - destruct (PyDict.same_key b a); reflexivity.
  - destruct (PyDict.same_key k b) eqn:Hkb; cbn [PyDict.get].
    + assert (E : PyDict.same_key k a = PyDict.same_key b a).
      { rewrite (same_key_sym k a), (same_key_sym b a).
        apply same_key_congr, Hkb. }
      rewrite E. destruct (PyDict.same_key b a); lia.
    + destruct (PyDict.same_key k a) eqn:Hka; [|exact IH].
      assert (Hba : PyDict.same_key b a = false).
      { destruct (PyDict.same_key b a) eqn:E; [|reflexivity].
        rewrite same_key_sym in E.
        rewrite (same_key_trans k a b Hka E) in Hkb. discriminate. }
      rewrite Hba. lia.
Qed.

Lemma total_increment b counts :
  total (PyDict.increment b counts) = total counts + 1.
Proof.
  induction counts as [|[k n] counts IH]; cbn [PyDict.increment].
  - reflexivity.
  - destruct (PyDict.same_key k b); unfold total in *; cbn [fold_right snd];
      [lia | rewrite IH; lia].
Qed.

End dict.

(** ** One message *)

Ltac jsteps :=
  cbv beta iota zeta delta
    [json_consumer.returned json_consumer.counts_after
       json_consumer.logged_after mbind mret json_consumer.M_bind
       json_consumer.M_ret json_consumer.bind json_consumer.ret
       json_consumer.lift json_consumer.log json_consumer.try_except
       json_consumer.try_finally json_consumer.get_counts
       json_consumer.count_author fst snd] in *;
  cbn [json_consumer.author_counts json_consumer.logged] in *.

Section author_counter.

Variable json_loads : string -> result Py.json.

(** What [process_message] does: it returns, counts the author of the
    message when it has one, and ends on the new counts or on an error. *)
Lemma json_process_message_run message counts lg :
  exists more,
    json_consumer.process_message json_loads message
      (json_consumer.State counts lg) =
      (Ok tt,
       json_consumer.State
         match author_of json_loads message with
         | Some a => PyDict.increment a counts
         | None => counts
         end
         (lg ++ (DEBUG, json_consumer.RawMessageReceived message) :: more)) /\
    match author_of json_loads message with
    | Some a =>
        last more =
          Some (INFO, json_consumer.UpdatedAuthorCounts
                        (PyDict.increment a counts))
    | None => exists r, last more = Some r /\ is_error_record r
    end.
Proof.
  unfold json_consumer.process_message, json_consumer.process_message_except,
    author_of.
  jsteps.
  destruct (json_loads message) as [v|e]; jsteps.
  2:{ eexists. rewrite <- app_assoc. split; [reflexivity|].
      eexists. split; reflexivity. }
  destruct v as [| b | n | x | s | l | d]; jsteps.
  1-6: eexists; rewrite <- !app_assoc; (split; [reflexivity|]);
       eexists; split; reflexivity.
  unfold PyDict.iadd.
  destruct (PyDict.hashable (default (Py.JStr "unknown") (Py.dict_get "author" d)));
    jsteps.
  - eexists. rewrite <- !app_assoc. split; reflexivity.
  - eexists. rewrite <- !app_assoc. split; [reflexivity|].
    eexists. split; reflexivity.
Qed.

Lemma json_poll_run message counts lg :
  exists more,
    json_consumer.poll json_loads message (json_consumer.State counts lg) =
      (Ok tt,
       json_consumer.State
         match author_of json_loads (value message) with
         | Some a => PyDict.increment a counts
         | None => counts
         end
         (lg ++ more)).
Proof.
  unfold json_consumer.poll. jsteps.
  destruct (json_process_message_run (value message) counts
              (lg ++ [(DEBUG, json_consumer.ReceivedMessage (offset message)
                                (value message))]))
    as (more & Hrun & _).
  rewrite Hrun. eexists. rewrite <- !app_assoc. reflexivity.
Qed.

(** The loop returns and counts the authors of the stream in order. *)
Lemma json_for_each_poll consumer : forall counts lg,
  exists more,
    json_consumer.for_each consumer (json_consumer.poll json_loads)
      (json_consumer.State counts lg) =
      (Ok tt,
       json_consumer.State
         (fold_left (fun c a => PyDict.increment a c)
            (authors json_loads consumer) counts)
         (lg ++ more)).
Proof.
  induction consumer as [|message consumer IH]; intros counts lg.
  - exists []. rewrite app_nil_r. reflexivity.
  - destruct (json_poll_run message counts lg) as (more1 & Hrun).
    cbn [json_consumer.for_each]. jsteps. rewrite Hrun.
    destruct (IH match author_of json_loads (value message) with
                 | Some a => PyDict.increment a counts
                 | None => counts
                 end (lg ++ more1)) as (more & Hloop).
    rewrite Hloop. exists (more1 ++ more). rewrite <- app_assoc.
    unfold authors. cbn [omap list_omap].
    destruct (author_of json_loads (value message)); reflexivity.
Qed.

Lemma json_main_run environ consumer counts lg :
  exists more,
    json_consumer.main json_loads environ consumer
      (json_consumer.State counts lg) =
      (Ok tt,
       json_consumer.State
         (fold_left (fun c a => PyDict.increment a c)
            (authors json_loads consumer) counts)
         (lg ++ more)).
Proof.
  unfold json_consumer.main, json_consumer.get_kafka_topic,
    json_consumer.get_kafka_consumer_group_id.
  jsteps.
  match goal with
  | |- context [json_consumer.for_each consumer ?f ?s] =>
      destruct s as [c0 lg0] eqn:Hs
  end.
  injection Hs as <- <-.
  match goal with
  | |- context [json_consumer.for_each consumer ?f (json_consumer.State counts ?l)] =>
      destruct (json_for_each_poll consumer counts l) as (more & Hloop)
  end.
  rewrite Hloop. jsteps. eexists. rewrite <- !app_assoc. reflexivity.
Qed.

End author_counter.

Lemma get_counted a l : forall counts,
  PyDict.get a (fold_left (fun c b => PyDict.increment b c) l counts) =
    PyDict.get a counts + Z.of_nat (length (from_author a l)).
Proof.
  induction l as [|b l IH]; intros counts; cbn [fold_left].
  - cbn. lia.
  - rewrite IH, get_increment. unfold from_author.
    destruct (PyDict.same_key b a) eqn:Hba.
    + rewrite filter_cons_True by exact Hba. cbn [length]. lia.
    + rewrite filter_cons_False by (rewrite Hba; discriminate). lia.
Qed.

Lemma total_counted l : forall counts,
  total (fold_left (fun c b => PyDict.increment b c) l counts) =
    total counts + Z.of_nat (length l).
Proof.
  induction l as [|b l IH]; intros counts; cbn [fold_left].
  - cbn. lia.
  - rewrite IH, total_increment. cbn [length]. lia.
Qed.

(** X12: the author counter handles every message.  [process_message]
    returns normally whatever [json.loads] does; a payload that is an
    object with a hashable author (or without one: "unknown") adds one to
    the entry of that author and ends on the record of the new counts;
    any other message (not JSON, not an object, an author that is a list
    or an object) leaves [author_counts] as it was and ends on an error
    record. *)
Theorem author_counted json_loads message st :
  let run := json_consumer.process_message json_loads message in
  json_consumer.returned run st = Ok tt /\
  json_consumer.counts_after run st =
    match author_of json_loads message with
    | Some a => PyDict.increment a (json_consumer.author_counts st)
    | None => json_consumer.author_counts st
    end /\
  match author_of json_loads message with
  | Some a =>
      last (json_consumer.logged_after run st) =
        Some (INFO, json_consumer.UpdatedAuthorCounts
                      (PyDict.increment a (json_consumer.author_counts st)))
  | None =>
      exists r, last (json_consumer.logged_after run st) = Some r /\
                is_error_record r
  end.
Proof.
  destruct st as [counts lg]. cbv zeta.
  destruct (json_process_message_run json_loads message counts lg)
    as (more & Hrun & Hlast).
  unfold json_consumer.returned, json_consumer.counts_after,
    json_consumer.logged_after.
  rewrite Hrun. cbn [fst snd json_consumer.author_counts json_consumer.logged].
  split; [reflexivity|]. split; [reflexivity|].
  assert (Hl : forall r, last more = Some r ->
    last (lg ++ (DEBUG, json_consumer.RawMessageReceived message) :: more) = Some r).
  { intros r Hr. destruct more as [|r0 more] using rev_ind; [discriminate|].
    rewrite last_snoc in Hr. injection Hr as ->.
    change (lg ++ ?x :: more ++ [r]) with (lg ++ (x :: more) ++ [r]).
    rewrite app_assoc. apply last_snoc. }
  destruct (author_of json_loads message).
  - apply Hl, Hlast.
  - destruct Hlast as (r & Hr & Herr). exists r. split; [apply Hl, Hr | exact Herr].
Qed.

(** The authors found for a NaN are the NaN authors. *)
Lemma same_key_nan b x :
  is_nan x = true -> PyDict.same_key b (Py.JFloat x) = nan_author b.
Proof.
  intros Hx. unfold PyDict.same_key. cbn [PyDict.key_of]. rewrite Hx.
  destruct b as [| [] | n | y | s | l | d]; try reflexivity.
  cbn [PyDict.key_of nan_author].
  destruct (is_nan y); [reflexivity|].
  destruct (PyDict.integral y); reflexivity.
Qed.

(** X13: each counter is the number of messages from its author.  For any
    stream, [main] returns normally, and afterwards the count read for an
    author is the count before plus the number of messages of the stream
    counted under an author that the dict takes for the same key: the
    authors 1, 1.0 and true share one counter, and so do the NaN authors,
    which are one object of the decoder, so that the counter of NaN grows
    by the number of messages whose author is a NaN. *)
Theorem author_tally json_loads environ consumer a st :
  let run := json_consumer.main json_loads environ consumer in
  json_consumer.returned run st = Ok tt /\
  PyDict.get a (json_consumer.counts_after run st) =
    PyDict.get a (json_consumer.author_counts st)
    + Z.of_nat (length (from_author a (authors json_loads consumer))) /\
  from_author (Py.JInt 1) [Py.JInt 1; Py.JFloat 1; Py.JBool true; Py.JStr "1"]
    = [Py.JInt 1; Py.JFloat 1; Py.JBool true] /\
  (nan_author a = true ->
   PyDict.get a (json_consumer.counts_after run st) =
     PyDict.get a (json_consumer.author_counts st)
     + Z.of_nat (length (filter (fun b => nan_author b = true)
                           (authors json_loads consumer)))).
Proof.
  destruct st as [counts lg]. cbv zeta.
  destruct (json_main_run json_loads environ consumer counts lg)
    as (more & Hrun).
  unfold json_consumer.returned, json_consumer.counts_after.
  rewrite Hrun. cbn [fst snd json_consumer.author_counts].
  split; [reflexivity|]. split; [apply get_counted|].
  split; [vm_compute; reflexivity|].
  intros Ha. rewrite get_counted. do 3 f_equal.
  destruct a as [| | | x | | |]; try discriminate. cbn [nan_author] in Ha.
  unfold from_author. apply list_filter_iff. intros b.
  rewrite (same_key_nan b x Ha). reflexivity.
Qed.

(** X14: every counted message counts once.  After [main] the sum of all
    counters is the sum before plus the number of messages of the stream
    that carry an author, whatever the authors are. *)
Theorem author_total json_loads environ consumer st :
  total (json_consumer.counts_after
           (json_consumer.main json_loads environ consumer) st) =
    total (json_consumer.author_counts st)
    + Z.of_nat (length (authors json_loads consumer)).
Proof.
  destruct st as [counts lg].
  destruct (json_main_run json_loads environ consumer counts lg)
    as (more & Hrun).
  unfold json_consumer.counts_after.
  rewrite Hrun. cbn [snd json_consumer.author_counts].
  apply total_counted.
Qed.

(** * The further properties on example streams *)

Lemma main_window_witness :
  window_after (main (example.loads stream.four) (stream.window_size "2")
                  (stream.of_objects stream.four)) example.start =
    Py.Deque [226; 227.5]%float 2.
Proof.
  destruct (main_window (example.loads stream.four) (stream.window_size "2")
              (stream.of_objects stream.four) 2 example.start)
    as (_ & Hw & _); [vm_compute; reflexivity | lia |].
  rewrite Hw. vm_compute. reflexivity.
Defined.

Lemma main_startup_failure_witness :
  returned (main (example.loads stream.four) (stream.window_size "-1")
              (stream.of_objects stream.four)) example.start =
    Raise (ValueError NegativeMaxlen) /\
  returned (main (example.loads stream.four)
              (stream.window_size "9223372036854775808")
              (stream.of_objects stream.four)) example.start =
    Raise OverflowError.
Proof.
  split.
  - destruct (main_startup_failure (example.loads stream.four)
                (stream.window_size "-1") (stream.of_objects stream.four)
                example.start) as (Hr & _).
    + intros N HN. vm_compute in HN. injection HN as <-. lia.
    + exact Hr.
  - destruct (main_startup_failure (example.loads stream.four)
                (stream.window_size "9223372036854775808")
                (stream.of_objects stream.four)
                example.start) as (Hr & _).
    + intros N HN. vm_compute in HN. injection HN as <-. lia.
    + exact Hr.
Defined.

Lemma reading_kept_when_threshold_fails_witness :
  window_after
    (process_message (example.loads stream.three)
       {["SMOKER_STALL_THRESHOLD_F" := "one degree"]}
       (example.object_text (example.reading "100" "t1")))
    (stream.holding [99; 99; 99; 99]%float) =
  Py.Deque [99; 99; 99; 99; 100]%float 5.
Proof.
  destruct (reading_kept_when_threshold_fails (example.loads stream.three)
              {["SMOKER_STALL_THRESHOLD_F" := "one degree"]}
              (example.object_text (example.reading "100" "t1"))
              100%float 5 (ValueError (InvalidFloatLiteral "one degree"))
              (stream.holding [99; 99; 99; 99]%float))
    as (_ & Hw & _);
    [ vm_compute; reflexivity | vm_compute; reflexivity
    | vm_compute; split; discriminate | vm_compute; reflexivity | ].
  rewrite Hw. reflexivity.
Defined.

Lemma window_size_zero_witness :
  window_after
    (process_message (example.loads stream.three) (stream.window_size "0")
       (example.object_text (example.reading "100" "t1")))
    (State (Py.Deque [] 0) []) = Py.Deque [] 0.
Proof.
  destruct (window_size_zero (example.loads stream.three)
              (stream.window_size "0")
              (example.object_text (example.reading "100" "t1"))
              100%float (State (Py.Deque [] 0) []))
    as (_ & Hw & _);
    [ vm_compute; reflexivity | vm_compute; reflexivity | reflexivity | ].
  exact Hw.
Defined.

Lemma alarm_iff_stalled_witness :
  exists x N T hi lo,
    reading_of (example.loads stream.three)
      (example.object_text (example.reading "100" "t1")) = Some x /\
    configured_window_size ∅ = Ok N /\
    configured_threshold ∅ = Ok T /\
    N <= Py.len (Py.append (Py.Deque [100; 100; 101; 100]%float 5) x) /\
    Py.max (Py.items (Py.append (Py.Deque [100; 100; 101; 100]%float 5) x))
      = Ok hi /\
    Py.min (Py.items (Py.append (Py.Deque [100; 100; 101; 100]%float 5) x))
      = Ok lo /\
    (hi - lo <=? T)%float = true.
Proof.
  destruct (alarm_iff_stalled (example.loads stream.three) ∅
              (example.object_text (example.reading "100" "t1"))
              (stream.holding [100; 100; 101; 100]%float)
              (logged_after
                 (process_message (example.loads stream.three) ∅
                    (example.object_text (example.reading "100" "t1")))
                 (stream.holding [100; 100; 101; 100]%float)))
    as [[Hstalled _] _]; [reflexivity|].
  apply Hstalled. vm_compute. discriminate.
Defined.

Lemma stall_monotone_in_threshold_witness :
  returned (detect_stall {["SMOKER_STALL_THRESHOLD_F" := "2.5"]}
              (Py.Deque [100; 100; 101; 100; 100]%float 5)) example.start
    = Ok true.
Proof.
  apply (stall_monotone_in_threshold ∅ {["SMOKER_STALL_THRESHOLD_F" := "2.5"]}
           (Py.Deque [100; 100; 101; 100; 100]%float 5)
           example.start example.start 1%float 2.5%float);
    vm_compute; reflexivity.
Defined.

Lemma stall_bounds_every_reading_witness :
  exists N T hi lo,
    configured_window_size ∅ = Ok N /\
    configured_threshold ∅ = Ok T /\
    N <= Py.len (Py.Deque [100; 100; 101; 100; 100]%float 5) /\
    In hi [100; 100; 101; 100; 100]%float /\
    In lo [100; 100; 101; 100; 100]%float /\
    (forall y, In y [100; 100; 101; 100; 100]%float ->
       (lo <=? y)%float = true /\ (y <=? hi)%float = true) /\
    (hi - lo <=? T)%float = true.
Proof.
  apply (stall_bounds_every_reading ∅
           (Py.Deque [100; 100; 101; 100; 100]%float 5) example.start).
  - cbn [Py.items]. repeat constructor.
  - vm_compute. reflexivity.
Defined.

Lemma constant_window_witness :
  returned (detect_stall ∅ (Py.Deque [225; 225; 225; 225; 225]%float 5))
    example.start = Ok true /\
  returned (detect_stall ∅
              (Py.Deque [infinity; infinity; infinity; infinity; infinity] 5))
    example.start = Ok false.
Proof.
  split.
  - apply (constant_window ∅ (Py.Deque [225; 225; 225; 225; 225]%float 5)
             225%float 5 1%float example.start);
      try (vm_compute; reflexivity).
    + vm_compute. split; discriminate.
    + cbn [Py.items]. repeat constructor.
  - apply (constant_window ∅
             (Py.Deque [infinity; infinity; infinity; infinity; infinity] 5)
             infinity 5 1%float example.start);
      try (vm_compute; reflexivity).
    + vm_compute. split; discriminate.
    + cbn [Py.items]. repeat constructor.
    + left. reflexivity.
Defined.

Lemma main_decisions_witness :
  decisions
    (logged_after (main (example.loads stream.three) (stream.window_size "2")
                     (stream.of_objects stream.three)) (stream.holding []))
  = [(0.5, true); (2.5, false)]%float.
Proof.
  rewrite (main_decisions (example.loads stream.three) (stream.window_size "2")
             (stream.of_objects stream.three) 2 1%float (stream.holding [])
             (logged_after
                (main (example.loads stream.three) (stream.window_size "2")
                   (stream.of_objects stream.three)) (stream.holding [])));
    [ vm_compute; reflexivity | vm_compute; reflexivity
    | vm_compute; reflexivity | lia | left; lia | reflexivity ].
Defined.
